(** * Cricket news bot: scheduler, dedup store, feed client, delivery client
      and ingestion pipeline

    A shallow embedding of [app/scheduler.py], [app/mongodb_service.py],
    [app/services/news_fetcher.py], [app/services/telegram_bot.py] and
    [app/tasks.py], with the properties of the design document proved
    about it. *)

From Stdlib Require Import ZArith List String Ascii Bool Lia DecimalString.
Import ListNotations.

Open Scope Z_scope.

(* ================================================================== *)
(** ** Python values used across the modules *)

Module Py.

(** [needle in hay] on [str]. *)
Fixpoint contains (needle hay : string) : bool :=
  String.prefix needle hay ||
  match hay with
  | EmptyString => false
  | String _ rest => contains needle rest
  end.

(** Truthiness of the value of [d.get(key)] when it is a [str]: [None]
    and [''] are falsy. *)
Definition truthy_str (o : option string) : bool :=
  match o with
  | Some (String _ _) => true
  | _ => false
  end.

(** Truthiness of the value of a call that returns a [dict] or [None]:
    [None] and [{}] are falsy. *)
Definition truthy_dict {K V} (o : option (list (K * V))) : bool :=
  match o with
  | Some (_ :: _) => true
  | _ => false
  end.

(** [s[:n]] *)
Fixpoint slice_to (n : nat) (s : string) : string :=
  match n, s with
  | S n', String c rest => String c (slice_to n' rest)
  | _, _ => EmptyString
  end.

(** [s.endswith(suffix)] *)
Definition endswith (s suffix : string) : bool :=
  (substring (String.length s - String.length suffix)
             (String.length suffix) s =? suffix)%string.

End Py.

(* ================================================================== *)
(** ** [datetime] and [timedelta]

    A naive UTC [datetime] is the number of microseconds since a fixed
    midnight; a [timedelta] is a difference of two of them.  Python's
    [total_seconds()] divides the microsecond count by [10**6] in floating
    point; the comparisons of the source are against whole numbers of
    seconds, and for every timedelta the datetime range allows the quotient
    is nearer to the exact value than to any other multiple of [10**-6], so
    the comparisons are the integer comparisons below. *)

Module Datetime.

Definition datetime := Z.
Definition timedelta := Z.

Definition us_per_second : Z := 1000000.
Definition us_per_minute : Z := 60 * us_per_second.
Definition us_per_hour : Z := 60 * us_per_minute.
Definition us_per_day : Z := 24 * us_per_hour.

(** [dt.replace(second=0, microsecond=0)] *)
Definition trunc_minute (dt : datetime) : datetime :=
  dt - dt mod us_per_minute.

(** [dt.replace(hour=h, minute=m)]: the date, the second and the
    microsecond of [dt] are kept; [None] is the [ValueError] of an hour
    outside 0..23 or a minute outside 0..59. *)
Definition replace_hm (dt : datetime) (h m : Z) : option datetime :=
  if (0 <=? h) && (h <=? 23) && (0 <=? m) && (m <=? 59)
  then Some (dt / us_per_day * us_per_day
             + h * us_per_hour + m * us_per_minute
             + dt mod us_per_minute)
  else None.

(** [td.total_seconds() > n] and [td.total_seconds() < n] *)
Definition total_seconds_gt (td : timedelta) (n : Z) : bool :=
  n * us_per_second <? td.
Definition total_seconds_lt (td : timedelta) (n : Z) : bool :=
  td <? n * us_per_second.

(** The instant [h:m:s] of day [d], and the clock reading of an instant. *)
Definition at_time (d h m s : Z) : datetime :=
  d * us_per_day + h * us_per_hour + m * us_per_minute + s * us_per_second.

Definition minute_of_day (dt : datetime) : Z :=
  (dt mod us_per_day) / us_per_minute.

(** [dt] lies in the minute [h:m] of day [d]. *)
Definition in_minute (d h m : Z) (dt : datetime) : Prop :=
  at_time d h m 0 <= dt < at_time d h m 0 + us_per_minute.

End Datetime.

(* ================================================================== *)
(** ** [app/scheduler.py] *)

Module Scheduler.
Import Datetime.

Record schedule := { hour : Z; minute : Z }.

(** A document of the [scheduler_tasks] collection. *)
Record scheduled_task := {
  name : string;
  task : string;
  sched : schedule;
  enabled : bool;
  last_run : option datetime
}.

(** [min_interval] of [should_run_task], in seconds. *)
Definition min_interval (task_name : string) : Z :=
  if Py.contains "cleanup" task_name
  then 23 * 3600
  else 50 * 60.

(** [MongoDBScheduler.should_run_task], with the value of
    [datetime.utcnow()] as an argument.  [None] is the [ValueError] that
    [replace] raises on a schedule outside the clock. *)
Definition should_run_task (tk : scheduled_task) (utcnow : datetime)
  : option bool :=
  let now := trunc_minute utcnow in
  match replace_hm now (hour (sched tk)) (minute (sched tk)) with
  | None => None
  | Some task_time =>
      let time_diff := Z.abs (now - task_time) in
      if total_seconds_gt time_diff 120 then Some false
      else
        match last_run tk with
        | Some last_run_dt =>
            if total_seconds_lt (now - last_run_dt) (min_interval (name tk))
            then Some false
            else Some true
        | None => Some true
        end
  end.

(** The two conditions of [should_run_task] taken apart: the tolerance
    test of lines 25-32 and the spacing test of lines 34-45. *)
Definition within_tolerance (tk : scheduled_task) (utcnow : datetime)
  : option bool :=
  let now := trunc_minute utcnow in
  match replace_hm now (hour (sched tk)) (minute (sched tk)) with
  | None => None
  | Some task_time =>
      Some (negb (total_seconds_gt (Z.abs (now - task_time)) 120))
  end.

Definition spacing_met (tk : scheduled_task) (utcnow : datetime) : bool :=
  match last_run tk with
  | Some last_run_dt =>
      negb (total_seconds_lt (trunc_minute utcnow - last_run_dt)
                             (min_interval (name tk)))
  | None => true
  end.

(** Time elapsed since [last_run], from the untruncated clock. *)
Definition elapsed (utcnow last_run_dt : datetime) : timedelta :=
  utcnow - last_run_dt.

End Scheduler.


(* ================================================================== *)
(** ** [app/mongodb_service.py]

    The three collections are lists of documents in insertion order; an
    [ObjectId] is a number drawn from a counter.  The database is taken
    to answer every call, so the [except] branches of the service, which
    log the fault of the driver and return a default, are not entered. *)

Module Mongo.
Import Datetime.

(** The [dict] of an article as the feed client builds it and the
    pipeline passes it on; [is_posted] is absent until the pipeline
    sets it. *)
Record article_data := {
  title : string;
  link : string;
  image_url : option string;
  description : option string;
  source : string;
  is_posted : option bool
}.

(** A document of [news_articles]. *)
Record article_doc := {
  doc_id : nat;
  doc_title : string;
  doc_link : string;
  doc_image_url : option string;
  doc_description : option string;
  doc_source : string;
  doc_posted_at : datetime;
  doc_is_posted : bool
}.

(** The [dict] given to [save_bot_status]; every key is optional. *)
Record status_data := {
  sd_articles_posted : option nat;
  sd_status : option string;
  sd_error_message : option string
}.

(** A document of [bot_status]. *)
Record status_doc := {
  st_id : nat;
  st_last_run : datetime;
  st_articles_posted : nat;
  st_status : string;
  st_error_message : option string
}.

Record db := {
  news_articles : list article_doc;
  bot_status : list status_doc;
  scheduler_tasks : list Scheduler.scheduled_task;
  next_id : nat
}.

(** The filter [{'title': t, 'source': s}]. *)
Definition key_matches (t s : string) (doc : article_doc) : bool :=
  (doc_title doc =? t)%string && (doc_source doc =? s)%string.

Definition find_one (t s : string) (d : db) : option article_doc :=
  find (key_matches t s) (news_articles d).

(** [update_one(filter, {'$setOnInsert': doc}, upsert=True)] on
    [news_articles]: a matching document is left as it is; without one
    the document is inserted under a fresh id, which is the
    [upserted_id] of the result. *)
Definition upsert_set_on_insert (t s : string) (mk : nat -> article_doc)
    (d : db) : option nat * db :=
  match find_one t s d with
  | Some _ => (None, d)
  | None =>
      let id := next_id d in
      (Some id,
       {| news_articles := news_articles d ++ [mk id];
          bot_status := bot_status d;
          scheduler_tasks := scheduler_tasks d;
          next_id := S id |})
  end.

(** The [article_doc] of [save_article], under the id it is stored
    with. *)
Definition article_doc_of (a : article_data) (utcnow : datetime) (id : nat)
  : article_doc :=
  {| doc_id := id;
     doc_title := title a;
     doc_link := link a;
     doc_image_url := image_url a;
     doc_description := description a;
     doc_source := source a;
     doc_posted_at := utcnow;
     doc_is_posted := match is_posted a with
                      | Some b => b
                      | None => false
                      end |}.

(** [MongoDBService.save_article]; the result is the id of the stored
    document. *)
Definition save_article (a : article_data) (utcnow : datetime) (d : db)
  : option nat * db :=
  let article_doc := article_doc_of a utcnow in
  let (upserted_id, d') :=
    upsert_set_on_insert (title a) (source a) article_doc d in
  match upserted_id with
  | Some id => (Some id, d')
  | None =>
      match find_one (title a) (source a) d' with
      | Some existing => (Some (doc_id existing), d')
      | None => (None, d')
      end
  end.

(** [MongoDBService.article_exists] *)
Definition article_exists (t s : string) (d : db) : bool :=
  match find_one t s d with
  | Some _ => true
  | None => false
  end.

(** [update_one] without upsert changes the first matching document. *)
Fixpoint update_first {A} (p : A -> bool) (f : A -> A) (l : list A)
  : list A :=
  match l with
  | [] => []
  | x :: rest =>
      if p x then f x :: rest else x :: update_first p f rest
  end.

Definition set_posted (doc : article_doc) : article_doc :=
  {| doc_id := doc_id doc;
     doc_title := doc_title doc;
     doc_link := doc_link doc;
     doc_image_url := doc_image_url doc;
     doc_description := doc_description doc;
     doc_source := doc_source doc;
     doc_posted_at := doc_posted_at doc;
     doc_is_posted := true |}.

(** [MongoDBService.mark_article_posted] *)
Definition mark_article_posted (t s : string) (d : db) : db :=
  {| news_articles :=
       update_first (key_matches t s) set_posted (news_articles d);
     bot_status := bot_status d;
     scheduler_tasks := scheduler_tasks d;
     next_id := next_id d |}.

(** The [status_doc] of [save_bot_status], under the id it is stored
    with. *)
Definition status_doc_of (sd : status_data) (utcnow : datetime) (id : nat)
  : status_doc :=
  {| st_id := id;
     st_last_run := utcnow;
     st_articles_posted := match sd_articles_posted sd with
                           | Some n => n
                           | None => 0%nat
                           end;
     st_status := match sd_status sd with
                  | Some s => s
                  | None => "active"%string
                  end;
     st_error_message := sd_error_message sd |}.

(** [MongoDBService.save_bot_status] *)
Definition save_bot_status (sd : status_data) (utcnow : datetime) (d : db)
  : option nat * db :=
  let id := next_id d in
  let status_doc := status_doc_of sd utcnow id in
  (Some id,
   {| news_articles := news_articles d;
      bot_status := bot_status d ++ [status_doc];
      scheduler_tasks := scheduler_tasks d;
      next_id := S id |}).

(** [mark_article_posted] for each article of a list, in order. *)
Definition mark_each (new_articles : list article_data) (d : db) : db :=
  fold_left (fun d a => mark_article_posted (title a) (source a) d)
            new_articles d.

(** The posted flag of the document stored under a key, [false] when
    there is none. *)
Definition posted_in (d : db) (t s : string) : bool :=
  match find_one t s d with
  | Some doc => doc_is_posted doc
  | None => false
  end.

(** [f'{hour:02d}'] *)
Definition format_02d (n : nat) : string :=
  let digits := NilEmpty.string_of_uint (Nat.to_uint n) in
  if (String.length digits <? 2)%nat then ("0" ++ digits)%string
  else digits.

(** The list [tasks] that [setup_scheduled_tasks] builds. *)
Definition hourly_task (hour : nat) : Scheduler.scheduled_task :=
  {| Scheduler.name := ("cricket_news_hour_" ++ format_02d hour)%string;
     Scheduler.task := "fetch_and_post_cricket_news"%string;
     Scheduler.sched := {| Scheduler.hour := Z.of_nat hour;
                           Scheduler.minute := 0 |};
     Scheduler.enabled := true;
     Scheduler.last_run := None |}.

Definition cleanup_task : Scheduler.scheduled_task :=
  {| Scheduler.name := "cleanup_old_articles_daily"%string;
     Scheduler.task := "cleanup_old_articles"%string;
     Scheduler.sched := {| Scheduler.hour := 3; Scheduler.minute := 0 |};
     Scheduler.enabled := true;
     Scheduler.last_run := None |}.

Definition seed_tasks : list Scheduler.scheduled_task :=
  map hourly_task (seq 0 24) ++ [cleanup_task].

(** The upsert by name of one task. *)
Definition upsert_task (tk : Scheduler.scheduled_task)
    (tasks : list Scheduler.scheduled_task)
  : list Scheduler.scheduled_task :=
  if existsb (fun t => (Scheduler.name t =? Scheduler.name tk)%string) tasks
  then tasks
  else tasks ++ [tk].

(** [MongoDBService.setup_scheduled_tasks] *)
Definition setup_scheduled_tasks (d : db) : db :=
  {| news_articles := news_articles d;
     bot_status := bot_status d;
     scheduler_tasks :=
       fold_left (fun tasks tk => upsert_task tk tasks) seed_tasks
                 (scheduler_tasks d);
     next_id := next_id d |}.


(** [MongoDBService.update_task_last_run] *)
Definition update_task_last_run (task_name : string) (utcnow : datetime)
    (d : db) : db :=
  {| news_articles := news_articles d;
     bot_status := bot_status d;
     scheduler_tasks :=
       update_first
         (fun t => (Scheduler.name t =? task_name)%string)
         (fun t => {| Scheduler.name := Scheduler.name t;
                      Scheduler.task := Scheduler.task t;
                      Scheduler.sched := Scheduler.sched t;
                      Scheduler.enabled := Scheduler.enabled t;
                      Scheduler.last_run := Some utcnow |})
         (scheduler_tasks d);
     next_id := next_id d |}.

End Mongo.

(* ================================================================== *)
(** ** [app/services/news_fetcher.py] *)

Module Fetcher.
Import Mongo.

(** An entry of [feed.entries]: every attribute may be missing from the
    feed, and reading a missing one raises [AttributeError]. *)
Record entry := {
  entry_title : option string;
  entry_link : option string;
  entry_summary : option string
}.

(** [hasattr(item, 'summary')] *)
Definition has_summary (item : entry) : bool :=
  match entry_summary item with
  | Some _ => true
  | None => false
  end.

Section WithFeed.

(** What [feedparser.parse(self.espn_rss_url)] gives at this call: the
    entries of the feed (none for a feed it cannot read), or [None]
    when the call raises. *)
Variable parse : option (list entry).

(** [extract_article_content(url)], the scrape of the article page: an
    image and a description, each of which may be [None].  It catches
    its own faults and never raises. *)
Variable extract_article_content : string -> option string * option string.

(** The body of the [for] loop of [fetch_cricket_news], on the rest of
    [feed.entries[:max_articles]]; [articles] is the list built so far
    and [scraped] the pages fetched so far. *)
Fixpoint fetch_loop (entries : list entry) (articles : list article_data)
    (scraped : list string) : list article_data * list string :=
  match entries with
  | [] => (articles, scraped)
  | item :: rest =>
      match entry_link item with
      | None => fetch_loop rest articles scraped
      | Some item_link =>
          let (image, extracted) := extract_article_content item_link in
          let scraped := scraped ++ [item_link] in
          let description :=
            if negb (Py.truthy_str extracted) && has_summary item
            then entry_summary item
            else extracted in
          match entry_title item with
          | None => fetch_loop rest articles scraped
          | Some item_title =>
              let articles :=
                articles ++ [ {| title := item_title;
                                 link := item_link;
                                 image_url := image;
                                 description := description;
                                 source := "ESPN";
                                 is_posted := None |} ] in
              if (5 <=? List.length articles)%nat
              then (articles, scraped)
              else fetch_loop rest articles scraped
          end
      end
  end.

(** [NewsFetcher.fetch_cricket_news], with the pages it fetched. *)
Definition fetch_cricket_news_traced : list article_data * list string :=
  match parse with
  | None => ([], [])
  | Some [] => ([], [])
  | Some entries =>
      let max_articles := Nat.min 10 (List.length entries) in
      fetch_loop (firstn max_articles entries) [] []
  end.

Definition fetch_cricket_news : list article_data :=
  fst fetch_cricket_news_traced.

(** The article that the loop body appends for an entry, when it
    appends one: an entry without a link or without a title raises in
    the body and is passed over. *)
Definition article_of (item : entry) : option article_data :=
  match entry_link item, entry_title item with
  | Some item_link, Some item_title =>
      let (image, extracted) := extract_article_content item_link in
      Some {| title := item_title;
              link := item_link;
              image_url := image;
              description :=
                if negb (Py.truthy_str extracted) && has_summary item
                then entry_summary item
                else extracted;
              source := "ESPN";
              is_posted := None |}
  | _, _ => None
  end.

(** The articles of a list of entries, in the order of the entries. *)
Definition candidates (entries : list entry) : list article_data :=
  flat_map (fun item => match article_of item with
                        | Some a => [a]
                        | None => []
                        end) entries.

(** The links of a list of entries, in the order of the entries. *)
Definition links (entries : list entry) : list string :=
  flat_map (fun item => match entry_link item with
                        | Some l => [l]
                        | None => []
                        end) entries.

End WithFeed.

End Fetcher.

(* ================================================================== *)
(** ** [app/services/telegram_bot.py] *)

Module Telegram.
Import Mongo.

Definition newline : string := String "010" EmptyString.
Definition quote : string := String "034" EmptyString.

(** The payloads of the two calls of the Bot API. *)
Inductive request :=
| SendMessage (chat_id text parse_mode : string)
              (disable_web_page_preview : bool)
| SendPhoto (chat_id photo caption parse_mode : string).

(** What one call of [post_articles] did, in order. *)
Inductive action :=
| Post (i : nat) (req : request) (ok : bool)
| Sleep (seconds : nat).

(** [d[:n] + "..." if len(d) > n else d] *)
Definition shorten (n : nat) (d : string) : string :=
  if (n <? String.length d)%nat
  then (Py.slice_to n d ++ "...")%string
  else d.

(** The last line of a message: [<a href="link">Read full article</a>]. *)
Definition anchor (url : string) : string :=
  ("<a href=" ++ quote ++ url ++ quote ++ ">Read full article</a>")%string.

(** The text that [send_message] and [send_photo] build before they cut
    it: the title in bold, the description when there is one, cut after
    [n] characters, and the link. *)
Definition compose (n : nat) (article : article_data) : string :=
  let message := ("<b>" ++ title article ++ "</b>")%string in
  let message :=
    match description article with
    | Some d =>
        if Py.truthy_str (description article)
        then (message ++ newline ++ newline ++ shorten n d)%string
        else message
    | None => message
    end in
  (message ++ newline ++ newline ++ anchor (link article))%string.

(** The [text] of [send_message]. *)
Definition message_text (article : article_data) : string :=
  let message := compose 300 article in
  if (4096 <? String.length message)%nat
  then (Py.slice_to 4090 message ++ "...")%string
  else message.

(** The [caption] of [send_photo]. *)
Definition photo_caption (article : article_data) : string :=
  let caption := compose 200 article in
  if (1024 <? String.length caption)%nat
  then (Py.slice_to 1020 caption ++ "...")%string
  else caption.

(** [line] is the last line of [text]. *)
Definition final_line (text line : string) : bool :=
  Py.endswith text (newline ++ line).

(** The requests of a record of [post_articles], in order. *)
Definition requests (done : list action) : list request :=
  flat_map (fun act => match act with
                       | Post _ req _ => [req]
                       | Sleep _ => []
                       end) done.

(** In a record of [post_articles], every request that is followed by
    another one is followed by a delay of one second first. *)
Fixpoint delay_between_posts (done : list action) : bool :=
  match done with
  | [] => true
  | Post _ _ _ :: rest =>
      match rest with
      | Post _ _ _ :: _ => false
      | Sleep seconds :: _ => (seconds =? 1)%nat && delay_between_posts rest
      | [] => true
      end
  | Sleep _ :: rest => delay_between_posts rest
  end.

(** In a record of [post_articles], the delays are those of one second
    after the confirmed requests that are followed by another request:
    a request followed by a delay is confirmed, and a request followed
    at once by the next request is refused. *)
Fixpoint delay_after_confirmed (done : list action) : bool :=
  match done with
  | [] => true
  | Post _ _ ok :: rest =>
      match rest with
      | [] => true
      | Sleep seconds :: _ =>
          ok && (seconds =? 1)%nat && delay_after_confirmed rest
      | Post _ _ _ :: _ => negb ok && delay_after_confirmed rest
      end
  | Sleep _ :: rest => delay_after_confirmed rest
  end.

Section WithSink.

(** [settings.CHAT_ID] *)
Variable chat_id : string.

(** The sink: whether the [i]-th article's request is answered with
    status 200 and [ok].  Every other outcome of the call (another
    status, a body that is not JSON, a timeout) ends in the [raise] of
    [send_message] or [send_photo]. *)
Variable sink : nat -> request -> bool.

Definition message_payload (article : article_data) : request :=
  SendMessage chat_id (message_text article) "HTML" false.

Definition photo_payload (article : article_data) : request :=
  SendPhoto chat_id
    (match image_url article with Some u => u | None => EmptyString end)
    (photo_caption article) "HTML".

(** [TelegramBot.send_message] and [TelegramBot.send_photo]: [true]
    when the result is returned, [false] when the call raises. *)
Definition send_message (i : nat) (article : article_data) : bool :=
  sink i (message_payload article).

Definition send_photo (i : nat) (article : article_data) : bool :=
  sink i (photo_payload article).

(** The request that [post_articles] makes for an article. *)
Definition payload_of (article : article_data) : request :=
  if Py.truthy_str (image_url article)
  then photo_payload article
  else message_payload article.

(** The [for] loop of [post_articles] from index [i] on; [n] is
    [len(articles)] of the whole list. *)
Fixpoint post_loop (n i : nat) (articles : list article_data)
    (posted_count : nat) (done : list action) : nat * list action :=
  match articles with
  | [] => (posted_count, done)
  | article :: rest =>
      let sent :=
        if Py.truthy_str (image_url article)
        then send_photo i article
        else send_message i article in
      if sent then
        let done := done ++ [Post i (payload_of article) true] in
        let posted_count := S posted_count in
        let done :=
          if (i <? n - 1)%nat then done ++ [Sleep 1] else done in
        post_loop n (S i) rest posted_count done
      else
        post_loop n (S i) rest posted_count
                  (done ++ [Post i (payload_of article) false])
  end.

(** [TelegramBot.post_articles], with what it did. *)
Definition post_articles_traced (articles : list article_data)
  : nat * list action :=
  post_loop (List.length articles) 0 articles 0 [].

Definition post_articles (articles : list article_data) : nat :=
  fst (post_articles_traced articles).

(** What one pass of the loop body does for the [i]-th of [n]
    articles: the request, and a delay of one second when the request
    was confirmed and the article is not the last. *)
Definition pass (n i : nat) (article : article_data) : list action :=
  let req := payload_of article in
  if sink i req
  then Post i req true :: (if (i <? n - 1)%nat then [Sleep 1] else [])
  else [Post i req false].

Fixpoint passes (n i : nat) (articles : list article_data)
  : list action :=
  match articles with
  | [] => []
  | article :: rest => pass n i article ++ passes n (S i) rest
  end.

(** The number of confirmed requests among the articles from index
    [i] on. *)
Fixpoint confirmed (i : nat) (articles : list article_data) : nat :=
  match articles with
  | [] => 0
  | article :: rest =>
      (if sink i (payload_of article) then 1 else 0)
      + confirmed (S i) rest
  end%nat.

End WithSink.

End Telegram.

(* ================================================================== *)
(** ** [app/tasks.py]

    A run of the pipeline threads the database, the clock and the record
    of its calls through every step, and a step may raise; the steps are
    written in a state-and-exception monad. *)

Module Tasks.
Import Datetime Mongo.

(** The calls a run makes on its collaborators, in order. *)
Inductive event :=
| GetBotInfo
| FetchCricketNews (scraped : list string)
| ArticleExists (t s : string)
| SaveArticle (a : article_data)
| PostArticles (articles : list article_data) (done : list Telegram.action)
| MarkArticlePosted (t s : string)
| SaveBotStatus (sd : status_data)
| CloseConnection.

Record world := {
  store : db;
  clock_reads : nat;
  events : list event
}.

Inductive outcome (A : Type) :=
| Returned (a : A)
| Raised (message : string).
Arguments Returned {A} a.
Arguments Raised {A} message.

Definition M (A : Type) : Type := world -> outcome A * world.

Definition ret {A} (a : A) : M A := fun w => (Returned a, w).

Definition bind {A B} (m : M A) (k : A -> M B) : M B :=
  fun w =>
    match m w with
    | (Returned a, w') => k a w'
    | (Raised e, w') => (Raised e, w')
    end.

(** [raise Exception(message)] *)
Definition raise {A} (message : string) : M A :=
  fun w => (Raised message, w).

(** [try: body except Exception as e: handler(str(e))] *)
Definition try_except {A} (body : M A) (handler : string -> M A) : M A :=
  fun w =>
    match body w with
    | (Returned a, w') => (Returned a, w')
    | (Raised e, w') => handler e w'
    end.

(** [try: body finally: cleanup] *)
Definition try_finally {A} (body : M A) (cleanup : M unit) : M A :=
  fun w =>
    match body w with
    | (r, w') =>
        match cleanup w' with
        | (Returned _, w'') => (r, w'')
        | (Raised e, w'') => (Raised e, w'')
        end
    end.

Notation "x <- m ;; k" := (bind m (fun x => k))
  (at level 61, m at next level, right associativity).
Notation "m ;;; k" := (bind m (fun _ => k))
  (at level 61, right associativity).

Definition emit (e : event) : M unit :=
  fun w => (Returned tt,
            {| store := store w;
               clock_reads := clock_reads w;
               events := events w ++ [e] |}).

Definition get_store : M db := fun w => (Returned (store w), w).

Definition put_store (d : db) : M unit :=
  fun w => (Returned tt,
            {| store := d;
               clock_reads := clock_reads w;
               events := events w |}).

(** The dicts that the task returns. *)
Inductive task_result :=
| StatusMessage (status message : string)
| StatusPosted (status : string)
               (articles_found new_articles articles_posted : nat)
               (timestamp : datetime)
| StatusError (status message : string) (timestamp : datetime).

Section WithCollaborators.

(** The feed and the scrape of the article pages at this run. *)
Variable parse : option (list Fetcher.entry).
Variable extract_article_content : string -> option string * option string.

(** The chat and the sink's answers at this run. *)
Variable chat_id : string.
Variable sink : nat -> Telegram.request -> bool.

(** The value of [telegram_bot.get_bot_info()]: the [result] dict of
    [getMe], or [None]. *)
Variable bot_info : option (list (string * string)).

(** The value of the [n]-th [datetime.utcnow()] of the run. *)
Variable clock : nat -> datetime.

Definition utcnow : M datetime :=
  fun w => (Returned (clock (clock_reads w)),
            {| store := store w;
               clock_reads := S (clock_reads w);
               events := events w |}).

Definition get_bot_info : M (option (list (string * string))) :=
  emit GetBotInfo ;;; ret bot_info.

Definition fetch_cricket_news : M (list article_data) :=
  let (articles, scraped) :=
    Fetcher.fetch_cricket_news_traced parse extract_article_content in
  emit (FetchCricketNews scraped) ;;; ret articles.

Definition article_exists (t s : string) : M bool :=
  emit (ArticleExists t s) ;;;
  d <- get_store ;;
  ret (Mongo.article_exists t s d).

Definition save_article (a : article_data) : M (option nat) :=
  emit (SaveArticle a) ;;;
  now <- utcnow ;;
  d <- get_store ;;
  let (id, d') := Mongo.save_article a now d in
  put_store d' ;;; ret id.

Definition mark_article_posted (t s : string) : M unit :=
  emit (MarkArticlePosted t s) ;;;
  d <- get_store ;;
  put_store (Mongo.mark_article_posted t s d).

Definition save_bot_status (sd : status_data) : M (option nat) :=
  emit (SaveBotStatus sd) ;;;
  now <- utcnow ;;
  d <- get_store ;;
  let (id, d') := Mongo.save_bot_status sd now d in
  put_store d' ;;; ret id.

Definition post_articles (articles : list article_data) : M nat :=
  let (posted_count, done) :=
    Telegram.post_articles_traced chat_id sink articles in
  emit (PostArticles articles done) ;;; ret posted_count.

Definition close_connection : M unit := emit CloseConnection.

(** [article_data['is_posted'] = False] *)
Definition set_is_posted (a : article_data) (b : bool) : article_data :=
  {| title := title a;
     link := link a;
     image_url := image_url a;
     description := description a;
     source := source a;
     is_posted := Some b |}.

(** The loop that filters the new articles. *)
Fixpoint filter_new (articles new_articles : list article_data)
  : M (list article_data) :=
  match articles with
  | [] => ret new_articles
  | article_data :: rest =>
      known <- article_exists (title article_data) (source article_data) ;;
      if negb known then
        let article_data := set_is_posted article_data false in
        save_article article_data ;;;
        filter_new rest (new_articles ++ [article_data])
      else
        filter_new rest new_articles
  end.

(** The loop that marks the new articles as posted. *)
Fixpoint mark_all (new_articles : list article_data) : M unit :=
  match new_articles with
  | [] => ret tt
  | article_data :: rest =>
      mark_article_posted (title article_data) (source article_data) ;;;
      mark_all rest
  end.

(** The dicts that the task gives to [save_bot_status]. *)
Definition no_articles_status : status_data :=
  {| sd_articles_posted := Some 0%nat;
     sd_status := Some "success"%string;
     sd_error_message := Some "No articles found"%string |}.

Definition no_new_articles_status : status_data :=
  {| sd_articles_posted := Some 0%nat;
     sd_status := Some "success"%string;
     sd_error_message := Some "No new articles"%string |}.

Definition posted_status (posted_count : nat) : status_data :=
  {| sd_articles_posted := Some posted_count;
     sd_status := Some "success"%string;
     sd_error_message := None |}.

Definition error_status (e : string) : status_data :=
  {| sd_articles_posted := Some 0%nat;
     sd_status := Some "error"%string;
     sd_error_message := Some e |}.

(** The [try] block of [fetch_and_post_cricket_news]. *)
Definition pipeline_body : M task_result :=
  info <- get_bot_info ;;
  if negb (Py.truthy_dict info) then
    raise "Failed to connect to Telegram bot"
  else
    articles <- fetch_cricket_news ;;
    match articles with
    | [] =>
        save_bot_status no_articles_status ;;;
        ret (StatusMessage "success" "No articles found")
    | _ :: _ =>
        new_articles <- filter_new articles [] ;;
        match new_articles with
        | [] =>
            save_bot_status no_new_articles_status ;;;
            ret (StatusMessage "success" "No new articles")
        | _ :: _ =>
            posted_count <- post_articles new_articles ;;
            if (posted_count =? 0)%nat then
              raise "Failed to post any articles"
            else
              mark_all new_articles ;;;
              save_bot_status (posted_status posted_count) ;;;
              timestamp <- utcnow ;;
              ret (StatusPosted "success"
                     (List.length articles) (List.length new_articles)
                     posted_count timestamp)
        end
    end.

(** The [except] block. *)
Definition pipeline_handler (e : string) : M task_result :=
  try_except (save_bot_status (error_status e) ;;; ret tt)
             (fun _ => ret tt) ;;;
  timestamp <- utcnow ;;
  ret (StatusError "error" e timestamp).

(** [fetch_and_post_cricket_news] *)
Definition fetch_and_post_cricket_news : M task_result :=
  try_finally
    (try_except pipeline_body pipeline_handler)
    (try_except close_connection (fun _ => ret tt)).

(** The world a run starts in. *)
Definition start (d : db) : world :=
  {| store := d; clock_reads := 0; events := [] |}.

(** The calls of the filter loop. *)
Definition store_probe (e : event) : bool :=
  match e with
  | ArticleExists _ _ | SaveArticle _ => true
  | _ => false
  end.

(** The calls on the dedup store and on the delivery client. *)
Definition store_or_delivery (e : event) : bool :=
  match e with
  | ArticleExists _ _ | SaveArticle _ | PostArticles _ _
  | MarkArticlePosted _ _ => true
  | _ => false
  end.

Definition mark_event (a : article_data) : event :=
  MarkArticlePosted (title a) (source a).

(** The run appended the status [sd] to the statuses of [d]. *)
Definition status_appended (sd : status_data) (d : db) (w : world)
  : Prop :=
  exists now id,
    bot_status (store w) = bot_status d ++ [status_doc_of sd now id].

(** The five ways a run that starts from the store [d] can go, each
    with the result it returns, the calls it makes and the store it
    leaves. *)
Inductive run_of (d : db) : outcome task_result -> world -> Prop :=
| SinkUnreachable w timestamp :
    Py.truthy_dict bot_info = false ->
    events w = [GetBotInfo;
                SaveBotStatus
                  (error_status "Failed to connect to Telegram bot");
                CloseConnection] ->
    status_appended (error_status "Failed to connect to Telegram bot")
                    d w ->
    news_articles (store w) = news_articles d ->
    run_of d (Returned (StatusError "error"
                          "Failed to connect to Telegram bot" timestamp))
           w
| EmptyFeed w scraped :
    Py.truthy_dict bot_info = true ->
    Fetcher.fetch_cricket_news_traced parse extract_article_content
      = ([], scraped) ->
    events w = [GetBotInfo; FetchCricketNews scraped;
                SaveBotStatus no_articles_status; CloseConnection] ->
    status_appended no_articles_status d w ->
    news_articles (store w) = news_articles d ->
    run_of d (Returned (StatusMessage "success" "No articles found")) w
| NothingNew w articles scraped probes :
    Py.truthy_dict bot_info = true ->
    Fetcher.fetch_cricket_news_traced parse extract_article_content
      = (articles, scraped) ->
    articles <> [] ->
    forallb store_probe probes = true ->
    events w = [GetBotInfo; FetchCricketNews scraped] ++ probes
               ++ [SaveBotStatus no_new_articles_status;
                   CloseConnection] ->
    status_appended no_new_articles_status d w ->
    news_articles (store w) = news_articles d ->
    run_of d (Returned (StatusMessage "success" "No new articles")) w
| NothingPosted w articles scraped probes new_articles done timestamp :
    Py.truthy_dict bot_info = true ->
    Fetcher.fetch_cricket_news_traced parse extract_article_content
      = (articles, scraped) ->
    articles <> [] ->
    new_articles <> [] ->
    forallb store_probe probes = true ->
    Telegram.post_articles_traced chat_id sink new_articles
      = (0%nat, done) ->
    events w = [GetBotInfo; FetchCricketNews scraped] ++ probes
               ++ [PostArticles new_articles done;
                   SaveBotStatus
                     (error_status "Failed to post any articles");
                   CloseConnection] ->
    status_appended (error_status "Failed to post any articles") d w ->
    run_of d (Returned (StatusError "error"
                          "Failed to post any articles" timestamp)) w
| PostedSome w articles scraped probes new_articles posted_count done
             timestamp :
    Py.truthy_dict bot_info = true ->
    Fetcher.fetch_cricket_news_traced parse extract_article_content
      = (articles, scraped) ->
    articles <> [] ->
    new_articles <> [] ->
    forallb store_probe probes = true ->
    Telegram.post_articles_traced chat_id sink new_articles
      = (posted_count, done) ->
    posted_count <> 0%nat ->
    events w = [GetBotInfo; FetchCricketNews scraped] ++ probes
               ++ [PostArticles new_articles done]
               ++ map mark_event new_articles
               ++ [SaveBotStatus (posted_status posted_count);
                   CloseConnection] ->
    status_appended (posted_status posted_count) d w ->
    (forall a, In a new_articles ->
               posted_in (store w) (title a) (source a) = true) ->
    run_of d (Returned (StatusPosted "success"
                          (List.length articles)
                          (List.length new_articles)
                          posted_count timestamp)) w.

End WithCollaborators.

End Tasks.

(* ================================================================== *)
(** ** Concrete tasks, articles and stores for the examples *)

Module Fixtures.
Import Datetime Mongo.

Definition task_at (n : string) (h m : Z) (lr : option datetime)
  : Scheduler.scheduled_task :=
  {| Scheduler.name := n;
     Scheduler.task := "fetch_and_post_cricket_news";
     Scheduler.sched := {| Scheduler.hour := h; Scheduler.minute := m |};
     Scheduler.enabled := true;
     Scheduler.last_run := lr |}.

Definition empty_db : db :=
  {| news_articles := []; bot_status := []; scheduler_tasks := [];
     next_id := 0 |}.

Definition story (t l : string) (img : option string) : article_data :=
  {| title := t; link := l; image_url := img;
     description := None; source := "ESPN"; is_posted := Some false |}.

(** Two fetches of one story, the second with another link and an
    image. *)
Definition first_story : article_data :=
  story "India win the series" "https://a.example/1" None.
Definition second_story : article_data :=
  story "India win the series" "https://b.example/2"
        (Some "https://b.example/i.png"%string).

(** A sink that refuses the first request and confirms the others, and
    one that refuses every request. *)
Definition first_refused (i : nat) (_ : Telegram.request) : bool :=
  negb (i =? 0)%nat.
Definition all_refused (_ : nat) (_ : Telegram.request) : bool := false.

Definition other_story : article_data :=
  story "Test squad named" "https://a.example/2" None.

Fixpoint letters (n : nat) : string :=
  match n with
  | O => EmptyString
  | S n' => String "a" (letters n')
  end.

(** An article whose title alone is longer than a caption may be, and
    one whose title is longer than a message may be. *)
Definition long_photo_story : article_data :=
  story (letters 1100) "https://a.example/long"
        (Some "https://a.example/long.jpg"%string).
Definition long_text_story : article_data :=
  story (letters 4200) "https://a.example/long" None.

(** A feed of twelve entries, the third without a link; a scrape that
    finds nothing. *)
Definition numbered_entry (n : nat) : Fetcher.entry :=
  {| Fetcher.entry_title :=
       Some ("Story " ++ NilEmpty.string_of_uint (Nat.to_uint n))%string;
     Fetcher.entry_link :=
       if (n =? 2)%nat then None
       else Some ("https://a.example/"
                  ++ NilEmpty.string_of_uint (Nat.to_uint n))%string;
     Fetcher.entry_summary := Some "Summary"%string |}.

Definition twelve_entries : list Fetcher.entry :=
  map numbered_entry (seq 0 12).

Definition no_content (_ : string) : option string * option string :=
  (None, None).

(** The collaborators of a run: a feed of two entries, a sink that is
    reachable, and a clock that advances by one at each reading. *)
Definition two_entries : list Fetcher.entry :=
  map numbered_entry (seq 0 2).

Definition reachable : option (list (string * string)) :=
  Some [("username", "cricket_bot")]%string.

Definition ticking (n : nat) : datetime := Z.of_nat n.

Definition run_with (feed : option (list Fetcher.entry))
    (sink : nat -> Telegram.request -> bool) : Tasks.world :=
  snd (Tasks.fetch_and_post_cricket_news feed no_content EmptyString sink
         reachable ticking (Tasks.start empty_db)).

(** The new articles of the run on [two_entries] from the empty store. *)
Definition two_new : list article_data :=
  map (fun a => Tasks.set_is_posted a false)
      (Fetcher.fetch_cricket_news (Some two_entries) no_content).

End Fixtures.

(* ================================================================== *)
(** ** [app/mongodb_service.py]: cleanup and statistics

    As above the database is taken to answer every call and to keep a
    [datetime] as it is given. *)

Module MongoQueries.
Import Datetime Mongo.

(** The filter [{'posted_at': {'$lt': horizon}}]. *)
Definition older_than (horizon : datetime) (doc : article_doc) : bool :=
  doc_posted_at doc <? horizon.

(** [MongoDBService.cleanup_old_articles]: the [deleted_count] and the
    database after [delete_many]. *)
Definition cleanup_old_articles (utcnow : datetime) (d : db) : nat * db :=
  let seven_days_ago := utcnow - 7 * us_per_day in
  let deleted := filter (older_than seven_days_ago) (news_articles d) in
  (List.length deleted,
   {| news_articles :=
        filter (fun doc => negb (older_than seven_days_ago doc))
               (news_articles d);
      bot_status := bot_status d;
      scheduler_tasks := scheduler_tasks d;
      next_id := next_id d |}).

(** [now.replace(hour=0, minute=0, second=0, microsecond=0)] *)
Definition today_start (utcnow : datetime) : datetime :=
  utcnow - utcnow mod us_per_day.

(** [MongoDBService.get_statistics]: [total_articles_posted] and
    [today_articles_posted]. *)
Definition get_statistics (utcnow : datetime) (d : db) : nat * nat :=
  let today_start := today_start utcnow in
  let today_end := today_start + us_per_day in
  let total_articles :=
    List.length (filter doc_is_posted (news_articles d)) in
  let today_articles :=
    List.length
      (filter (fun doc => doc_is_posted doc
                          && (today_start <=? doc_posted_at doc)
                          && (doc_posted_at doc <? today_end))
              (news_articles d)) in
  (total_articles, today_articles).

(** The keys of the stored articles, in order. *)
Definition keys (d : db) : list (string * string) :=
  map (fun doc => (doc_title doc, doc_source doc)) (news_articles d).

(** What a stored article holds apart from its posted flag. *)
Definition content (doc : article_doc)
  : nat * string * string * option string * option string * string
    * datetime :=
  (doc_id doc, doc_title doc, doc_link doc, doc_image_url doc,
   doc_description doc, doc_source doc, doc_posted_at doc).

End MongoQueries.

(* ================================================================== *)
(** ** [app/services/news_fetcher.py]: the scrape of an article page

    A [str] is a string of code points below 256.  The page is what
    [requests.get] and [BeautifulSoup] give: its status code and, for a
    CSS selector, the first element that matches, with its [content] and
    [src] attributes and its stripped text. *)

Module Scraper.

(** [c.lower()] for a code point below 256. *)
Definition lower_char (c : ascii) : ascii :=
  let n := nat_of_ascii c in
  if ((65 <=? n) && (n <=? 90)
      || (192 <=? n) && (n <=? 222) && negb (n =? 215))%nat
  then ascii_of_nat (n + 32)
  else c.

(** [s.lower()] *)
Fixpoint lower (s : string) : string :=
  match s with
  | EmptyString => EmptyString
  | String c rest => String (lower_char c) (lower rest)
  end.

(** [a or b] on values that are a [str] or [None]. *)
Definition or_else (a b : option string) : option string :=
  if Py.truthy_str a then a else b.

(** [NewsFetcher.is_valid_image_url] *)
Definition is_valid_image_url (url : option string) : bool :=
  match url with
  | Some u =>
      if negb (Py.truthy_str url) then false
      else existsb (Py.endswith (lower u))
                   [".jpg"; ".jpeg"; ".png"; ".webp"; ".gif"]%string
  | None => false
  end.

(** [NewsFetcher.is_generic_image] *)
Definition is_generic_image (url : option string) : bool :=
  match url with
  | Some u =>
      if negb (Py.truthy_str url) then true
      else existsb (fun keyword => Py.contains keyword (lower u))
                   ["logo"; "icon"; "placeholder"; "spacer";
                    "default"]%string
  | None => true
  end.

Record element := {
  attr_content : option string;
  attr_src : option string;
  stripped_text : string
}.

Record page := {
  status_code : Z;
  select_one : string -> option element
}.

Definition image_selectors : list string :=
  [ "meta[property=" ++ Telegram.quote ++ "og:image" ++ Telegram.quote ++ "]";
    "meta[name=" ++ Telegram.quote ++ "twitter:image" ++ Telegram.quote ++ "]";
    ".story-image img";
    ".article-image img";
    "article img";
    "img[src*=" ++ Telegram.quote ++ "cricket" ++ Telegram.quote ++ "]"
  ]%string.

Definition description_selectors : list string :=
  [ "meta[property=" ++ Telegram.quote ++ "og:description"
      ++ Telegram.quote ++ "]";
    "meta[name=" ++ Telegram.quote ++ "description" ++ Telegram.quote ++ "]";
    ".story-intro";
    "article p:first-of-type"
  ]%string.

(** The two rewritings of a URL that starts with a slash. *)
Definition absolute (found : string) : string :=
  if String.prefix "//" found then ("https:" ++ found)%string
  else if String.prefix "/" found
       then ("https://www.espncricinfo.com" ++ found)%string
       else found.

(** The loop over [image_selectors]. *)
Fixpoint find_image (soup : page) (selectors : list string)
  : option string :=
  match selectors with
  | [] => None
  | selector :: rest =>
      match select_one soup selector with
      | Some element =>
          match or_else (attr_content element) (attr_src element) with
          | Some found_image_url =>
              if Py.truthy_str (Some found_image_url) then
                let found_image_url := absolute found_image_url in
                if is_valid_image_url (Some found_image_url)
                   && negb (is_generic_image (Some found_image_url))
                then Some found_image_url
                else find_image soup rest
              else find_image soup rest
          | None => find_image soup rest
          end
      | None => find_image soup rest
      end
  end.

(** The loop over [description_selectors]. *)
Fixpoint find_description (soup : page) (selectors : list string)
  : option string :=
  match selectors with
  | [] => None
  | selector :: rest =>
      match select_one soup selector with
      | Some element =>
          match or_else (attr_content element)
                        (Some (stripped_text element)) with
          | Some desc_text =>
              if Py.truthy_str (Some desc_text)
                 && (50 <? String.length desc_text)%nat
              then Some desc_text
              else find_description soup rest
          | None => find_description soup rest
          end
      | None => find_description soup rest
      end
  end.

Section WithPages.

(** The page behind a URL at this call; [None] when the request or
    the parse raises. *)
Variable get : string -> option page.

(** [NewsFetcher.extract_article_content] *)
Definition extract_article_content (url : string)
  : option string * option string :=
  match get url with
  | None => (None, None)
  | Some response =>
      if negb (status_code response =? 200) then (None, None)
      else (find_image response image_selectors,
            find_description response description_selectors)
  end.

End WithPages.

End Scraper.

(* ================================================================== *)
(** ** [app/main.py]: the next run of a task in [scheduler_health] *)

Module Health.
Import Datetime.

(** [next_run] of [scheduler_health] for a schedule [h]:[m]; [None] is
    the [ValueError] of [replace]. *)
Definition next_run (now : datetime) (h m : Z) : option datetime :=
  match replace_hm (trunc_minute now) h m with
  | None => None
  | Some next_run =>
      if next_run <=? now then Some (next_run + us_per_day)
      else Some next_run
  end.

End Health.

(* ================================================================== *)
(** ** [app/tasks.py] and [app/scheduler.py]: the cleanup task, the run of
       a task and one pass of the scheduler loop *)

Module Runner.
Import Datetime Mongo Tasks.

(** What [run_task] gets from the routine it calls. *)
Inductive run_result :=
| Pipeline (result : task_result)
| Cleaned (status : string) (cleaned_articles : nat)
| CleanupError (status message : string).

Section WithCollaborators.
Variable parse : option (list Fetcher.entry).
Variable extract_article_content : string -> option string * option string.
Variable chat_id : string.
Variable sink : nat -> Telegram.request -> bool.
Variable bot_info : option (list (string * string)).
Variable clock : nat -> datetime.

(** [tasks.cleanup_old_articles] *)
Definition cleanup_old_articles : M run_result :=
  try_finally
    (try_except
       (now <- utcnow clock ;;
        d <- get_store ;;
        let (cleaned_count, d') :=
          MongoQueries.cleanup_old_articles now d in
        put_store d' ;;;
        ret (Cleaned "success" cleaned_count))
       (fun e => ret (CleanupError "error" e)))
    close_connection.

(** [MongoDBService.update_task_last_run] on the store of the run. *)
Definition update_task_last_run (task_name : string) : M unit :=
  now <- utcnow clock ;;
  d <- get_store ;;
  put_store (Mongo.update_task_last_run task_name now d).




End WithCollaborators.

End Runner.

(* ================================================================== *)
(** ** The new articles of a feed *)

Module Filtering.
Import Mongo.

Definition key (a : article_data) : string * string :=
  (title a, source a).

Definition same_key (a : article_data) (t s : string) : bool :=
  (title a =? t)%string && (source a =? s)%string.

(** The articles of [articles] that the filter loop of the pipeline
    keeps when [known] tells which keys the store holds: an article is
    kept when its key is not known, and its key is known from then
    on. *)
Fixpoint new_of (articles : list article_data)
    (known : string -> string -> bool) : list article_data :=
  match articles with
  | [] => []
  | a :: rest =>
      if known (title a) (source a) then new_of rest known
      else Tasks.set_is_posted a false
           :: new_of rest (fun t s => known t s || same_key a t s)
  end.

(** The document [doc] is what the filter loop stores for the new
    article [a]: it is under the key of [a] and its posted flag is
    unset. *)
Definition saved_as (a : article_data) (doc : article_doc) : Prop :=
  doc_title doc = title a /\ doc_source doc = source a
  /\ doc_is_posted doc = false.

End Filtering.

(* ================================================================== *)
(** ** The task registry *)

Module Registry.
Import Mongo.



(** The schedule of a task is on the clock. *)
Definition on_clock (tk : Scheduler.scheduled_task) : bool :=
  let s := Scheduler.sched tk in
  (0 <=? Scheduler.hour s) && (Scheduler.hour s <=? 23)
  && (0 <=? Scheduler.minute s) && (Scheduler.minute s <=? 59).


(** The registry that [setup_scheduled_tasks] leaves when it starts
    from an empty one. *)
Definition seeded : db :=
  setup_scheduled_tasks
    {| news_articles := []; bot_status := []; scheduler_tasks := [];
       next_id := 0 |}.


End Registry.

(* ================================================================== *)
(** ** What a run leaves in place *)

Module Growth.
Import Mongo Tasks.

Definition prefix_of {A} (l l' : list A) : Prop :=
  exists tail, l' = l ++ tail.

(** From the world [w] to the world [w']: the registry is the same; the
    articles of [w] are all in [w'], in place, with the content they
    had, and a posted flag that was set is set; the statuses and the
    calls of [w] are the first of [w']; the clock was not read
    backwards. *)
Definition grows (w w' : world) : Prop :=
  scheduler_tasks (store w') = scheduler_tasks (store w)
  /\ prefix_of (map MongoQueries.content (news_articles (store w)))
               (map MongoQueries.content (news_articles (store w')))
  /\ (forall t s, posted_in (store w) t s = true ->
                  posted_in (store w') t s = true)
  /\ prefix_of (bot_status (store w)) (bot_status (store w'))
  /\ prefix_of (events w) (events w')
  /\ (clock_reads w <= clock_reads w')%nat.

(** Every run of [m] grows the world. *)
Definition keeps {A} (m : M A) : Prop :=
  forall w, grows w (snd (m w)).

(** [m] returns, it does not raise. *)
Definition returns {A} (m : M A) : Prop :=
  forall w, exists a, fst (m w) = Returned a.

(** The [status] of a result and the number of articles it reports as
    posted. *)
Definition result_status (r : task_result) : string :=
  match r with
  | StatusMessage status _ => status
  | StatusPosted status _ _ _ _ => status
  | StatusError status _ _ => status
  end.

Definition result_posted (r : task_result) : nat :=
  match r with
  | StatusPosted _ _ _ articles_posted _ => articles_posted
  | _ => 0
  end.

Section WithCollaborators.
Variable chat_id : string.
Variable sink : nat -> Telegram.request -> bool.
Variable clock : nat -> Datetime.datetime.

(** The rest of the [try] block of the pipeline after the filter
    loop. *)
Definition after_filter (articles new_articles : list article_data)
  : M task_result :=
  match new_articles with
  | [] =>
      save_bot_status clock no_new_articles_status ;;;
      ret (StatusMessage "success" "No new articles")
  | _ :: _ =>
      posted_count <- post_articles chat_id sink new_articles ;;
      if (posted_count =? 0)%nat then
        raise "Failed to post any articles"
      else
        mark_all new_articles ;;;
        save_bot_status clock (posted_status posted_count) ;;;
        timestamp <- utcnow clock ;;
        ret (StatusPosted "success"
               (List.length articles) (List.length new_articles)
               posted_count timestamp)
  end.

(** The run from the end of the filter loop on. *)
Definition finish (articles new_articles : list article_data)
  : M task_result :=
  try_finally
    (try_except (after_filter articles new_articles)
                (pipeline_handler clock))
    (try_except close_connection (fun _ => ret tt)).

End WithCollaborators.

End Growth.

(* ================================================================== *)
(** ** The time [post_articles] sleeps *)

Module Delays.

(** The seconds slept in a record of [post_articles]. *)
Fixpoint slept (done : list Telegram.action) : nat :=
  match done with
  | [] => 0
  | Telegram.Sleep seconds :: rest => seconds + slept rest
  | Telegram.Post _ _ _ :: rest => slept rest
  end.

End Delays.

(* ================================================================== *)
(** ** Pages for the examples *)

Module Pages.
Import Scraper.

Definition og_image (url : string) : element :=
  {| attr_content := Some url; attr_src := None;
     stripped_text := EmptyString |}.

(** A page whose [og:image] is a path on the site and whose
    descriptions are all short. *)
Definition story_page : page :=
  {| status_code := 200;
     select_one := fun selector =>
       if (selector =? hd EmptyString image_selectors)%string
       then Some (og_image "/db/PICTURES/CMS/1/Match.JPG")
       else None |}.

Definition site (url : string) : option page :=
  if (url =? "https://a.example/0")%string then Some story_page
  else if (url =? "https://a.example/1")%string
       then Some {| status_code := 404; select_one := fun _ => None |}
       else None.

End Pages.
(* ================================================================== *)
(** ** Properties of the scheduler *)

Module SchedulerFacts.
Import Datetime Scheduler Fixtures.

Ltac unfold_units :=
  unfold us_per_day, us_per_hour, us_per_minute, us_per_second in *.

Lemma should_run_task_split tk utcnow :
  should_run_task tk utcnow =
  match within_tolerance tk utcnow with
  | Some tol => Some (tol && spacing_met tk utcnow)
  | None => None
  end.
Proof.
  unfold should_run_task, within_tolerance, spacing_met.
  destruct (replace_hm _ _ _) as [task_time|]; [|reflexivity].
  cbv zeta.
  destruct (total_seconds_gt _ 120); cbn [negb andb]; [reflexivity|].
  destruct (last_run tk) as [lr|]; [|reflexivity].
  destruct (total_seconds_lt _ _); reflexivity.
Qed.

Lemma trunc_minute_mod dt : trunc_minute dt mod us_per_minute = 0.
Proof.
  unfold trunc_minute. unfold_units.
  Z.div_mod_to_equations. lia.
Qed.

Lemma minute_of_day_trunc dt :
  trunc_minute dt - trunc_minute dt / us_per_day * us_per_day
  = minute_of_day dt * us_per_minute.
Proof.
  unfold trunc_minute, minute_of_day. unfold_units.
  Z.div_mod_to_equations. lia.
Qed.

Lemma minute_of_day_in_minute d h m dt :
  0 <= h <= 23 -> 0 <= m <= 59 -> in_minute d h m dt ->
  minute_of_day dt = 60 * h + m.
Proof.
  unfold in_minute, minute_of_day, at_time. unfold_units. intros.
  Z.div_mod_to_equations. lia.
Qed.

Lemma trunc_minute_in_minute d h m dt :
  in_minute d h m dt -> trunc_minute dt = at_time d h m 0.
Proof.
  unfold in_minute, trunc_minute, at_time. unfold_units. intros.
  Z.div_mod_to_equations. lia.
Qed.

Lemma trunc_minute_le dt : trunc_minute dt <= dt.
Proof.
  unfold trunc_minute. unfold_units. Z.div_mod_to_equations. lia.
Qed.

(** The tolerance test, for a schedule on the clock: the clock reading of
    [utcnow], in whole minutes of its own day, is at most two minutes from
    the schedule. *)
Lemma within_tolerance_spec tk utcnow :
  0 <= hour (sched tk) <= 23 -> 0 <= minute (sched tk) <= 59 ->
  within_tolerance tk utcnow =
  Some (Z.abs (minute_of_day utcnow
               - (60 * hour (sched tk) + minute (sched tk))) <=? 2).
Proof.
  intros Hh Hm. unfold within_tolerance, replace_hm.
  replace ((0 <=? hour (sched tk)) && (hour (sched tk) <=? 23)
           && (0 <=? minute (sched tk)) && (minute (sched tk) <=? 59))
    with true
    by (symmetry; rewrite !andb_true_iff, !Z.leb_le; lia).
  cbv zeta. f_equal.
  rewrite trunc_minute_mod.
  pose proof (minute_of_day_trunc utcnow) as E.
  unfold total_seconds_gt.
  set (now := trunc_minute utcnow) in *.
  set (mod_ := minute_of_day utcnow) in *.
  set (h := hour (sched tk)) in *. set (m := minute (sched tk)) in *.
  replace (now - (now / us_per_day * us_per_day + h * us_per_hour
                  + m * us_per_minute + 0))
    with ((mod_ - (60 * h + m)) * us_per_minute)
    by (unfold us_per_hour; lia).
  unfold_units.
  destruct (Z.leb_spec (Z.abs (mod_ - (60 * h + m))) 2);
    destruct (Z.ltb_spec (120 * 1000000)
                (Z.abs ((mod_ - (60 * h + m)) * (60 * 1000000))));
    cbn [negb]; try reflexivity; exfalso; lia.
Qed.


Lemma should_run_task_spec tk utcnow :
  0 <= hour (sched tk) <= 23 -> 0 <= minute (sched tk) <= 59 ->
  should_run_task tk utcnow =
  Some ((Z.abs (minute_of_day utcnow
                - (60 * hour (sched tk) + minute (sched tk))) <=? 2)
        && spacing_met tk utcnow).
Proof.
  intros Hh Hm. rewrite should_run_task_split.
  rewrite within_tolerance_spec by assumption. reflexivity.
Qed.

(** The window is laid on the date of [utcnow]: the task of midnight is
    not in its window in the last minutes of the day before. *)
Lemma midnight_window_same_day tk utcnow d m :
  sched tk = {| hour := 0; minute := 0 |} ->
  58 <= m <= 59 -> in_minute d 23 m utcnow ->
  should_run_task tk utcnow = Some false.
Proof.
  intros Hs Hm Hin.
  rewrite should_run_task_spec by (rewrite Hs; cbn; lia).
  rewrite (minute_of_day_in_minute d 23 m) by (assumption || lia).
  rewrite Hs; cbn [hour minute sched].
  replace (Z.abs (60 * 23 + m - (60 * 0 + 0)) <=? 2) with false
    by (symmetry; apply Z.leb_gt; lia).
  reflexivity.
Qed.

(** C1, at midnight.  The task seeded for hour 0 has never run.  At 23:58
    and at 23:59, two minutes and one minute before its schedule, the
    check answers that it is not due; it is due at 00:00, 00:01 and
    00:02.  The task seeded for hour 1 is due from 00:58 on. *)
Lemma midnight_task_window :
  at_time 19001 0 0 0 - at_time 19000 23 59 0 = 60 * us_per_second
  /\ should_run_task (Mongo.hourly_task 0) (at_time 19000 23 58 0)
     = Some false
  /\ should_run_task (Mongo.hourly_task 0) (at_time 19000 23 59 0)
     = Some false
  /\ should_run_task (Mongo.hourly_task 0) (at_time 19001 0 0 0)
     = Some true
  /\ should_run_task (Mongo.hourly_task 0) (at_time 19001 0 2 0)
     = Some true
  /\ should_run_task (Mongo.hourly_task 1) (at_time 19001 0 58 0)
     = Some true.
Proof. vm_compute. repeat split. Qed.

(** The window as the code lays it.  A task scheduled at [H]:00 passes
    the tolerance test at the current time [utcnow], truncated to whole
    minutes, exactly when the clock reading of [utcnow] is at most two
    minutes from [H]:00 of its own day, and it is due exactly when it
    moreover meets the minimum spacing.  A task scheduled at 10:00 that
    meets the minimum spacing is due throughout the minutes 09:59, 10:00,
    10:01 and 10:02, and no task scheduled at 10:00 is due in the minutes
    09:55 and 10:05. *)
Theorem due_within_two_minutes tk utcnow H :
  0 <= H <= 23 ->
  sched tk = {| hour := H; minute := 0 |} ->
  within_tolerance tk utcnow
    = Some (Z.abs (minute_of_day utcnow - 60 * H) <=? 2)
  /\ should_run_task tk utcnow
    = Some ((Z.abs (minute_of_day utcnow - 60 * H) <=? 2)
            && spacing_met tk utcnow)
  /\ (H = 10 ->
      forall d h m, in_minute d h m utcnow ->
        (In (h, m) [(9, 59); (10, 0); (10, 1); (10, 2)] ->
         should_run_task tk utcnow = Some (spacing_met tk utcnow))
        /\ (In (h, m) [(9, 55); (10, 5)] ->
            should_run_task tk utcnow = Some false)).
Proof.
  intros HH Hs.
  assert (Hh : 0 <= hour (sched tk) <= 23) by (rewrite Hs; cbn; lia).
  assert (Hm : 0 <= minute (sched tk) <= 59) by (rewrite Hs; cbn; lia).
  pose proof (within_tolerance_spec tk utcnow Hh Hm) as Htol.
  pose proof (should_run_task_spec tk utcnow Hh Hm) as Hrun.
  rewrite Hs in Htol, Hrun; cbn [hour minute] in Htol, Hrun.
  rewrite Z.add_0_r in Htol, Hrun.
  split; [exact Htol|]. split; [exact Hrun|].
  intros -> d h m Hin. rewrite Hrun.
  split; intros Hcase; cbn [In] in Hcase;
    repeat (destruct Hcase as [Hcase|Hcase]; [inversion Hcase; subst h m|]);
    try contradiction;
    (pose proof (fun a b => minute_of_day_in_minute d _ _ utcnow a b Hin)
       as E; rewrite E by lia; reflexivity).
Qed.

Lemma due_within_two_minutes_witness :
  0 <= 10 <= 23
  /\ should_run_task (task_at "cricket_news_hour_10" 10 0 None)
       (at_time 19000 9 59 30) = Some true.
Proof.
  split; [lia|].
  destruct (due_within_two_minutes
              (task_at "cricket_news_hour_10" 10 0 None)
              (at_time 19000 9 59 30) 10 ltac:(lia) eq_refl)
    as (_ & H & _).
  rewrite H. reflexivity.
Defined.

(** C2. For a task whose last run is recorded, the check does not pass
    while the time since the last run, taken from the clock or from the
    clock truncated to the minute as the code takes it, is below the
    minimum spacing, which is 23 hours when the name contains [cleanup]
    and 50 minutes otherwise.  A task of the hourly class last run at 10:00 is not due
    in the minute 10:45, and in the minute 10:51 it is due exactly when
    that minute lies in its tolerance window. *)
Theorem min_spacing_blocks tk utcnow lr :
  last_run tk = Some lr ->
  (elapsed utcnow lr < min_interval (name tk) * us_per_second ->
   should_run_task tk utcnow <> Some true)
  /\ (elapsed (trunc_minute utcnow) lr
      < min_interval (name tk) * us_per_second ->
      should_run_task tk utcnow <> Some true)
  /\ min_interval (name tk) * us_per_second
     = (if Py.contains "cleanup" (name tk)
        then 23 * us_per_hour else 50 * us_per_minute)
  /\ (Py.contains "cleanup" (name tk) = false ->
      forall d, lr = at_time d 10 0 0 ->
        (in_minute d 10 45 utcnow ->
         should_run_task tk utcnow <> Some true)
        /\ (in_minute d 10 51 utcnow ->
            should_run_task tk utcnow = within_tolerance tk utcnow)).
Proof.
  intros Hlr.
  assert (Hblock : trunc_minute utcnow - lr
                   < min_interval (name tk) * us_per_second ->
                   should_run_task tk utcnow <> Some true).
  { intros Hlt. rewrite should_run_task_split.
    destruct (within_tolerance tk utcnow) as [tol|]; [|discriminate].
    unfold spacing_met. rewrite Hlr. unfold total_seconds_lt.
    replace (trunc_minute utcnow - lr
             <? min_interval (name tk) * us_per_second) with true
      by (symmetry; apply Z.ltb_lt; exact Hlt).
    cbn [negb]. rewrite andb_false_r. discriminate. }
  split; [|split; [|split]].
  - intros Hlt. apply Hblock. unfold elapsed in Hlt.
    pose proof (trunc_minute_le utcnow). lia.
  - exact Hblock.
  - unfold min_interval. unfold_units.
    destruct (Py.contains "cleanup" (name tk)); reflexivity.
  - intros Hname d -> . split; intros Hin.
    + apply Hblock. rewrite (trunc_minute_in_minute _ _ _ _ Hin).
      unfold min_interval. rewrite Hname.
      unfold at_time. unfold_units. lia.
    + rewrite should_run_task_split.
      destruct (within_tolerance tk utcnow) as [tol|]; [|reflexivity].
      unfold spacing_met. rewrite Hlr. unfold total_seconds_lt.
      rewrite (trunc_minute_in_minute _ _ _ _ Hin).
      unfold min_interval. rewrite Hname.
      replace (at_time d 10 51 0 - at_time d 10 0 0
               <? 50 * 60 * us_per_second) with false
        by (symmetry; apply Z.ltb_ge; unfold at_time; unfold_units; lia).
      cbn [negb]. rewrite andb_true_r. reflexivity.
Qed.

Lemma min_spacing_blocks_witness :
  should_run_task
    (task_at "cricket_news_hour_10" 10 51 (Some (at_time 19000 10 0 0)))
    (at_time 19000 10 45 0) <> Some true
  /\ should_run_task
       (task_at "cricket_news_hour_10" 10 51 (Some (at_time 19000 10 0 0)))
       (at_time 19000 10 51 0) = Some true.
Proof.
  destruct (min_spacing_blocks
              (task_at "cricket_news_hour_10" 10 51
                       (Some (at_time 19000 10 0 0)))
              (at_time 19000 10 45 0) (at_time 19000 10 0 0) eq_refl)
    as (H & _).
  split.
  - apply H. vm_compute. reflexivity.
  - vm_compute. reflexivity.
Defined.

Lemma seed_tasks_never_run :
  Forall (fun tk => last_run tk = None) Mongo.seed_tasks.
Proof.
  unfold Mongo.seed_tasks. apply Forall_app. split.
  - apply Forall_forall. intros tk Hin.
    apply in_map_iff in Hin. destruct Hin as (h & <- & _). reflexivity.
  - repeat constructor.
Qed.

(** C10. A task that has never run, as every task is when it is seeded,
    is due exactly when the current time passes the tolerance test: the
    spacing test is not made. *)
Theorem first_run_needs_window_only tk utcnow :
  last_run tk = None ->
  spacing_met tk utcnow = true
  /\ should_run_task tk utcnow = within_tolerance tk utcnow
  /\ (0 <= hour (sched tk) <= 23 -> 0 <= minute (sched tk) <= 59 ->
      should_run_task tk utcnow
      = Some (Z.abs (minute_of_day utcnow
                     - (60 * hour (sched tk) + minute (sched tk))) <=? 2))
  /\ Forall (fun seeded => last_run seeded = None) Mongo.seed_tasks.
Proof.
  intros Hlr.
  assert (Hsp : spacing_met tk utcnow = true)
    by (unfold spacing_met; rewrite Hlr; reflexivity).
  assert (Hrun : should_run_task tk utcnow = within_tolerance tk utcnow).
  { rewrite should_run_task_split, Hsp.
    destruct (within_tolerance tk utcnow) as [tol|]; [|reflexivity].
    rewrite andb_true_r. reflexivity. }
  repeat split; try assumption.
  - intros Hh Hm. rewrite Hrun. apply within_tolerance_spec; assumption.
  - apply seed_tasks_never_run.
Qed.

Lemma first_run_needs_window_only_witness :
  last_run Mongo.cleanup_task = None
  /\ should_run_task Mongo.cleanup_task (at_time 19000 3 2 59) = Some true
  /\ should_run_task Mongo.cleanup_task (at_time 19000 3 3 0) = Some false.
Proof.
  split; [reflexivity|].
  destruct (first_run_needs_window_only Mongo.cleanup_task
              (at_time 19000 3 2 59) eq_refl) as (_ & H & _).
  split; [rewrite H|]; vm_compute; reflexivity.
Defined.

End SchedulerFacts.

(* ================================================================== *)
(** ** Properties of the dedup store *)

Module MongoFacts.
Import Datetime Mongo Fixtures.

Section Finding.
Context {A : Type} (p : A -> bool).

Lemma find_none_filter (l : list A) :
  find p l = None -> filter p l = [].
Proof.
  induction l as [|x l IH]; cbn; [reflexivity|].
  destruct (p x); [discriminate|exact IH].
Qed.

Lemma find_snoc (l : list A) (x : A) :
  find p (l ++ [x]) =
  match find p l with
  | Some y => Some y
  | None => if p x then Some x else None
  end.
Proof.
  induction l as [|y l IH]; cbn; [reflexivity|].
  destruct (p y); [reflexivity|exact IH].
Qed.
End Finding.

Lemma key_matches_refl t s doc :
  doc_title doc = t -> doc_source doc = s -> key_matches t s doc = true.
Proof.
  intros <- <-. unfold key_matches. now rewrite !String.eqb_refl.
Qed.

(** An insert under a key that is stored changes nothing. *)
Lemma save_article_known a utcnow d existing :
  find_one (title a) (source a) d = Some existing ->
  save_article a utcnow d = (Some (doc_id existing), d).
Proof.
  intros Hfind. unfold save_article, upsert_set_on_insert.
  rewrite Hfind. rewrite Hfind. reflexivity.
Qed.

(** An insert under a key that is not stored appends the document. *)
Lemma save_article_fresh a utcnow d :
  find_one (title a) (source a) d = None ->
  save_article a utcnow d =
  (Some (next_id d),
   {| news_articles := news_articles d ++ [article_doc_of a utcnow (next_id d)];
      bot_status := bot_status d;
      scheduler_tasks := scheduler_tasks d;
      next_id := S (next_id d) |}).
Proof.
  intros Hfind. unfold save_article, upsert_set_on_insert.
  rewrite Hfind. reflexivity.
Qed.

Lemma article_exists_false t s d :
  article_exists t s d = false <-> find_one t s d = None.
Proof.
  unfold article_exists. destruct (find_one t s d); split; congruence.
Qed.

(** C7. Two inserts under one (title, source) key that the store did not
    hold: the first is an upsert that inserts, the second is not; the
    store after the second is the store after the first, and it holds
    exactly one document under the key, with the link, image,
    description, posted flag and timestamp of the first insert. *)
Theorem second_insert_is_no_op a1 a2 t1 t2 d :
  title a2 = title a1 -> source a2 = source a1 ->
  article_exists (title a1) (source a1) d = false ->
  let first := article_doc_of a1 t1 (next_id d) in
  let d1 := snd (save_article a1 t1 d) in
  let d2 := snd (save_article a2 t2 d1) in
  fst (upsert_set_on_insert (title a1) (source a1) (article_doc_of a1 t1) d)
    = Some (next_id d)
  /\ fst (upsert_set_on_insert (title a2) (source a2) (article_doc_of a2 t2) d1)
     = None
  /\ d2 = d1
  /\ fst (save_article a2 t2 d1) = fst (save_article a1 t1 d)
  /\ filter (key_matches (title a1) (source a1)) (news_articles d2)
     = [first]
  /\ find_one (title a1) (source a1) d2 = Some first.
Proof.
  intros Ht Hs Hnew first d1 d2.
  apply article_exists_false in Hnew.
  assert (Hkey : key_matches (title a1) (source a1) first = true)
    by (apply key_matches_refl; reflexivity).
  assert (Hd1 : find_one (title a1) (source a1) d1 = Some first).
  { subst d1. rewrite (save_article_fresh _ _ _ Hnew). cbn [snd].
    unfold find_one in *. cbn [news_articles]. rewrite find_snoc, Hnew.
    fold first. rewrite Hkey. reflexivity. }
  assert (Hd2 : d2 = d1).
  { subst d2. rewrite (save_article_known a2 t2 d1 first)
      by (rewrite Ht, Hs; exact Hd1). reflexivity. }
  repeat split.
  - unfold upsert_set_on_insert. rewrite Hnew. reflexivity.
  - unfold upsert_set_on_insert. rewrite Ht, Hs, Hd1. reflexivity.
  - exact Hd2.
  - rewrite (save_article_known a2 t2 d1 first)
      by (rewrite Ht, Hs; exact Hd1).
    rewrite (save_article_fresh _ _ _ Hnew). reflexivity.
  - rewrite Hd2. subst d1. rewrite (save_article_fresh _ _ _ Hnew).
    cbn [snd news_articles]. rewrite filter_app.
    rewrite (find_none_filter _ _ Hnew). cbn [filter app].
    fold first. rewrite Hkey. reflexivity.
  - rewrite Hd2. exact Hd1.
Qed.

Lemma second_insert_is_no_op_witness :
  let d1 := snd (save_article first_story 100 empty_db) in
  let d2 := snd (save_article second_story 200 d1) in
  d2 = d1
  /\ map doc_link (news_articles d2) = ["https://a.example/1"%string]
  /\ map doc_posted_at (news_articles d2) = [100].
Proof.
  destruct (second_insert_is_no_op first_story second_story
              100 200 empty_db eq_refl eq_refl eq_refl)
    as (_ & _ & H & _).
  cbv zeta. split; [exact H|]. split; vm_compute; reflexivity.
Defined.

(** *** Marking in the store *)

Lemma key_matches_set_posted t s doc :
  key_matches t s (set_posted doc) = key_matches t s doc.
Proof. reflexivity. Qed.

Lemma find_update_first t s t' s' (l : list article_doc) :
  match find (key_matches t s) l with
  | None =>
      find (key_matches t s) (update_first (key_matches t' s') set_posted l)
      = None
  | Some doc =>
      find (key_matches t s) (update_first (key_matches t' s') set_posted l)
      = Some doc
      \/ find (key_matches t s)
              (update_first (key_matches t' s') set_posted l)
         = Some (set_posted doc)
  end.
Proof.
  induction l as [|x l IH]; [reflexivity|].
  cbn [find update_first].
  destruct (key_matches t' s' x) eqn:Hq; cbn [find].
  - rewrite key_matches_set_posted.
    destruct (key_matches t s x); [now right|].
    destruct (find (key_matches t s) l); [now left|reflexivity].
  - destruct (key_matches t s x); [now left|exact IH].
Qed.

Lemma find_update_first_same t s (l : list article_doc) :
  find (key_matches t s) (update_first (key_matches t s) set_posted l)
  = option_map set_posted (find (key_matches t s) l).
Proof.
  induction l as [|x l IH]; [reflexivity|].
  cbn [find update_first].
  destruct (key_matches t s x) eqn:Hq; cbn [find].
  - rewrite key_matches_set_posted, Hq. reflexivity.
  - rewrite Hq. exact IH.
Qed.

Lemma article_exists_mark t s t' s' d :
  article_exists t s (mark_article_posted t' s' d) = article_exists t s d.
Proof.
  unfold article_exists, find_one, mark_article_posted.
  cbn [news_articles].
  pose proof (find_update_first t s t' s' (news_articles d)) as H.
  destruct (find (key_matches t s) (news_articles d)).
  - destruct H as [-> | ->]; reflexivity.
  - rewrite H. reflexivity.
Qed.

Lemma posted_in_mark_same t s d :
  article_exists t s d = true ->
  posted_in (mark_article_posted t s d) t s = true.
Proof.
  unfold article_exists, posted_in, find_one, mark_article_posted.
  cbn [news_articles]. rewrite find_update_first_same.
  destruct (find (key_matches t s) (news_articles d));
    [reflexivity|discriminate].
Qed.

Lemma posted_in_mark_other t s t' s' d :
  posted_in d t s = true ->
  posted_in (mark_article_posted t' s' d) t s = true.
Proof.
  unfold posted_in, find_one, mark_article_posted. cbn [news_articles].
  pose proof (find_update_first t s t' s' (news_articles d)) as H.
  destruct (find (key_matches t s) (news_articles d)); [|discriminate].
  destruct H as [-> | ->]; [trivial|reflexivity].
Qed.

Lemma mark_each_keeps new_articles :
  forall d t s,
    (article_exists t s d = true ->
     article_exists t s (mark_each new_articles d) = true)
    /\ (posted_in d t s = true ->
        posted_in (mark_each new_articles d) t s = true).
Proof.
  induction new_articles as [|a rest IH]; intros d t s; [now split|].
  cbn [mark_each fold_left]. fold (mark_each rest).
  split; intros H; apply IH.
  - now rewrite article_exists_mark.
  - now apply posted_in_mark_other.
Qed.

Lemma mark_each_posts new_articles :
  forall d,
    (forall a, In a new_articles ->
               article_exists (title a) (source a) d = true) ->
    forall a, In a new_articles ->
              posted_in (mark_each new_articles d) (title a) (source a)
              = true.
Proof.
  induction new_articles as [|b rest IH]; intros d Hex a Hin;
    [contradiction|].
  cbn [mark_each fold_left]. fold (mark_each rest).
  destruct Hin as [<- | Hin].
  - apply mark_each_keeps. apply posted_in_mark_same.
    apply Hex. now left.
  - apply IH; [|exact Hin].
    intros c Hc. rewrite article_exists_mark. apply Hex. now right.
Qed.

Lemma mark_each_bot_status new_articles :
  forall d, bot_status (mark_each new_articles d) = bot_status d.
Proof.
  induction new_articles as [|a rest IH]; intros d; [reflexivity|].
  cbn [mark_each fold_left]. fold (mark_each rest). now rewrite IH.
Qed.

End MongoFacts.

(* ================================================================== *)
(** ** Properties of the feed client *)

Module FetcherFacts.
Import Mongo Fetcher.

Section WithFeed.
Variable extract : string -> option string * option string.

Lemma fetch_loop_articles entries :
  forall articles scraped,
    (List.length articles < 5)%nat ->
    fst (fetch_loop extract entries articles scraped)
    = articles
      ++ firstn (5 - List.length articles) (candidates extract entries).
Proof.
  induction entries as [|item rest IH]; intros articles scraped Hlen.
  - cbn. rewrite firstn_nil. now rewrite app_nil_r.
  - cbn [fetch_loop candidates flat_map]. unfold article_of.
    destruct (entry_link item) as [item_link|]; [|now apply IH].
    destruct (extract item_link) as [image extracted].
    destruct (entry_title item) as [item_title|]; [|now apply IH].
    cbn [app]. rewrite length_app. cbn [List.length].
    destruct (Nat.leb_spec 5 (List.length articles + 1)) as [Hfull|Hroom].
    + cbn [fst].
      replace (5 - List.length articles)%nat with 1%nat by lia.
      cbn [firstn]. reflexivity.
    + rewrite IH by (rewrite length_app; cbn; lia).
      rewrite length_app. cbn [List.length].
      replace (5 - List.length articles)%nat
        with (S (5 - (List.length articles + 1)))%nat by lia.
      cbn [firstn]. now rewrite <- app_assoc.
Qed.

Lemma fetch_loop_scraped entries :
  forall articles scraped,
    exists k, (k <= List.length entries)%nat /\
      snd (fetch_loop extract entries articles scraped)
      = scraped ++ links (firstn k entries).
Proof.
  induction entries as [|item rest IH]; intros articles scraped.
  - exists 0%nat. cbn. now rewrite app_nil_r.
  - cbn [fetch_loop].
    destruct (entry_link item) as [item_link|] eqn:Hlink.
    + destruct (extract item_link) as [image extracted].
      destruct (entry_title item) as [item_title|].
      * destruct (5 <=? _)%nat.
        -- exists 1%nat. cbn [List.length firstn links flat_map snd].
           rewrite Hlink. cbn. split; [lia|reflexivity].
        -- destruct (IH (articles ++
               [{| title := item_title; link := item_link;
                   image_url := image;
                   description :=
                     if negb (Py.truthy_str extracted) && has_summary item
                     then entry_summary item else extracted;
                   source := "ESPN"; is_posted := None |}])
               (scraped ++ [item_link])) as (k & Hk & E).
           exists (S k). cbn [List.length firstn links flat_map].
           rewrite Hlink. split; [lia|].
           rewrite E. now rewrite <- app_assoc.
      * destruct (IH articles (scraped ++ [item_link])) as (k & Hk & E).
        exists (S k). cbn [List.length firstn links flat_map].
        rewrite Hlink. split; [lia|].
        rewrite E. now rewrite <- app_assoc.
    + destruct (IH articles scraped) as (k & Hk & E).
      exists (S k). cbn [List.length firstn links flat_map].
      rewrite Hlink. split; [lia|exact E].
Qed.

Lemma links_length entries :
  (List.length (links entries) <= List.length entries)%nat.
Proof.
  induction entries as [|item rest IH]; [cbn; lia|].
  unfold links in *. cbn [flat_map]. rewrite length_app.
  destruct (entry_link item); cbn [List.length]; lia.
Qed.

Lemma firstn_min_length {A} (l : list A) :
  firstn (Nat.min 10 (List.length l)) l = firstn 10 l.
Proof.
  destruct (Nat.le_ge_cases 10 (List.length l)) as [H|H].
  - now rewrite Nat.min_l.
  - rewrite Nat.min_r by assumption.
    rewrite !firstn_all2 by lia. reflexivity.
Qed.

Lemma fetch_traced_some entries :
  fetch_cricket_news_traced (Some entries) extract
  = fetch_loop extract (firstn 10 entries) [] [].
Proof.
  unfold fetch_cricket_news_traced.
  destruct entries as [|item rest]; [reflexivity|].
  now rewrite firstn_min_length.
Qed.

Lemma candidates_unusable entries :
  Forall (fun item => article_of extract item = None) entries ->
  forall n, candidates extract (firstn n entries) = [].
Proof.
  induction 1 as [|item rest Hitem _ IH]; intros [|n]; try reflexivity.
  cbn [firstn candidates flat_map]. rewrite Hitem. apply IH.
Qed.

(** C9. The articles returned are the first five of the articles of
    the first ten entries of the feed, in the order of the feed, so at
    most five; the pages scraped are the links of some initial segment
    of the first ten entries, so at most ten, and nothing past the
    tenth entry has a part in the result.  A feed without entries, a
    feed whose parse raises, and a feed none of whose entries has both
    a link and a title give the empty list. *)
Theorem fetch_is_bounded (parse : option (list entry)) :
  let articles := fetch_cricket_news parse extract in
  let scraped := snd (fetch_cricket_news_traced parse extract) in
  (List.length articles <= 5)%nat
  /\ (List.length scraped <= 10)%nat
  /\ (forall entries, parse = Some entries ->
        articles = firstn 5 (candidates extract (firstn 10 entries))
        /\ (exists k, (k <= 10)%nat /\ scraped = links (firstn k entries))
        /\ articles = fetch_cricket_news (Some (firstn 10 entries)) extract
        /\ (Forall (fun item => article_of extract item = None) entries ->
            articles = []))
  /\ (parse = None \/ parse = Some [] -> articles = [] /\ scraped = []).
Proof.
  intros articles scraped.
  assert (Hsome : forall entries, parse = Some entries ->
            articles = firstn 5 (candidates extract (firstn 10 entries))
            /\ (exists k, (k <= 10)%nat
                          /\ scraped = links (firstn k entries))).
  { intros entries ->. subst articles scraped.
    unfold fetch_cricket_news. rewrite fetch_traced_some. split.
    - rewrite fetch_loop_articles by (cbn; lia). reflexivity.
    - destruct (fetch_loop_scraped (firstn 10 entries) [] [])
        as (k & Hk & E).
      exists (Nat.min k 10). split; [lia|].
      rewrite E. cbn [app]. rewrite firstn_firstn. reflexivity. }
  assert (Hnone : parse = None \/ parse = Some [] ->
                  articles = [] /\ scraped = []).
  { intros [-> | ->]; split; reflexivity. }
  destruct parse as [entries|].
  - destruct (Hsome entries eq_refl) as (Ha & k & Hk & Hs).
    split; [rewrite Ha; apply firstn_le_length|].
    split.
    { rewrite Hs. etransitivity; [apply links_length|].
      rewrite length_firstn. lia. }
    split; [|exact Hnone].
    intros entries' E. inversion E; subst entries'.
    split; [exact Ha|]. split; [exists k; auto|]. split.
    + rewrite Ha. unfold fetch_cricket_news.
      rewrite fetch_traced_some, fetch_loop_articles by (cbn; lia).
      cbn [app List.length]. rewrite firstn_firstn. reflexivity.
    + intros Hnone'. rewrite Ha.
      rewrite (candidates_unusable entries Hnone'). reflexivity.
  - destruct (Hnone (or_introl eq_refl)) as (-> & ->).
    split; [cbn; lia|]. split; [cbn; lia|].
    split; [discriminate|]. intros _. split; reflexivity.
Qed.

End WithFeed.

Lemma fetch_is_bounded_witness :
  map title (fetch_cricket_news (Some Fixtures.twelve_entries)
                                Fixtures.no_content)
  = ["Story 0"; "Story 1"; "Story 3"; "Story 4"; "Story 5"]%string
  /\ fetch_cricket_news None Fixtures.no_content = [].
Proof.
  destruct (fetch_is_bounded Fixtures.no_content
              (Some Fixtures.twelve_entries)) as (_ & _ & H & _).
  destruct (H Fixtures.twelve_entries eq_refl) as (E & _).
  split.
  - rewrite E. vm_compute. reflexivity.
  - destruct (fetch_is_bounded Fixtures.no_content None) as (_ & _ & _ & N).
    apply N. left. reflexivity.
Defined.

End FetcherFacts.

(* ================================================================== *)
(** ** Properties of the delivery client *)

Module TelegramFacts.
Import Mongo Telegram.

Lemma length_append (a b : string) :
  String.length (a ++ b) = (String.length a + String.length b)%nat.
Proof. induction a as [|c a IH]; cbn; [reflexivity|now rewrite IH]. Qed.

Lemma length_slice_to n s :
  String.length (Py.slice_to n s) = Nat.min n (String.length s).
Proof.
  revert s. induction n as [|n IH]; intros [|c s]; cbn; try reflexivity.
  now rewrite IH.
Qed.

Lemma substring_whole (s : string) : substring 0 (String.length s) s = s.
Proof. induction s as [|c s IH]; cbn; [reflexivity|now rewrite IH]. Qed.

Lemma substring_skip (a b : string) m :
  substring (String.length a) m (a ++ b) = substring 0 m b.
Proof. induction a as [|c a IH]; cbn; [reflexivity|exact IH]. Qed.

Lemma endswith_append (a b : string) : Py.endswith (a ++ b) b = true.
Proof.
  unfold Py.endswith. rewrite length_append.
  replace (String.length a + String.length b - String.length b)%nat
    with (String.length a) by lia.
  rewrite substring_skip, substring_whole. apply String.eqb_refl.
Qed.

Lemma append_assoc (a b c : string) : ((a ++ b) ++ c = a ++ (b ++ c))%string.
Proof. induction a as [|x a IH]; cbn; [reflexivity|now rewrite IH]. Qed.

(** The text before the cut ends with the line of the link. *)
Lemma compose_final_line n article :
  final_line (compose n article) (anchor (link article)) = true.
Proof.
  unfold final_line, compose.
  set (head := match description article with
               | Some d => _
               | None => _
               end).
  replace (head ++ newline ++ newline ++ anchor (link article))%string
    with ((head ++ newline) ++ (newline ++ anchor (link article)))%string
    by (now rewrite append_assoc).
  apply endswith_append.
Qed.

(** The cut of [send_message] and [send_photo]. *)
Lemma cut_length limit keep s :
  (keep + 3 <= limit)%nat ->
  (String.length (if (limit <? String.length s)%nat
                  then (Py.slice_to keep s ++ "...")%string
                  else s) <= limit)%nat.
Proof.
  intros Hk. destruct (Nat.ltb_spec limit (String.length s)); [|lia].
  rewrite length_append, length_slice_to. cbn. lia.
Qed.

(** C6, as the code has it.  An article with an image is sent as a photo
    with a caption of at most 1024 characters, an article without one as
    a text of at most 4096 characters.  When the composed text fits, it
    is sent whole and the link is its last line; when it does not, what
    is sent is its first 1020 (or 4090) characters and an ellipsis. *)
Theorem framing_and_caps chat_id article :
  payload_of chat_id article
  = (if Py.truthy_str (image_url article)
     then photo_payload chat_id article
     else message_payload chat_id article)
  /\ (String.length (photo_caption article) <= 1024)%nat
  /\ (String.length (message_text article) <= 4096)%nat
  /\ ((String.length (compose 200 article) <= 1024)%nat ->
      photo_caption article = compose 200 article
      /\ final_line (photo_caption article) (anchor (link article)) = true)
  /\ ((String.length (compose 300 article) <= 4096)%nat ->
      message_text article = compose 300 article
      /\ final_line (message_text article) (anchor (link article)) = true)
  /\ ((1024 < String.length (compose 200 article))%nat ->
      photo_caption article
      = (Py.slice_to 1020 (compose 200 article) ++ "...")%string
      /\ String.length (photo_caption article) = 1023%nat)
  /\ ((4096 < String.length (compose 300 article))%nat ->
      message_text article
      = (Py.slice_to 4090 (compose 300 article) ++ "...")%string
      /\ String.length (message_text article) = 4093%nat).
Proof.
  split; [reflexivity|].
  split; [apply cut_length; lia|].
  split; [apply cut_length; lia|].
  unfold photo_caption, message_text. cbv zeta.
  repeat split.
  - destruct (Nat.ltb_spec 1024 (String.length (compose 200 article)));
      [lia|reflexivity].
  - destruct (Nat.ltb_spec 1024 (String.length (compose 200 article)));
      [lia|apply compose_final_line].
  - destruct (Nat.ltb_spec 4096 (String.length (compose 300 article)));
      [lia|reflexivity].
  - destruct (Nat.ltb_spec 4096 (String.length (compose 300 article)));
      [lia|apply compose_final_line].
  - destruct (Nat.ltb_spec 1024 (String.length (compose 200 article)));
      [reflexivity|lia].
  - destruct (Nat.ltb_spec 1024 (String.length (compose 200 article)));
      [|lia].
    rewrite length_append, length_slice_to. cbn [String.length]. lia.
  - destruct (Nat.ltb_spec 4096 (String.length (compose 300 article)));
      [reflexivity|lia].
  - destruct (Nat.ltb_spec 4096 (String.length (compose 300 article)));
      [|lia].
    rewrite length_append, length_slice_to. cbn [String.length]. lia.
Qed.

Lemma framing_and_caps_witness :
  final_line (message_text Fixtures.first_story)
             (anchor (link Fixtures.first_story)) = true
  /\ String.length (photo_caption Fixtures.long_photo_story) = 1023%nat.
Proof.
  split.
  - destruct (framing_and_caps EmptyString Fixtures.first_story)
      as (_ & _ & _ & _ & H & _).
    apply H. apply Nat.leb_le. vm_compute. reflexivity.
  - destruct (framing_and_caps EmptyString Fixtures.long_photo_story)
      as (_ & _ & _ & _ & _ & H & _).
    apply H. apply Nat.ltb_lt. vm_compute. reflexivity.
Defined.

(** C6 as stated fails: a caption, and a text, that is cut has lost the
    line of the link; the link is nowhere in what is sent. *)
Lemma link_cut_off :
  Py.truthy_str (image_url Fixtures.long_photo_story) = true
  /\ final_line (photo_caption Fixtures.long_photo_story)
                (anchor (link Fixtures.long_photo_story)) = false
  /\ Py.contains (link Fixtures.long_photo_story)
                 (photo_caption Fixtures.long_photo_story) = false
  /\ Py.truthy_str (image_url Fixtures.long_text_story) = false
  /\ final_line (message_text Fixtures.long_text_story)
                (anchor (link Fixtures.long_text_story)) = false
  /\ Py.contains (link Fixtures.long_text_story)
                 (message_text Fixtures.long_text_story) = false.
Proof. vm_compute. repeat split. Qed.

Section WithSink.
Variable chat_id : string.
Variable sink : nat -> request -> bool.

Lemma sent_is_sink_answer i article :
  (if Py.truthy_str (image_url article)
   then send_photo chat_id sink i article
   else send_message chat_id sink i article)
  = sink i (payload_of chat_id article).
Proof.
  unfold send_photo, send_message, payload_of.
  destruct (Py.truthy_str (image_url article)); reflexivity.
Qed.

Lemma post_loop_spec n articles :
  forall i posted_count done,
    post_loop chat_id sink n i articles posted_count done
    = ((posted_count + confirmed chat_id sink i articles)%nat,
       done ++ passes chat_id sink n i articles).
Proof.
  induction articles as [|article rest IH]; intros i posted_count done.
  - cbn. now rewrite Nat.add_0_r, app_nil_r.
  - cbn [post_loop passes confirmed]. rewrite sent_is_sink_answer.
    unfold pass.
    destruct (sink i (payload_of chat_id article)).
    + rewrite IH. f_equal; [lia|].
      destruct (i <? n - 1)%nat; cbn [app];
        rewrite <- !app_assoc; reflexivity.
    + rewrite IH. f_equal. rewrite <- app_assoc. reflexivity.
Qed.

Lemma requests_passes n articles :
  forall i, requests (passes chat_id sink n i articles)
            = map (payload_of chat_id) articles.
Proof.
  induction articles as [|article rest IH]; intros i; [reflexivity|].
  cbn [passes map]. unfold requests in *. rewrite flat_map_app, IH.
  unfold pass. destruct (sink i _); [|reflexivity].
  destruct (i <? n - 1)%nat; reflexivity.
Qed.

Lemma confirmed_le articles :
  forall i, (confirmed chat_id sink i articles <= List.length articles)%nat.
Proof.
  induction articles as [|article rest IH]; intros i; cbn; [lia|].
  specialize (IH (S i)). destruct (sink i _); lia.
Qed.

Lemma passes_delays n articles :
  forall i, n = (i + List.length articles)%nat ->
            delay_after_confirmed (passes chat_id sink n i articles)
            = true.
Proof.
  induction articles as [|article rest IH]; intros i Hn; [reflexivity|].
  cbn [List.length] in Hn.
  specialize (IH (S i) ltac:(lia)).
  cbn [passes]. unfold pass at 1.
  destruct rest as [|next rest].
  - replace (i <? n - 1)%nat with false
      by (symmetry; apply Nat.ltb_ge; cbn in Hn; lia).
    destruct (sink i _); reflexivity.
  - replace (i <? n - 1)%nat with true
      by (symmetry; apply Nat.ltb_lt; cbn in Hn; lia).
    cbn [passes] in *. unfold pass at 1 in IH. unfold pass at 1.
    destruct (sink i (payload_of chat_id article));
      destruct (sink (S i) (payload_of chat_id next));
      cbn [app delay_after_confirmed andb negb Nat.eqb] in *;
      exact IH.
Qed.

(** When the sink confirms every request, a delay of one second
    stands between every two consecutive requests. *)
Lemma passes_all_confirmed n articles :
  (forall i req, sink i req = true) ->
  forall i, n = (i + List.length articles)%nat ->
            delay_between_posts (passes chat_id sink n i articles) = true.
Proof.
  intros Hok.
  induction articles as [|article rest IH]; intros i Hn; [reflexivity|].
  cbn [List.length] in Hn.
  specialize (IH (S i) ltac:(lia)).
  cbn [passes]. unfold pass at 1. rewrite Hok.
  destruct rest as [|next rest].
  - replace (i <? n - 1)%nat with false
      by (symmetry; apply Nat.ltb_ge; cbn in Hn; lia).
    reflexivity.
  - replace (i <? n - 1)%nat with true
      by (symmetry; apply Nat.ltb_lt; cbn in Hn; lia).
    cbn [passes] in *. unfold pass at 1 in IH. unfold pass at 1.
    rewrite Hok in *.
    cbn [app delay_between_posts andb Nat.eqb] in *.
    exact IH.
Qed.

(** C5, as the code has it.  [post_articles] returns for every list:
    it makes one request per article, in the order of the list,
    whatever the sink answers; a delay of one second follows each
    confirmed request that is not the last article's and nothing
    follows a refused one; the count returned is the number of
    confirmed requests, at most the length of the list. *)
Theorem post_articles_record articles :
  let n := List.length articles in
  post_articles_traced chat_id sink articles
  = (confirmed chat_id sink 0 articles,
     passes chat_id sink n 0 articles)
  /\ post_articles chat_id sink articles
     = confirmed chat_id sink 0 articles
  /\ (0 <= post_articles chat_id sink articles <= n)%nat
  /\ requests (snd (post_articles_traced chat_id sink articles))
     = map (payload_of chat_id) articles
  /\ delay_after_confirmed
       (snd (post_articles_traced chat_id sink articles)) = true.
Proof.
  intros n.
  assert (E : post_articles_traced chat_id sink articles
              = (confirmed chat_id sink 0 articles,
                 passes chat_id sink n 0 articles)).
  { unfold post_articles_traced. rewrite post_loop_spec. reflexivity. }
  unfold post_articles. rewrite E. cbn [fst snd].
  split; [reflexivity|]. split; [reflexivity|].
  split; [split; [lia|apply confirmed_le]|].
  split; [apply requests_passes|].
  apply passes_delays. reflexivity.
Qed.

End WithSink.

(** C5 as stated fails: after a request that the sink refuses, the next
    request follows without a delay. *)
Lemma no_delay_after_refusal :
  snd (post_articles_traced EmptyString Fixtures.first_refused
         [Fixtures.first_story; Fixtures.other_story])
  = [Post 0 (payload_of EmptyString Fixtures.first_story) false;
     Post 1 (payload_of EmptyString Fixtures.other_story) true]
  /\ delay_between_posts
       (snd (post_articles_traced EmptyString Fixtures.first_refused
               [Fixtures.first_story; Fixtures.other_story])) = false.
Proof. vm_compute. split; reflexivity. Qed.

End TelegramFacts.

(* ================================================================== *)
(** ** Properties of the ingestion pipeline *)

Module TasksFacts.
Import Datetime Tasks.
Import Mongo (article_data, title, source, db, news_articles, bot_status,
              next_id, posted_in, mark_each, status_doc_of).
Import MongoFacts.

Section WithCollaborators.
Variable parse : option (list Fetcher.entry).
Variable extract : string -> option string * option string.
Variable chat_id : string.
Variable sink : nat -> Telegram.request -> bool.
Variable bot_info : option (list (string * string)).
Variable clock : nat -> datetime.

Local Abbreviation run :=
  (fetch_and_post_cricket_news parse extract chat_id sink bot_info clock).

Ltac step :=
  unfold bind, ret, emit, get_store, put_store, utcnow, raise;
  cbn [store events clock_reads fst snd].

(** *** The steps of a run *)

Lemma save_bot_status_run sd w :
  save_bot_status clock sd w
  = (Returned (Some (next_id (store w))),
     {| store := snd (Mongo.save_bot_status sd (clock (clock_reads w))
                                            (store w));
        clock_reads := S (clock_reads w);
        events := events w ++ [SaveBotStatus sd] |}).
Proof. reflexivity. Qed.

Lemma handler_run e w :
  pipeline_handler clock e w
  = (Returned (StatusError "error" e (clock (S (clock_reads w)))),
     {| store := snd (Mongo.save_bot_status (error_status e)
                        (clock (clock_reads w)) (store w));
        clock_reads := S (S (clock_reads w));
        events := events w ++ [SaveBotStatus (error_status e)] |}).
Proof. reflexivity. Qed.

Lemma mark_all_run new_articles :
  forall w,
    mark_all new_articles w
    = (Returned tt,
       {| store := mark_each new_articles (store w);
          clock_reads := clock_reads w;
          events := events w ++ map mark_event new_articles |}).
Proof.
  induction new_articles as [|a rest IH]; intros w.
  - cbn. rewrite app_nil_r. now destruct w.
  - cbn [mark_all]. unfold bind at 1. unfold mark_article_posted.
    step. rewrite IH. cbn [store events clock_reads map mark_each fold_left].
    unfold mark_event at 2. now rewrite <- app_assoc.
Qed.

Lemma filter_new_run articles :
  forall acc w,
    exists new_articles probes w',
      filter_new clock articles acc w
        = (Returned (acc ++ new_articles), w')
      /\ events w' = events w ++ probes
      /\ forallb store_probe probes = true
      /\ bot_status (store w') = bot_status (store w)
      /\ (forall a, In a new_articles ->
            Mongo.article_exists (title a) (source a) (store w') = true)
      /\ (forall t s, Mongo.article_exists t s (store w) = true ->
                      Mongo.article_exists t s (store w') = true)
      /\ (new_articles = [] ->
          news_articles (store w') = news_articles (store w)).
Proof.
  induction articles as [|a rest IH]; intros acc w.
  - exists [], [], w. cbn. rewrite !app_nil_r. repeat split; auto.
  - cbn [filter_new]. unfold bind at 1. unfold article_exists. step.
    destruct (Mongo.article_exists (title a) (source a) (store w))
      eqn:Hknown; cbn [negb].
    + destruct (IH acc
                 {| store := store w; clock_reads := clock_reads w;
                    events := events w
                              ++ [ArticleExists (title a) (source a)] |})
        as (new_articles & probes & w' & Hrun & Hev & Hpr & Hst & Hin
            & Hmono & Hnil).
      exists new_articles,
             (ArticleExists (title a) (source a) :: probes), w'.
      cbn [store events] in *.
      repeat split; auto.
      rewrite Hev, <- app_assoc. reflexivity.
    + apply article_exists_false in Hknown.
      unfold save_article. step.
      rewrite (save_article_fresh (set_is_posted a false) _ _ Hknown).
      step.
      match goal with
      | |- context [filter_new clock rest ?acc' ?w1] =>
          destruct (IH acc' w1)
          as (new_articles & probes & w' & Hrun & Hev & Hpr & Hst & Hin
              & Hmono & Hnil)
      end.
      cbn [store events bot_status] in *.
      exists (set_is_posted a false :: new_articles),
             (ArticleExists (title a) (source a)
              :: SaveArticle (set_is_posted a false) :: probes), w'.
      repeat split; auto.
      * rewrite Hrun, <- app_assoc. reflexivity.
      * rewrite Hev, <- !app_assoc. reflexivity.
      * intros b [<- | Hb]; [|now apply Hin].
        apply Hmono. unfold Mongo.article_exists, Mongo.find_one.
        cbn [news_articles]. rewrite find_snoc.
        unfold Mongo.find_one in Hknown. cbn [title source] in Hknown.
        cbn [title source set_is_posted]. rewrite Hknown.
        rewrite key_matches_refl; reflexivity.
      * intros t s Hts. apply Hmono.
        unfold Mongo.article_exists, Mongo.find_one in *.
        cbn [news_articles]. rewrite find_snoc.
        destruct (find (Mongo.key_matches t s) (news_articles (store w)));
          [reflexivity|discriminate].
      * discriminate.
Qed.

Lemma run_unfold w :
  run w
  = (let (r, w') := try_except
                      (pipeline_body parse extract chat_id sink bot_info
                                     clock)
                      (pipeline_handler clock) w in
     (r, {| store := store w';
            clock_reads := clock_reads w';
            events := events w' ++ [CloseConnection] |})).
Proof.
  unfold fetch_and_post_cricket_news, try_finally.
  destruct (try_except _ _ w) as [r w']. reflexivity.
Qed.

Lemma posted_in_save_bot_status sd now d t s :
  posted_in (snd (Mongo.save_bot_status sd now d)) t s = posted_in d t s.
Proof. reflexivity. Qed.

(** Every run goes one of the five ways. *)
Lemma run_cases d :
  run_of parse extract chat_id sink bot_info d
         (fst (run (start d))) (snd (run (start d))).
Proof.
  rewrite run_unfold. unfold try_except, pipeline_body.
  unfold bind at 1. unfold get_bot_info. step.
  destruct (Py.truthy_dict bot_info) eqn:Hbot; cbn [negb].
  - unfold fetch_cricket_news.
    destruct (Fetcher.fetch_cricket_news_traced parse extract)
      as [articles scraped] eqn:Hfetch.
    step.
    destruct articles as [|first rest].
    + (* the feed is empty *)
      rewrite save_bot_status_run. cbn [fst snd store events clock_reads].
      eapply EmptyFeed; eauto.
      cbn. eexists _, _. reflexivity.
    + (* the feed has entries *)
      match goal with
      | |- context [filter_new clock ?l [] ?w1] =>
          destruct (filter_new_run l [] w1)
          as (new_articles & probes & w' & Hrun & Hev & Hpr & Hst & Hin
              & Hmono & Hnil)
      end.
      rewrite Hrun. cbn [app store events clock_reads] in *.
      destruct new_articles as [|new_first new_rest].
      * (* every article is known *)
        rewrite save_bot_status_run.
        cbn [fst snd store events clock_reads].
        eapply NothingNew with (probes := probes); eauto;
          try discriminate;
          try (cbn [events]; rewrite Hev, <- !app_assoc; reflexivity);
          try (cbn; rewrite Hst; eexists _, _; reflexivity);
          try (cbn; now apply Hnil).
      * (* there are new articles *)
        unfold post_articles.
        destruct (Telegram.post_articles_traced chat_id sink
                    (new_first :: new_rest))
          as [posted_count done] eqn:Hpost.
        step.
        destruct posted_count as [|n]; cbn [Nat.eqb].
        -- rewrite handler_run. cbn [fst snd store events clock_reads].
           eapply NothingPosted with (probes := probes); eauto;
             try discriminate;
             try (cbn [events]; rewrite Hev, <- !app_assoc; reflexivity);
             try (cbn; rewrite Hst; eexists _, _; reflexivity).
        -- rewrite mark_all_run.
           cbn [store events clock_reads].
           rewrite save_bot_status_run. step.
           eapply PostedSome with (probes := probes); eauto;
             try discriminate;
             try (cbn [events]; rewrite Hev, <- !app_assoc; reflexivity);
             try (unfold status_appended;
                  cbn [store bot_status snd Mongo.save_bot_status];
                  rewrite mark_each_bot_status, Hst;
                  eexists _, _; reflexivity).
           intros a Ha. cbn [store].
           rewrite posted_in_save_bot_status.
           apply mark_each_posts; assumption.
  - (* the sink is unreachable *)
    rewrite handler_run. cbn [fst snd store events clock_reads].
    eapply SinkUnreachable; eauto.
    cbn. eexists _, _. reflexivity.
Qed.

(** *** The record of calls *)

Lemma not_among_probes e probes :
  forallb store_probe probes = true ->
  store_probe e = false -> ~ In e probes.
Proof.
  intros Hall He Hin.
  rewrite forallb_forall in Hall. rewrite (Hall e Hin) in He.
  discriminate.
Qed.

Lemma not_among_marks e (l : list article_data) :
  (forall a, e <> mark_event a) -> ~ In e (map mark_event l).
Proof.
  intros Hne Hin. apply in_map_iff in Hin.
  destruct Hin as (a & Ha & _). now apply (Hne a).
Qed.

(** Where an event can stand in the record of a run. *)
Ltac find_event H :=
  repeat (rewrite in_app_iff in H; cbn [In] in H);
  cbn [In] in H;
  repeat match type of H with
         | _ \/ _ => destruct H as [H|H]
         | False => contradiction
         | In _ (map mark_event _) =>
             exfalso; revert H; apply not_among_marks;
             intros ?; discriminate
         | In _ _ =>
             exfalso; revert H; apply not_among_probes;
             [assumption|reflexivity]
         | _ = _ => first [discriminate H | inversion H; subst; clear H]
         end.

Ltac run_cases_of d r w :=
  let Hrun := fresh "Hrun" in
  pose proof (run_cases d) as Hrun;
  set (r := fst (run (start d))) in *;
  set (w := snd (run (start d))) in *;
  clearbody r w;
  destruct Hrun as
    [ w ts Hbot Hev Hst Hart
    | w scraped Hbot Hfetch Hev Hst Hart
    | w articles scraped probes Hbot Hfetch Hne Hpr Hev Hst Hart
    | w articles scraped probes new0 done0 ts Hbot Hfetch Hne Hnew Hpr
        Hpost Hev Hst
    | w articles scraped probes new0 n done0 ts Hbot Hfetch Hne Hnew Hpr
        Hpost Hn Hev Hst Hmarked ].

(** C3. A run that called [post_articles] on its new articles and got
    the count 0 from it: the list was not empty and the call returned
    its count, it did not raise; the run returns the error result with
    the message [Failed to post any articles]; the status it appends
    has status [error], that message and [articles_posted] 0; and no
    article is marked posted. *)
Theorem zero_deliveries_is_error d new_articles done :
  In (PostArticles new_articles done) (events (snd (run (start d)))) ->
  Telegram.post_articles chat_id sink new_articles = 0%nat ->
  new_articles <> []
  /\ Telegram.post_articles_traced chat_id sink new_articles
     = (0%nat, done)
  /\ (exists timestamp,
        fst (run (start d))
        = Returned (StatusError "error" "Failed to post any articles"
                                timestamp))
  /\ (exists now id,
        bot_status (store (snd (run (start d))))
        = bot_status d
          ++ [ {| Mongo.st_id := id;
                  Mongo.st_last_run := now;
                  Mongo.st_articles_posted := 0;
                  Mongo.st_status := "error";
                  Mongo.st_error_message :=
                    Some "Failed to post any articles"%string |} ])
  /\ (forall t s, ~ In (MarkArticlePosted t s)
                      (events (snd (run (start d))))).
Proof.
  intros Hin Hzero. unfold Telegram.post_articles in Hzero.
  run_cases_of d r w; rewrite Hev in Hin; find_event Hin.
  - split; [exact Hnew|]. split; [exact Hpost|].
    split; [now exists ts|]. split; [exact Hst|].
    intros t s Hmark. rewrite Hev in Hmark. find_event Hmark.
  - rewrite Hpost in Hzero. cbn in Hzero. contradiction.
Qed.

(** C4. A run that called [post_articles] on its new articles and got
    a count other than 0, which is when it goes on to mark: for every
    one of the new articles, whatever the sink answered to its own
    request, the run calls [mark_article_posted] on its title and
    source, and the document stored under them has the posted flag set
    when the run ends. *)
Theorem all_new_articles_marked d new_articles done :
  In (PostArticles new_articles done) (events (snd (run (start d)))) ->
  Telegram.post_articles chat_id sink new_articles <> 0%nat ->
  forall a, In a new_articles ->
    In (MarkArticlePosted (title a) (source a))
       (events (snd (run (start d))))
    /\ posted_in (store (snd (run (start d)))) (title a) (source a)
       = true.
Proof.
  intros Hin Hcount a Ha. unfold Telegram.post_articles in Hcount.
  run_cases_of d r w; rewrite Hev in Hin; find_event Hin.
  - rewrite Hpost in Hcount. now cbn in Hcount.
  - split; [|now apply Hmarked].
    rewrite Hev, !in_app_iff. right. right. right. left.
    apply in_map_iff. exists a. now split.
Qed.

(** C8. A run in which the feed client is called and returns the empty
    list: the run returns the success result with the message
    [No articles found]; it appends a status with status [success],
    [articles_posted] 0 and that message; its calls are the probe of
    the sink, the fetch, the status and the closing of the connection,
    so none on the dedup store or on the delivery client; and the
    stored articles are as they were. *)
Theorem empty_feed_is_success d pages :
  In (FetchCricketNews pages) (events (snd (run (start d)))) ->
  Fetcher.fetch_cricket_news parse extract = [] ->
  fst (run (start d))
  = Returned (StatusMessage "success" "No articles found")
  /\ (exists now id,
        bot_status (store (snd (run (start d))))
        = bot_status d
          ++ [ {| Mongo.st_id := id;
                  Mongo.st_last_run := now;
                  Mongo.st_articles_posted := 0;
                  Mongo.st_status := "success";
                  Mongo.st_error_message :=
                    Some "No articles found"%string |} ])
  /\ events (snd (run (start d)))
     = [GetBotInfo; FetchCricketNews pages;
        SaveBotStatus no_articles_status; CloseConnection]
  /\ forallb (fun e => negb (store_or_delivery e))
             (events (snd (run (start d)))) = true
  /\ news_articles (store (snd (run (start d)))) = news_articles d.
Proof.
  intros Hin Hempty. unfold Fetcher.fetch_cricket_news in Hempty.
  run_cases_of d r w; rewrite Hev in Hin; find_event Hin;
    try (rewrite Hfetch in Hempty; cbn in Hempty; contradiction).
  split; [reflexivity|]. split; [exact Hst|].
  split; [exact Hev|]. split; [rewrite Hev; reflexivity|exact Hart].
Qed.

End WithCollaborators.

Import Fixtures.

Ltac pick_event :=
  vm_compute; repeat (first [left; reflexivity | right]).

Lemma zero_deliveries_is_error_witness :
  In (PostArticles two_new
        (snd (Telegram.post_articles_traced EmptyString all_refused two_new)))
     (events (run_with (Some two_entries) all_refused))
  /\ map Mongo.st_status
         (bot_status (store (run_with (Some two_entries) all_refused)))
     = ["error"%string].
Proof.
  assert (Hin : In (PostArticles two_new
                      (snd (Telegram.post_articles_traced EmptyString
                              all_refused two_new)))
                   (events (run_with (Some two_entries) all_refused)))
    by pick_event.
  split; [exact Hin|].
  destruct (zero_deliveries_is_error (Some two_entries) no_content
              EmptyString all_refused reachable ticking empty_db
              two_new _ Hin eq_refl)
    as (_ & _ & _ & (now & id & Hst) & _).
  unfold run_with. rewrite Hst. reflexivity.
Defined.

Lemma all_new_articles_marked_witness :
  Telegram.send_message EmptyString first_refused 0
    (hd first_story two_new) = false
  /\ forall a, In a two_new ->
       posted_in (store (run_with (Some two_entries) first_refused))
                 (title a) (source a) = true.
Proof.
  split; [reflexivity|].
  intros a Ha.
  apply (all_new_articles_marked (Some two_entries) no_content
           EmptyString first_refused reachable ticking empty_db
           two_new
           (snd (Telegram.post_articles_traced EmptyString first_refused
                   two_new))).
  - pick_event.
  - vm_compute. discriminate.
  - exact Ha.
Defined.

Lemma empty_feed_is_success_witness :
  events (run_with (Some []) all_refused)
  = [GetBotInfo; FetchCricketNews [];
     SaveBotStatus no_articles_status; CloseConnection]
  /\ events (run_with None all_refused)
     = [GetBotInfo; FetchCricketNews [];
        SaveBotStatus no_articles_status; CloseConnection].
Proof.
  split.
  - apply (empty_feed_is_success (Some []) no_content EmptyString
             all_refused reachable ticking empty_db []).
    + pick_event.
    + reflexivity.
  - apply (empty_feed_is_success None no_content EmptyString
             all_refused reachable ticking empty_db []).
    + pick_event.
    + reflexivity.
Defined.

End TasksFacts.

(* ================================================================== *)
(** ** More of the scheduler: persistence of due-ness, the pass of the
       loop, the next run *)

Module LoopFacts.
Import Datetime Scheduler Registry.
Import SchedulerFacts.

Lemma trunc_minute_mono t1 t2 :
  t1 <= t2 -> trunc_minute t1 <= trunc_minute t2.
Proof.
  unfold trunc_minute. unfold_units. intros.
  Z.div_mod_to_equations. lia.
Qed.

Lemma spacing_met_mono tk t1 t2 :
  t1 <= t2 -> spacing_met tk t1 = true -> spacing_met tk t2 = true.
Proof.
  intros Hle. unfold spacing_met.
  destruct (last_run tk) as [lr|]; [|reflexivity].
  unfold total_seconds_lt. rewrite !negb_true_iff, !Z.ltb_ge.
  pose proof (trunc_minute_mono _ _ Hle). lia.
Qed.

(** X1. While the document of a task is not changed, a task that was due
    is due at every later time that passes the tolerance test. *)
Theorem due_until_last_run_changes tk t1 t2 :
  t1 <= t2 ->
  should_run_task tk t1 = Some true ->
  within_tolerance tk t2 = Some true ->
  should_run_task tk t2 = Some true.
Proof.
  intros Hle H1 H2. rewrite should_run_task_split in H1.
  rewrite should_run_task_split, H2.
  destruct (within_tolerance tk t1) as [tol|]; [|discriminate].
  injection H1 as E. apply andb_true_iff in E. destruct E as [_ Hsp].
  now rewrite (spacing_met_mono tk t1 t2 Hle Hsp).
Qed.

Lemma due_until_last_run_changes_witness :
  should_run_task (Mongo.hourly_task 10) (at_time 19000 10 0 0) = Some true.
Proof.
  apply (due_until_last_run_changes (Mongo.hourly_task 10)
           (at_time 19000 9 58 0) (at_time 19000 10 0 0)).
  - vm_compute. discriminate.
  - vm_compute. reflexivity.
  - vm_compute. reflexivity.
Defined.

Lemma on_clock_spec tk :
  on_clock tk = true <->
  0 <= hour (sched tk) <= 23 /\ 0 <= minute (sched tk) <= 59.
Proof.
  unfold on_clock. rewrite !andb_true_iff, !Z.leb_le. tauto.
Qed.


Section Pass.
Variable clock : nat -> datetime.





End Pass.

(** *** The last run of a task *)






(** *** The next run that [scheduler_health] reports *)

(** X4. For a schedule on the clock, the next run reported is the first
    instant after now at which the clock reads the schedule: it is after
    now, at most a day after, the clock reads [h]:[m]:00 at it, and no
    instant between now and it reads so.  A task of that schedule that
    has never run is due at it. *)
Theorem next_run_is_next_occurrence now h m :
  0 <= h <= 23 -> 0 <= m <= 59 ->
  exists next,
    Health.next_run now h m = Some next
    /\ now < next <= now + us_per_day
    /\ next mod us_per_day = h * us_per_hour + m * us_per_minute
    /\ (forall x, now < x ->
          x mod us_per_day = h * us_per_hour + m * us_per_minute ->
          next <= x)
    /\ (forall tk, sched tk = {| hour := h; minute := m |} ->
          last_run tk = None ->
          should_run_task tk next = Some true).
Proof.
  intros Hh Hm. unfold Health.next_run, replace_hm.
  replace ((0 <=? h) && (h <=? 23) && (0 <=? m) && (m <=? 59)) with true
    by (symmetry; rewrite !andb_true_iff, !Z.leb_le; lia).
  rewrite trunc_minute_mod.
  set (base := trunc_minute now / us_per_day * us_per_day
               + h * us_per_hour + m * us_per_minute + 0).
  assert (Hbase : base = now / us_per_day * us_per_day
                         + h * us_per_hour + m * us_per_minute).
  { subst base. unfold trunc_minute. unfold_units.
    Z.div_mod_to_equations. lia. }
  assert (Hdue : forall next tk,
             next mod us_per_day = h * us_per_hour + m * us_per_minute ->
             sched tk = {| hour := h; minute := m |} ->
             last_run tk = None ->
             should_run_task tk next = Some true).
  { intros next tk Hmod Hs Hlr.
    rewrite should_run_task_spec by (rewrite Hs; cbn; lia).
    unfold spacing_met. rewrite Hlr, Hs. cbn [hour minute].
    rewrite andb_true_r. f_equal. apply Z.leb_le.
    replace (minute_of_day next) with (60 * h + m); [lia|].
    unfold minute_of_day. rewrite Hmod. unfold_units.
    Z.div_mod_to_equations. lia. }
  destruct (Z.leb_spec base now) as [Hpast|Hfuture].
  - exists (base + us_per_day).
    assert (Hmod : (base + us_per_day) mod us_per_day
                   = h * us_per_hour + m * us_per_minute).
    { rewrite Hbase. unfold_units. Z.div_mod_to_equations. lia. }
    split; [reflexivity|]. split.
    { rewrite Hbase in *. unfold_units. Z.div_mod_to_equations. lia. }
    split; [exact Hmod|]. split.
    + intros x Hx Hxm. rewrite Hbase in *. unfold_units.
      Z.div_mod_to_equations. lia.
    + intros tk. now apply Hdue.
  - exists base.
    assert (Hmod : base mod us_per_day
                   = h * us_per_hour + m * us_per_minute).
    { rewrite Hbase. unfold_units. Z.div_mod_to_equations. lia. }
    split; [reflexivity|]. split.
    { rewrite Hbase in *. unfold_units. Z.div_mod_to_equations. lia. }
    split; [exact Hmod|]. split.
    + intros x Hx Hxm. rewrite Hbase in *. unfold_units.
      Z.div_mod_to_equations. lia.
    + intros tk. now apply Hdue.
Qed.

Lemma next_run_is_next_occurrence_witness :
  Health.next_run (at_time 19000 23 59 30) 0 0
    = Some (at_time 19001 0 0 0)
  /\ exists next, Health.next_run (at_time 19000 23 59 30) 0 0 = Some next
                  /\ at_time 19000 23 59 30 < next.
Proof.
  split; [vm_compute; reflexivity|].
  destruct (next_run_is_next_occurrence (at_time 19000 23 59 30) 0 0
              ltac:(lia) ltac:(lia)) as (next & E & Hlt & _).
  exists next. split; [exact E|apply Hlt].
Defined.

End LoopFacts.

(* ================================================================== *)
(** ** More of the store: the seeding of the registry, cleanup, marking,
       the uniqueness of keys, statistics *)

Module StoreFacts.
Import Datetime Mongo MongoQueries Registry.
Import MongoFacts.

Ltac unfold_units :=
  unfold us_per_day, us_per_hour, us_per_minute, us_per_second in *.

Lemma filter_split_length {A} (p : A -> bool) (l : list A) :
  (List.length (filter p l)
   + List.length (filter (fun x => negb (p x)) l))%nat = List.length l.
Proof.
  induction l as [|x l IH]; [reflexivity|].
  cbn [filter]. destruct (p x); cbn [negb List.length]; lia.
Qed.


Lemma filter_none {A} (p : A -> bool) (l : list A) :
  (forall x, In x l -> p x = false) -> filter p l = [].
Proof.
  induction l as [|x l IH]; intros H; [reflexivity|].
  cbn [filter]. rewrite (H x) by now left.
  apply IH. intros y Hy. apply H. now right.
Qed.

(** *** [setup_scheduled_tasks] *)






(** *** [cleanup_old_articles] *)




(** *** [mark_article_posted] *)

Lemma update_first_content p (l : list article_doc) :
  map content (update_first p set_posted l) = map content l.
Proof.
  induction l as [|x l IH]; [reflexivity|].
  cbn [update_first]. destruct (p x); cbn [map]; [reflexivity|].
  now rewrite IH.
Qed.

Lemma update_first_absent {A} (p : A -> bool) f (l : list A) :
  find p l = None -> update_first p f l = l.
Proof.
  induction l as [|x l IH]; [reflexivity|].
  cbn [find update_first]. destruct (p x); [discriminate|].
  intros H. now rewrite IH.
Qed.

Lemma update_first_twice t s (l : list article_doc) :
  update_first (key_matches t s) set_posted
    (update_first (key_matches t s) set_posted l)
  = update_first (key_matches t s) set_posted l.
Proof.
  induction l as [|x l IH]; [reflexivity|].
  cbn [update_first]. destruct (key_matches t s x) eqn:Hx.
  - cbn [update_first]. rewrite key_matches_set_posted, Hx. reflexivity.
  - cbn [update_first]. rewrite Hx. now rewrite IH.
Qed.

Lemma posted_count_update_first p (l : list article_doc) :
  List.length (filter doc_is_posted (update_first p set_posted l))
  = (List.length (filter doc_is_posted l)
     + match find p l with
       | Some doc => if doc_is_posted doc then 0 else 1
       | None => 0
       end)%nat.
Proof.
  induction l as [|x l IH]; [reflexivity|].
  cbn [update_first find]. destruct (p x).
  - cbn [filter doc_is_posted set_posted].
    destruct (doc_is_posted x); cbn [List.length]; lia.
  - cbn [filter]. destruct (doc_is_posted x); cbn [List.length];
      rewrite IH; lia.
Qed.

Lemma marking_keeps_content t s d :
  map content (news_articles (mark_article_posted t s d))
  = map content (news_articles d).
Proof. apply update_first_content. Qed.

(** X7. [mark_article_posted] changes nothing but posted flags: the stored
    articles keep their order, ids, keys, links, images, descriptions
    and timestamps, and the statuses and the registry are untouched.
    Under a key that is not stored it changes nothing at all; a second
    call under the same key changes nothing; and the number of posted
    articles that [get_statistics] counts rises by one when the key is
    stored with its flag unset and stays as it is otherwise. *)
Theorem mark_sets_one_flag t s d :
  map content (news_articles (mark_article_posted t s d))
  = map content (news_articles d)
  /\ bot_status (mark_article_posted t s d) = bot_status d
  /\ scheduler_tasks (mark_article_posted t s d) = scheduler_tasks d
  /\ (article_exists t s d = false -> mark_article_posted t s d = d)
  /\ mark_article_posted t s (mark_article_posted t s d)
     = mark_article_posted t s d
  /\ (forall utcnow,
        fst (get_statistics utcnow (mark_article_posted t s d))
        = (fst (get_statistics utcnow d)
           + (if article_exists t s d && negb (posted_in d t s)
              then 1 else 0))%nat).
Proof.
  unfold mark_article_posted.
  cbn [news_articles bot_status scheduler_tasks next_id].
  split; [apply update_first_content|].
  split; [reflexivity|]. split; [reflexivity|]. split; [|split].
  - intros Hnew. apply article_exists_false in Hnew.
    unfold find_one in Hnew. rewrite update_first_absent by assumption.
    now destruct d.
  - now rewrite update_first_twice.
  - intros utcnow. unfold get_statistics.
    cbn [fst news_articles]. rewrite posted_count_update_first.
    unfold article_exists, posted_in, find_one.
    destruct (find (key_matches t s) (news_articles d)) as [doc|];
      [|reflexivity].
    cbn [andb]. now destruct (doc_is_posted doc).
Qed.

Lemma mark_sets_one_flag_witness :
  mark_article_posted "India win the series" "BBC"
    (snd (save_article Fixtures.first_story 100 Fixtures.empty_db))
  = snd (save_article Fixtures.first_story 100 Fixtures.empty_db).
Proof.
  destruct (mark_sets_one_flag "India win the series" "BBC"
              (snd (save_article Fixtures.first_story 100
                                 Fixtures.empty_db)))
    as (_ & _ & _ & H & _).
  apply H. reflexivity.
Defined.

(** *** At most one article under a key *)

Lemma key_matches_iff t s doc :
  key_matches t s doc = true <-> (doc_title doc, doc_source doc) = (t, s).
Proof.
  unfold key_matches. rewrite andb_true_iff, !String.eqb_eq.
  split; [intros [-> ->]; reflexivity|intros E; now inversion E].
Qed.

Lemma find_one_none t s d :
  find_one t s d = None <-> ~ In (t, s) (keys d).
Proof.
  unfold find_one, keys.
  induction (news_articles d) as [|x l IH]; cbn [find map In].
  - tauto.
  - destruct (key_matches t s x) eqn:Hx.
    + apply key_matches_iff in Hx. split; [discriminate|].
      intros H. exfalso. apply H. now left.
    + rewrite IH. split.
      * intros H [E | Hin]; [|now apply H].
        apply key_matches_iff in E. congruence.
      * intros H Hin. apply H. now right.
Qed.

(** Deleting documents leaves the keys of those that stay distinct. *)
Lemma keys_after_delete (keep : article_doc -> bool)
    (docs : list article_doc) :
  NoDup (map (fun doc => (doc_title doc, doc_source doc)) docs) ->
  NoDup (map (fun doc => (doc_title doc, doc_source doc))
             (filter keep docs)).
Proof.
  intros H. induction docs as [|doc docs IH]; [exact H|].
  cbn [map] in H. apply NoDup_cons_iff in H. destruct H as [Hdoc Hrest].
  cbn [filter]. destruct (keep doc); [|now apply IH].
  cbn [map]. apply NoDup_cons; [|now apply IH].
  intros Hin. apply Hdoc. apply in_map_iff in Hin.
  destruct Hin as (y & E & Hy). apply filter_In in Hy.
  apply in_map_iff. exists y. tauto.
Qed.

Lemma keys_of_content (l l' : list article_doc) :
  map content l = map content l' ->
  map (fun doc => (doc_title doc, doc_source doc)) l
  = map (fun doc => (doc_title doc, doc_source doc)) l'.
Proof.
  intros E.
  assert (K : forall docs : list article_doc,
             map (fun doc => (doc_title doc, doc_source doc)) docs
             = map (fun c => match c with
                             | (_, t, _, _, _, s, _) => (t, s)
                             end) (map content docs)).
  { intros docs. rewrite map_map. reflexivity. }
  now rewrite (K l), (K l'), E.
Qed.

Lemma unique_matches t s (l : list article_doc) :
  NoDup (map (fun doc => (doc_title doc, doc_source doc)) l) ->
  (List.length (filter (key_matches t s) l) <= 1)%nat.
Proof.
  induction l as [|x l IH]; intros H; [cbn; lia|].
  cbn [map] in H. inversion H as [|? ? Hx Hl]; subst.
  cbn [filter]. destruct (key_matches t s x) eqn:E; [|now apply IH].
  apply key_matches_iff in E. rewrite E in Hx.
  rewrite filter_none; [cbn; lia|].
  intros y Hy. apply not_true_iff_false. intros Ey.
  apply key_matches_iff in Ey. apply Hx.
  apply in_map_iff. exists y. now split.
Qed.

(** X8. A store that holds at most one article under each (title, source)
    key still does after [save_article], after [mark_article_posted]
    and after [cleanup_old_articles]; in such a store the filter of a
    key matches at most one article. *)
Theorem one_article_per_key d :
  NoDup (keys d) ->
  (forall a utcnow, NoDup (keys (snd (save_article a utcnow d))))
  /\ (forall t s, NoDup (keys (mark_article_posted t s d)))
  /\ (forall utcnow, NoDup (keys (snd (cleanup_old_articles utcnow d))))
  /\ (forall t s,
        (List.length (filter (key_matches t s) (news_articles d)) <= 1)%nat).
Proof.
  intros Hd. split; [|split; [|split]].
  - intros a utcnow.
    destruct (find_one (title a) (source a) d) as [existing|] eqn:Hf.
    + now rewrite (save_article_known _ utcnow _ _ Hf).
    + rewrite (save_article_fresh _ utcnow _ Hf). unfold keys in *.
      cbn [snd news_articles]. rewrite map_app. cbn [map].
      apply NoDup_app; repeat split.
      * exact Hd.
      * constructor; [intros []|constructor].
      * intros k Hk [<- | []].
        apply (proj1 (find_one_none _ _ d) Hf). exact Hk.
  - intros t s. unfold keys in *.
    rewrite (keys_of_content _ (news_articles d)); [exact Hd|].
    apply marking_keeps_content.
  - intros utcnow. unfold keys, cleanup_old_articles.
    cbn [snd news_articles]. now apply keys_after_delete.
  - intros t s. now apply unique_matches.
Qed.

Lemma one_article_per_key_witness :
  NoDup (keys (snd (save_article Fixtures.second_story 200
                      (snd (save_article Fixtures.first_story 100
                                         Fixtures.empty_db))))).
Proof.
  apply (one_article_per_key
           (snd (save_article Fixtures.first_story 100 Fixtures.empty_db))).
  vm_compute. constructor; [intros []|constructor].
Defined.

(** *** [save_article] and the lookups *)

Lemma find_one_other t s d doc :
  key_matches t s doc = false ->
  find (key_matches t s) (news_articles d ++ [doc]) = find_one t s d.
Proof.
  intros H. rewrite find_snoc, H. unfold find_one.
  now destruct (find (key_matches t s) (news_articles d)).
Qed.

(** X9. After [save_article] the key of the article is stored, and the id
    returned is the id of the document stored under it; the lookup of
    every other key answers as before; the articles stored before are
    all kept, in place and unchanged, and at most one is appended; and
    an article saved without a posted flag, or with the flag unset,
    leaves the count of posted articles as it is. *)
Theorem save_then_lookup a utcnow d :
  let id := fst (save_article a utcnow d) in
  let d' := snd (save_article a utcnow d) in
  article_exists (title a) (source a) d' = true
  /\ (exists doc, find_one (title a) (source a) d' = Some doc
                  /\ id = Some (doc_id doc))
  /\ (forall t s, (t, s) <> (title a, source a) ->
        find_one t s d' = find_one t s d)
  /\ (exists appended, news_articles d' = news_articles d ++ appended
                       /\ (List.length appended <= 1)%nat)
  /\ (is_posted a <> Some true ->
      forall now, fst (get_statistics now d') = fst (get_statistics now d)).
Proof.
  cbv zeta.
  destruct (find_one (title a) (source a) d) as [existing|] eqn:Hf.
  - rewrite (save_article_known _ utcnow _ _ Hf). cbn [fst snd].
    unfold article_exists. rewrite Hf.
    split; [reflexivity|]. split; [now exists existing|].
    split; [reflexivity|]. split; [|reflexivity].
    exists []. rewrite app_nil_r. split; [reflexivity|cbn; lia].
  - rewrite (save_article_fresh _ utcnow _ Hf). cbn [fst snd].
    assert (Hkey : key_matches (title a) (source a)
                     (article_doc_of a utcnow (next_id d)) = true)
      by (apply key_matches_refl; reflexivity).
    assert (Hnew : find_one (title a) (source a)
                     {| news_articles :=
                          news_articles d
                          ++ [article_doc_of a utcnow (next_id d)];
                        bot_status := bot_status d;
                        scheduler_tasks := scheduler_tasks d;
                        next_id := S (next_id d) |}
                   = Some (article_doc_of a utcnow (next_id d))).
    { unfold find_one in *. cbn [news_articles].
      now rewrite find_snoc, Hf, Hkey. }
    unfold article_exists. rewrite Hnew.
    split; [reflexivity|].
    split; [eexists; split; [reflexivity|reflexivity]|].
    split; [|split].
    + intros t s Hne. unfold find_one at 1. cbn [news_articles].
      apply find_one_other. apply not_true_iff_false. intros E.
      apply key_matches_iff in E. cbn in E. congruence.
    + eexists. split; [reflexivity|cbn; lia].
    + intros Hflag now. unfold get_statistics. cbn [fst news_articles].
      rewrite filter_app, length_app. cbn [filter].
      replace (doc_is_posted (article_doc_of a utcnow (next_id d)))
        with false; [cbn; lia|].
      cbn. destruct (is_posted a) as [[|]|]; congruence.
Qed.

Lemma save_then_lookup_witness :
  fst (get_statistics 200
         (snd (save_article Fixtures.first_story 100 Fixtures.empty_db)))
  = 0%nat.
Proof.
  destruct (save_then_lookup Fixtures.first_story 100 Fixtures.empty_db)
    as (_ & _ & _ & _ & H).
  rewrite H; [reflexivity|]. cbn. discriminate.
Defined.

(** *** [get_statistics] *)

Lemma filter_length_le {A} (p q : A -> bool) (l : list A) :
  (forall x, p x = true -> q x = true) ->
  (List.length (filter p l) <= List.length (filter q l))%nat.
Proof.
  intros H. induction l as [|x l IH]; [cbn; lia|].
  cbn [filter]. destruct (p x) eqn:Hp.
  - rewrite (H x Hp). cbn. lia.
  - destruct (q x); cbn; lia.
Qed.

(** X10. The articles posted today are among the articles posted, which are
    among the articles stored; cleanup never raises either count; and
    an article counted today was stored on the day of the clock. *)
Theorem statistics_are_nested utcnow d :
  let total := fst (get_statistics utcnow d) in
  let today := snd (get_statistics utcnow d) in
  (today <= total <= List.length (news_articles d))%nat
  /\ (forall at_, (fst (get_statistics utcnow
                          (snd (cleanup_old_articles at_ d)))
                   <= total)%nat)
  /\ (today
      = List.length
          (filter (fun doc => doc_is_posted doc
                              && (doc_posted_at doc / us_per_day
                                  =? utcnow / us_per_day))
                  (news_articles d))).
Proof.
  cbv zeta. unfold get_statistics. cbn [fst snd].
  split; [split|split].
  - apply filter_length_le. intros x Hx.
    apply andb_true_iff in Hx. destruct Hx as [Hx _].
    apply andb_true_iff in Hx. tauto.
  - rewrite <- (filter_split_length doc_is_posted (news_articles d)). lia.
  - intros at_. unfold cleanup_old_articles. cbn [snd news_articles].
    induction (news_articles d) as [|x l IH]; [cbn; lia|].
    cbn [filter]. destruct (negb (older_than _ x)); cbn [filter];
      destruct (doc_is_posted x); cbn [List.length]; lia.
  - f_equal. apply filter_ext. intros doc.
    destruct (doc_is_posted doc); [|reflexivity]. cbn [andb].
    unfold today_start. unfold_units.
    apply eq_true_iff_eq.
    rewrite andb_true_iff, Z.leb_le, Z.ltb_lt, Z.eqb_eq.
    Z.div_mod_to_equations. lia.
Qed.

Lemma update_first_skip {A} (p : A -> bool) f old x rest :
  find p old = None -> p x = true ->
  update_first p f (old ++ x :: rest) = old ++ f x :: rest.
Proof.
  induction old as [|y old IH]; cbn [find app update_first]; intros H Hx.
  - now rewrite Hx.
  - destruct (p y); [discriminate|]. now rewrite IH.
Qed.

Lemma mark_each_counts new_articles docs :
  Forall2 Filtering.saved_as new_articles docs ->
  forall d old,
    news_articles d = old ++ docs ->
    NoDup (map Filtering.key new_articles) ->
    (forall a, In a new_articles ->
       find (key_matches (title a) (source a)) old = None) ->
    List.length (filter doc_is_posted
                        (news_articles (mark_each new_articles d)))
    = (List.length (filter doc_is_posted old)
       + List.length new_articles)%nat.
Proof.
  induction 1 as [|a doc new_articles docs (Ht & Hs & Hp) _ IH];
    intros d old Hd Hnd Hold.
  - cbn [mark_each fold_left List.length]. rewrite Hd, app_nil_r. lia.
  - change (mark_each (a :: new_articles) d)
      with (mark_each new_articles
              (mark_article_posted (title a) (source a) d)).
    cbn [map] in Hnd. inversion Hnd as [|? ? Ha Hnd']; subst.
    assert (Hkey : key_matches (title a) (source a) doc = true)
      by (apply key_matches_refl; assumption).
    rewrite (IH (mark_article_posted (title a) (source a) d)
                (old ++ [set_posted doc])).
    + rewrite filter_app, length_app. cbn [filter doc_is_posted set_posted
                                           List.length]. lia.
    + unfold mark_article_posted. cbn [news_articles]. rewrite Hd.
      rewrite update_first_skip; [|apply Hold; now left|exact Hkey].
      now rewrite <- app_assoc.
    + exact Hnd'.
    + intros b Hb. rewrite find_snoc, (Hold b) by now right.
      rewrite key_matches_set_posted.
      destruct (key_matches (title b) (source b) doc) eqn:E;
        [|reflexivity].
      exfalso. apply Ha. apply in_map_iff. exists b. split; [|exact Hb].
      apply key_matches_iff in E. unfold Filtering.key. congruence.
Qed.

Lemma mark_each_statuses new_articles :
  forall d, bot_status (mark_each new_articles d) = bot_status d.
Proof.
  induction new_articles as [|a rest IH]; intros d; [reflexivity|].
  cbn [mark_each fold_left]. fold (mark_each rest). now rewrite IH.
Qed.

End StoreFacts.

(* ================================================================== *)
(** ** More of the pipeline: what every run keeps, the new articles, the
       second run *)

Module RunFacts.
Import Datetime Tasks Growth Filtering.
Import Mongo (article_data, title, source, db, news_articles, bot_status,
              scheduler_tasks, next_id, posted_in, mark_each,
              status_doc_of).
Import MongoFacts TasksFacts.

(** *** The growth of the world *)

Lemma prefix_of_refl {A} (l : list A) : prefix_of l l.
Proof. exists []. now rewrite app_nil_r. Qed.

Lemma prefix_of_trans {A} (l1 l2 l3 : list A) :
  prefix_of l1 l2 -> prefix_of l2 l3 -> prefix_of l1 l3.
Proof.
  intros [t1 ->] [t2 ->]. exists (t1 ++ t2). now rewrite app_assoc.
Qed.

Lemma prefix_of_snoc {A} (l : list A) x : prefix_of l (l ++ [x]).
Proof. now exists [x]. Qed.

Lemma grows_refl w : grows w w.
Proof.
  unfold grows. repeat split; auto using prefix_of_refl.
Qed.

Lemma grows_trans w1 w2 w3 : grows w1 w2 -> grows w2 w3 -> grows w1 w3.
Proof.
  intros (A1 & B1 & C1 & D1 & E1 & F1) (A2 & B2 & C2 & D2 & E2 & F2).
  unfold grows. repeat split.
  - congruence.
  - eapply prefix_of_trans; eassumption.
  - auto.
  - eapply prefix_of_trans; eassumption.
  - eapply prefix_of_trans; eassumption.
  - lia.
Qed.

Lemma keeps_ret {A} (a : A) : keeps (ret a).
Proof. intros w. apply grows_refl. Qed.

Lemma keeps_raise {A} e : keeps (@raise A e).
Proof. intros w. apply grows_refl. Qed.

Lemma keeps_bind {A B} (m : M A) (k : A -> M B) :
  keeps m -> (forall a, keeps (k a)) -> keeps (bind m k).
Proof.
  intros Hm Hk w. unfold bind. specialize (Hm w).
  destruct (m w) as [[a|e] w']; cbn [snd] in *; [|exact Hm].
  eapply grows_trans; [exact Hm|apply Hk].
Qed.

Lemma keeps_try_except {A} (body : M A) handler :
  keeps body -> (forall e, keeps (handler e)) ->
  keeps (try_except body handler).
Proof.
  intros Hb Hh w. unfold try_except. specialize (Hb w).
  destruct (body w) as [[a|e] w']; cbn [snd] in *; [exact Hb|].
  eapply grows_trans; [exact Hb|apply Hh].
Qed.

Lemma keeps_try_finally {A} (body : M A) cleanup :
  keeps body -> keeps cleanup -> keeps (try_finally body cleanup).
Proof.
  intros Hb Hc w. unfold try_finally. specialize (Hb w).
  destruct (body w) as [r w']. cbn [snd] in Hb. specialize (Hc w').
  destruct (cleanup w') as [[u|e] w'']; cbn [snd] in *;
    eapply grows_trans; eassumption.
Qed.

Lemma keeps_emit e : keeps (emit e).
Proof.
  intros w. unfold emit, grows. cbn.
  repeat split; auto using prefix_of_refl, prefix_of_snoc.
Qed.

Lemma keeps_get_store : keeps get_store.
Proof. intros w. apply grows_refl. Qed.

Lemma returns_try_except {A} (body : M A) handler :
  (forall e, returns (handler e)) -> returns (try_except body handler).
Proof.
  intros Hh w. unfold try_except.
  destruct (body w) as [[a|e] w']; [now exists a|apply Hh].
Qed.

Lemma returns_try_finally {A} (body : M A) cleanup :
  returns body -> returns cleanup -> returns (try_finally body cleanup).
Proof.
  intros Hb Hc w. unfold try_finally. destruct (Hb w) as [a Ha].
  destruct (body w) as [r w']. cbn [fst] in Ha. subst r.
  destruct (Hc w') as [u Hu].
  destruct (cleanup w') as [[u'|e] w'']; cbn [fst] in *;
    [now exists a|discriminate].
Qed.

Lemma exists_as_content t s (l : list Mongo.article_doc) :
  match find (Mongo.key_matches t s) l with
  | Some _ => true
  | None => false
  end
  = existsb (fun c => match c with
                      | (_, t', _, _, _, s', _) =>
                          (t' =? t)%string && (s' =? s)%string
                      end) (map MongoQueries.content l).
Proof.
  induction l as [|x l IH]; [reflexivity|].
  cbn [find map existsb]. unfold Mongo.key_matches at 1.
  unfold MongoQueries.content at 1.
  destruct ((Mongo.doc_title x =? t)%string
            && (Mongo.doc_source x =? s)%string); [reflexivity|exact IH].
Qed.

Lemma exists_grows w w' t s :
  grows w w' ->
  Mongo.article_exists t s (store w) = true ->
  Mongo.article_exists t s (store w') = true.
Proof.
  intros (_ & [tail E] & _). unfold Mongo.article_exists, Mongo.find_one.
  rewrite !exists_as_content, E, existsb_app. intros ->. reflexivity.
Qed.

Section WithCollaborators.
Variable parse : option (list Fetcher.entry).
Variable extract : string -> option string * option string.
Variable chat_id : string.
Variable sink : nat -> Telegram.request -> bool.
Variable bot_info : option (list (string * string)).
Variable clock : nat -> datetime.

Local Abbreviation run :=
  (fetch_and_post_cricket_news parse extract chat_id sink bot_info clock).

Ltac step :=
  unfold bind, ret, emit, get_store, put_store, utcnow, raise;
  cbn [store events clock_reads fst snd].

Lemma keeps_utcnow : keeps (utcnow clock).
Proof.
  intros w. unfold utcnow, grows. cbn.
  repeat split; auto using prefix_of_refl.
Qed.

Lemma save_article_run a w :
  save_article clock a w
  = (Returned (fst (Mongo.save_article a (clock (clock_reads w))
                                       (store w))),
     {| store := snd (Mongo.save_article a (clock (clock_reads w))
                                         (store w));
        clock_reads := S (clock_reads w);
        events := events w ++ [SaveArticle a] |}).
Proof.
  unfold save_article. step.
  now destruct (Mongo.save_article a (clock (clock_reads w)) (store w)).
Qed.

Lemma posted_in_snoc d doc t s :
  find (Mongo.key_matches t s) (news_articles d) <> None ->
  find (Mongo.key_matches t s) (news_articles d ++ [doc])
  = find (Mongo.key_matches t s) (news_articles d).
Proof.
  intros H. rewrite find_snoc.
  now destruct (find (Mongo.key_matches t s) (news_articles d)).
Qed.

Lemma keeps_save_article a : keeps (save_article clock a).
Proof.
  intros w. rewrite save_article_run. cbn [snd]. unfold grows.
  cbn [store events clock_reads].
  destruct (Mongo.find_one (title a) (source a) (store w))
    as [existing|] eqn:Hf.
  - rewrite (save_article_known _ _ _ _ Hf). cbn [snd].
    repeat split; auto using prefix_of_refl, prefix_of_snoc.
  - rewrite (save_article_fresh _ _ _ Hf).
    cbn [snd scheduler_tasks news_articles bot_status].
    repeat split; auto using prefix_of_refl, prefix_of_snoc.
    + rewrite map_app. eexists. reflexivity.
    + intros t s. unfold posted_in, Mongo.find_one.
      cbn [news_articles]. rewrite find_snoc.
      destruct (find (Mongo.key_matches t s) (news_articles (store w)));
        [trivial|discriminate].
Qed.

Lemma keeps_mark_article_posted t s : keeps (mark_article_posted t s).
Proof.
  intros w. unfold mark_article_posted. step. unfold grows.
  cbn [store events clock_reads].
  repeat split; auto using prefix_of_refl, prefix_of_snoc.
  - unfold Mongo.mark_article_posted. cbn [news_articles].
    rewrite StoreFacts.update_first_content. apply prefix_of_refl.
  - intros t' s'. apply posted_in_mark_other.
Qed.

Lemma keeps_save_bot_status sd : keeps (save_bot_status clock sd).
Proof.
  intros w. rewrite save_bot_status_run. cbn [snd]. unfold grows.
  cbn [store events clock_reads snd Mongo.save_bot_status
       scheduler_tasks news_articles bot_status].
  repeat split; auto using prefix_of_refl, prefix_of_snoc.
Qed.

Lemma keeps_article_exists t s : keeps (article_exists t s).
Proof.
  unfold article_exists.
  apply keeps_bind; [apply keeps_emit|intros _].
  apply keeps_bind; [apply keeps_get_store|intros d; apply keeps_ret].
Qed.

Lemma keeps_filter_new articles :
  forall acc, keeps (filter_new clock articles acc).
Proof.
  induction articles as [|a rest IH]; intros acc;
    [apply keeps_ret|].
  cbn [filter_new].
  apply keeps_bind; [apply keeps_article_exists|intros known].
  destruct known; cbn [negb]; [apply IH|].
  apply keeps_bind; [apply keeps_save_article|intros _; apply IH].
Qed.

Lemma keeps_mark_all new_articles : keeps (mark_all new_articles).
Proof.
  induction new_articles as [|a rest IH]; [apply keeps_ret|].
  cbn [mark_all].
  apply keeps_bind; [apply keeps_mark_article_posted|intros _; exact IH].
Qed.

Lemma keeps_post_articles articles :
  keeps (post_articles chat_id sink articles).
Proof.
  unfold post_articles.
  destruct (Telegram.post_articles_traced chat_id sink articles).
  apply keeps_bind; [apply keeps_emit|intros _; apply keeps_ret].
Qed.

Lemma keeps_handler e : keeps (pipeline_handler clock e).
Proof.
  unfold pipeline_handler.
  apply keeps_bind.
  - apply keeps_try_except; [|intros _; apply keeps_ret].
    apply keeps_bind; [apply keeps_save_bot_status|].
    intros _; apply keeps_ret.
  - intros _. apply keeps_bind; [apply keeps_utcnow|].
    intros ts; apply keeps_ret.
Qed.

Lemma keeps_close : keeps (try_except close_connection (fun _ => ret tt)).
Proof.
  apply keeps_try_except; [apply keeps_emit|intros _; apply keeps_ret].
Qed.

Lemma keeps_after_filter articles new_articles :
  keeps (after_filter chat_id sink clock articles new_articles).
Proof.
  unfold after_filter. destruct new_articles as [|a rest].
  - apply keeps_bind; [apply keeps_save_bot_status|].
    intros _; apply keeps_ret.
  - apply keeps_bind; [apply keeps_post_articles|intros n].
    destruct (n =? 0)%nat; [apply keeps_raise|].
    apply keeps_bind; [apply keeps_mark_all|intros _].
    apply keeps_bind; [apply keeps_save_bot_status|intros _].
    apply keeps_bind; [apply keeps_utcnow|intros ts; apply keeps_ret].
Qed.

Lemma keeps_finish articles new_articles :
  keeps (finish chat_id sink clock articles new_articles).
Proof.
  apply keeps_try_finally; [|apply keeps_close].
  apply keeps_try_except; [apply keeps_after_filter|apply keeps_handler].
Qed.

Lemma keeps_body :
  keeps (pipeline_body parse extract chat_id sink bot_info clock).
Proof.
  unfold pipeline_body.
  apply keeps_bind.
  { unfold get_bot_info.
    apply keeps_bind; [apply keeps_emit|intros _; apply keeps_ret]. }
  intros info. destruct (negb (Py.truthy_dict info)); [apply keeps_raise|].
  apply keeps_bind.
  { unfold fetch_cricket_news.
    destruct (Fetcher.fetch_cricket_news_traced parse extract).
    apply keeps_bind; [apply keeps_emit|intros _; apply keeps_ret]. }
  intros articles. destruct articles as [|a rest].
  - apply keeps_bind; [apply keeps_save_bot_status|].
    intros _; apply keeps_ret.
  - apply keeps_bind; [apply keeps_filter_new|intros new_articles].
    apply (keeps_after_filter (a :: rest) new_articles).
Qed.

Lemma returns_handler e : returns (pipeline_handler clock e).
Proof. intros w. rewrite handler_run. eexists. reflexivity. Qed.

Lemma returns_close :
  returns (try_except close_connection (fun _ => ret tt)).
Proof. intros w. exists tt. reflexivity. Qed.

(** X11. Every run of the pipeline, from any store, returns a result, it
    never raises; and it grows the world: it leaves the task registry
    as it is, it keeps every stored article in place with its content
    and never unsets a posted flag, it only appends statuses, and it
    does not undo a call. *)
Theorem run_returns_and_grows w :
  (exists result, fst (run w) = Returned result)
  /\ grows w (snd (run w)).
Proof.
  split.
  - apply returns_try_finally; [|apply returns_close].
    apply returns_try_except. apply returns_handler.
  - apply keeps_try_finally; [|apply keeps_close].
    apply keeps_try_except; [apply keeps_body|apply keeps_handler].
Qed.

(** *** The new articles *)

Lemma new_of_ext articles :
  forall known known',
    (forall t s, known t s = known' t s) ->
    new_of articles known = new_of articles known'.
Proof.
  induction articles as [|a rest IH]; intros known known' E;
    [reflexivity|].
  cbn [new_of]. rewrite <- E.
  destruct (known (title a) (source a)); [now apply IH|].
  f_equal. apply IH. intros t s. now rewrite E.
Qed.

Lemma exists_after_fresh_save a now d t s :
  Mongo.find_one (title a) (source a) d = None ->
  Mongo.article_exists t s (snd (Mongo.save_article a now d))
  = Mongo.article_exists t s d || same_key a t s.
Proof.
  intros Hf. rewrite (save_article_fresh _ _ _ Hf). cbn [snd].
  unfold Mongo.article_exists, Mongo.find_one. cbn [news_articles].
  rewrite find_snoc.
  destruct (find (Mongo.key_matches t s) (news_articles d));
    [reflexivity|].
  unfold Mongo.key_matches, same_key. cbn.
  now destruct ((title a =? t)%string && (source a =? s)%string).
Qed.

Lemma filter_new_value articles :
  forall acc w,
    fst (filter_new clock articles acc w)
    = Returned
        (acc ++ new_of articles
                  (fun t s => Mongo.article_exists t s (store w))).
Proof.
  induction articles as [|a rest IH]; intros acc w.
  - cbn. now rewrite app_nil_r.
  - cbn [filter_new new_of]. unfold bind at 1. unfold article_exists.
    step.
    destruct (Mongo.article_exists (title a) (source a) (store w))
      eqn:Hknown; cbn [negb].
    + rewrite IH. reflexivity.
    + rewrite save_article_run. cbn beta iota.
      rewrite IH. cbn [store]. rewrite <- app_assoc. cbn [app].
      do 3 f_equal. apply new_of_ext. intros t s.
      apply article_exists_false in Hknown.
      rewrite (exists_after_fresh_save (set_is_posted a false)); auto.
Qed.

Lemma filter_new_docs articles :
  forall acc w,
    exists docs,
      news_articles (store (snd (filter_new clock articles acc w)))
      = news_articles (store w) ++ docs
      /\ Forall2 saved_as
           (new_of articles
              (fun t s => Mongo.article_exists t s (store w)))
           docs.
Proof.
  induction articles as [|a rest IH]; intros acc w.
  - exists []. cbn. rewrite app_nil_r. split; [reflexivity|constructor].
  - cbn [filter_new new_of]. unfold bind at 1. unfold article_exists.
    step.
    destruct (Mongo.article_exists (title a) (source a) (store w))
      eqn:Hknown; cbn [negb].
    + destruct (IH acc
                 {| store := store w; clock_reads := clock_reads w;
                    events := events w
                              ++ [ArticleExists (title a) (source a)] |})
        as (docs & E & F).
      exists docs. split; [exact E|exact F].
    + rewrite save_article_run. cbn beta iota.
      cbn [store clock_reads events].
      apply article_exists_false in Hknown.
      pose proof (exists_after_fresh_save (set_is_posted a false)
                    (clock (clock_reads w)) (store w)) as Hex.
      rewrite (save_article_fresh (set_is_posted a false) _ _ Hknown)
        in *.
      cbn [snd] in *.
      match goal with
      | |- context [filter_new clock rest ?acc' ?w1] =>
          destruct (IH acc' w1) as (docs & E & F)
      end.
      cbn [store news_articles] in E, F.
      eexists (_ :: docs). split.
      * rewrite E, <- app_assoc. reflexivity.
      * constructor; [repeat split|].
        erewrite new_of_ext; [exact F|].
        intros t s. cbn beta. symmetry. now apply Hex.
Qed.

(** A run in which the sink answers the probe and the feed has
    articles is the filter loop on the store it starts from,
    followed by the rest of the run on the new articles. *)
Lemma run_split d articles scraped :
  Py.truthy_dict bot_info = true ->
  Fetcher.fetch_cricket_news_traced parse extract = (articles, scraped) ->
  articles <> [] ->
  let w0 := {| store := d; clock_reads := 0;
               events := [GetBotInfo; FetchCricketNews scraped] |} in
  let new_articles :=
    new_of articles (fun t s => Mongo.article_exists t s d) in
  fst (filter_new clock articles [] w0) = Returned new_articles
  /\ run (start d)
     = finish chat_id sink clock articles new_articles
              (snd (filter_new clock articles [] w0)).
Proof.
  intros Hbot Hfetch Hne w0 new_articles.
  pose proof (filter_new_value articles [] w0) as Hval.
  cbn [app store] in Hval. fold new_articles in Hval.
  split; [exact Hval|].
  unfold fetch_and_post_cricket_news, finish, try_finally, try_except,
    pipeline_body.
  unfold bind at 1. unfold get_bot_info. step. rewrite Hbot.
  cbn [negb]. unfold fetch_cricket_news. rewrite Hfetch. step.
  destruct articles as [|a rest]; [contradiction|].
  unfold start. cbn [store clock_reads events app].
  subst w0.
  destruct (filter_new clock (a :: rest) [] _) as [o w1].
  cbn [fst snd] in *. subst o. reflexivity.
Qed.

Lemma finish_nothing_new articles w1 :
  finish chat_id sink clock articles [] w1
  = (Returned (StatusMessage "success" "No new articles"),
     {| store := snd (Mongo.save_bot_status no_new_articles_status
                        (clock (clock_reads w1)) (store w1));
        clock_reads := S (clock_reads w1);
        events := events w1
                  ++ [SaveBotStatus no_new_articles_status;
                      CloseConnection] |}).
Proof.
  unfold finish, try_finally, try_except, after_filter, close_connection.
  unfold bind at 1. rewrite save_bot_status_run. step.
  now rewrite <- app_assoc.
Qed.

Lemma finish_nothing_posted articles new_articles w1 done :
  new_articles <> [] ->
  Telegram.post_articles_traced chat_id sink new_articles
    = (0%nat, done) ->
  finish chat_id sink clock articles new_articles w1
  = (Returned (StatusError "error" "Failed to post any articles"
                           (clock (S (clock_reads w1)))),
     {| store := snd (Mongo.save_bot_status
                        (error_status "Failed to post any articles")
                        (clock (clock_reads w1)) (store w1));
        clock_reads := S (S (clock_reads w1));
        events := events w1
                  ++ [PostArticles new_articles done;
                      SaveBotStatus
                        (error_status "Failed to post any articles");
                      CloseConnection] |}).
Proof.
  intros Hne Hpost. destruct new_articles as [|a rest];
    [contradiction|].
  unfold finish, try_finally, try_except, after_filter, close_connection.
  unfold bind at 1. unfold post_articles. rewrite Hpost. step.
  cbn [Nat.eqb]. rewrite handler_run. step.
  now rewrite <- !app_assoc.
Qed.

Lemma finish_posted articles new_articles w1 n done :
  new_articles <> [] ->
  Telegram.post_articles_traced chat_id sink new_articles
    = (S n, done) ->
  finish chat_id sink clock articles new_articles w1
  = (Returned (StatusPosted "success" (List.length articles)
                            (List.length new_articles) (S n)
                            (clock (S (clock_reads w1)))),
     {| store := snd (Mongo.save_bot_status (posted_status (S n))
                        (clock (clock_reads w1))
                        (mark_each new_articles (store w1)));
        clock_reads := S (S (clock_reads w1));
        events := events w1
                  ++ [PostArticles new_articles done]
                  ++ map mark_event new_articles
                  ++ [SaveBotStatus (posted_status (S n));
                      CloseConnection] |}).
Proof.
  intros Hne Hpost. destruct new_articles as [|a rest];
    [contradiction|].
  unfold finish, try_finally, try_except, after_filter, close_connection.
  unfold bind at 1. unfold post_articles. rewrite Hpost. step.
  cbn [Nat.eqb]. rewrite mark_all_run. cbn beta iota.
  rewrite save_bot_status_run. step.
  now rewrite <- !app_assoc.
Qed.

Lemma run_unreachable d :
  Py.truthy_dict bot_info = false ->
  run (start d)
  = (Returned (StatusError "error" "Failed to connect to Telegram bot"
                           (clock 1)),
     {| store := snd (Mongo.save_bot_status
                        (error_status "Failed to connect to Telegram bot")
                        (clock 0) d);
        clock_reads := 2;
        events := [GetBotInfo;
                   SaveBotStatus
                     (error_status "Failed to connect to Telegram bot");
                   CloseConnection] |}).
Proof.
  intros Hbot.
  unfold fetch_and_post_cricket_news, try_finally, try_except,
    pipeline_body.
  unfold bind at 1. unfold get_bot_info. step. rewrite Hbot.
  cbn [negb]. rewrite handler_run. reflexivity.
Qed.

Lemma run_empty_feed d scraped :
  Py.truthy_dict bot_info = true ->
  Fetcher.fetch_cricket_news_traced parse extract = ([], scraped) ->
  run (start d)
  = (Returned (StatusMessage "success" "No articles found"),
     {| store := snd (Mongo.save_bot_status no_articles_status
                        (clock 0) d);
        clock_reads := 1;
        events := [GetBotInfo; FetchCricketNews scraped;
                   SaveBotStatus no_articles_status;
                   CloseConnection] |}).
Proof.
  intros Hbot Hfetch.
  unfold fetch_and_post_cricket_news, try_finally, try_except,
    pipeline_body, close_connection.
  unfold bind at 1. unfold get_bot_info. step. rewrite Hbot.
  cbn [negb]. unfold fetch_cricket_news. rewrite Hfetch. step.
  rewrite save_bot_status_run. reflexivity.
Qed.

(** *** Which articles a run posts *)

Lemma not_a_probe e probes :
  forallb store_probe probes = true ->
  store_probe e = false -> ~ In e probes.
Proof.
  intros Hall He Hin. rewrite forallb_forall in Hall.
  rewrite (Hall e Hin) in He. discriminate.
Qed.

Lemma not_a_mark e (l : list article_data) :
  (forall a, e <> mark_event a) -> ~ In e (map mark_event l).
Proof.
  intros Hne Hin. apply in_map_iff in Hin.
  destruct Hin as (a & Ha & _). now apply (Hne a).
Qed.

Ltac locate H :=
  repeat (rewrite in_app_iff in H; cbn [In] in H);
  cbn [In] in H;
  repeat match type of H with
         | _ \/ _ => destruct H as [H|H]
         | False => contradiction
         | In _ (map mark_event _) =>
             exfalso; revert H; apply not_a_mark;
             intros ?; discriminate
         | In _ _ =>
             exfalso; revert H; apply not_a_probe;
             [assumption|reflexivity]
         | _ = _ => first [discriminate H | inversion H; subst; clear H]
         end.

(** The filter loop and the rest of a run in which the sink answers
    the probe and the feed has articles. *)
Lemma run_through_filter d articles scraped :
  Py.truthy_dict bot_info = true ->
  Fetcher.fetch_cricket_news_traced parse extract = (articles, scraped) ->
  articles <> [] ->
  let new_articles :=
    new_of articles (fun t s => Mongo.article_exists t s d) in
  exists probes w1,
    run (start d) = finish chat_id sink clock articles new_articles w1
    /\ events w1 = [GetBotInfo; FetchCricketNews scraped] ++ probes
    /\ forallb store_probe probes = true
    /\ bot_status (store w1) = bot_status d
    /\ (forall a, In a new_articles ->
          Mongo.article_exists (title a) (source a) (store w1) = true)
    /\ (forall t s, Mongo.article_exists t s d = true ->
                    Mongo.article_exists t s (store w1) = true)
    /\ (new_articles = [] -> news_articles (store w1) = news_articles d)
    /\ grows {| store := d; clock_reads := 0;
                events := [GetBotInfo; FetchCricketNews scraped] |} w1
    /\ (exists docs, news_articles (store w1) = news_articles d ++ docs
                     /\ Forall2 saved_as new_articles docs).
Proof.
  intros Hbot Hfetch Hne new_articles.
  destruct (run_split d articles scraped Hbot Hfetch Hne)
    as [Hval Hrun].
  set (w0 := {| store := d; clock_reads := 0;
                events := [GetBotInfo; FetchCricketNews scraped] |}) in *.
  destruct (filter_new_run clock articles [] w0)
    as (new' & probes & w1 & Hf & Hev & Hpr & Hst & Hin & Hmono & Hnil).
  pose proof (keeps_filter_new articles [] w0) as Hgrow.
  pose proof (filter_new_docs articles [] w0) as Hdocs.
  rewrite Hf in Hval, Hrun, Hgrow, Hdocs. cbn [fst snd app] in *.
  injection Hval as Hval. subst new'.
  exists probes, w1. subst w0. cbn [store events] in *.
  split; [exact Hrun|]. split; [exact Hev|]. split; [exact Hpr|].
  split; [exact Hst|]. split; [exact Hin|]. split; [exact Hmono|].
  split; [exact Hnil|]. split; [exact Hgrow|exact Hdocs].
Qed.

Lemma run_posts_only_the_new d x y :
  In (PostArticles x y) (events (snd (run (start d)))) ->
  exists articles scraped,
    Py.truthy_dict bot_info = true
    /\ Fetcher.fetch_cricket_news_traced parse extract
       = (articles, scraped)
    /\ x = new_of articles (fun t s => Mongo.article_exists t s d)
    /\ x <> []
    /\ y = snd (Telegram.post_articles_traced chat_id sink x).
Proof.
  intros Hin.
  destruct (Py.truthy_dict bot_info) eqn:Hbot.
  2:{ rewrite (run_unreachable d Hbot) in Hin. cbn [snd events] in Hin.
      locate Hin. }
  destruct (Fetcher.fetch_cricket_news_traced parse extract)
    as [articles scraped] eqn:Hfetch.
  destruct articles as [|a rest].
  { rewrite (run_empty_feed d scraped Hbot Hfetch) in Hin.
    cbn [snd events] in Hin. locate Hin. }
  destruct (run_through_filter d (a :: rest) scraped Hbot Hfetch
              ltac:(discriminate))
    as (probes & w1 & Hrun & Hev & Hpr & _).
  exists (a :: rest), scraped.
  split; [reflexivity|]. split; [reflexivity|].
  rewrite Hrun in Hin.
  destruct (new_of (a :: rest) (fun t s => Mongo.article_exists t s d))
    as [|n1 nrest] eqn:Hnew.
  - rewrite finish_nothing_new in Hin. cbn [snd events] in Hin.
    rewrite Hev in Hin. locate Hin.
  - destruct (Telegram.post_articles_traced chat_id sink (n1 :: nrest))
      as [[|n] done] eqn:Hpost.
    + rewrite (finish_nothing_posted (a :: rest) (n1 :: nrest) w1 done
                 ltac:(discriminate) Hpost)
        in Hin.
      cbn [snd events] in Hin. rewrite Hev in Hin. locate Hin.
      rewrite Hpost. repeat split; [discriminate].
    + rewrite (finish_posted (a :: rest) (n1 :: nrest) w1 n done
                 ltac:(discriminate) Hpost)
        in Hin.
      cbn [snd events] in Hin. rewrite Hev in Hin. locate Hin.
      rewrite Hpost. repeat split; [discriminate].
Qed.

Lemma new_of_fresh articles :
  forall known a,
    In a (new_of articles known) ->
    known (title a) (source a) = false
    /\ exists f, In f articles /\ a = set_is_posted f false.
Proof.
  induction articles as [|x rest IH]; intros known a Hin;
    [contradiction|].
  cbn [new_of] in Hin.
  destruct (known (title x) (source x)) eqn:Hx.
  - destruct (IH known a Hin) as (Hk & f & Hf & E).
    split; [exact Hk|]. exists f. split; [now right|exact E].
  - destruct Hin as [<- | Hin].
    + split; [exact Hx|]. exists x. split; [now left|reflexivity].
    + destruct (IH _ a Hin) as (Hk & f & Hf & E).
      apply orb_false_iff in Hk. split; [tauto|].
      exists f. split; [now right|exact E].
Qed.

Lemma same_key_iff x t s : same_key x t s = true <-> key x = (t, s).
Proof.
  unfold same_key, key. rewrite andb_true_iff, !String.eqb_eq.
  split; [intros [-> ->]; reflexivity|intros E; now inversion E].
Qed.

Lemma new_of_keys_known articles :
  forall known a,
    In a (new_of articles known) ->
    forall x, known (title x) (source x) = true -> key a <> key x.
Proof.
  intros known a Hin x Hx E.
  destruct (new_of_fresh articles known a Hin) as [Hk _].
  unfold key in E. inversion E as [[E1 E2]]. congruence.
Qed.

Lemma new_of_distinct articles :
  forall known, NoDup (map key (new_of articles known)).
Proof.
  induction articles as [|x rest IH]; intros known; [constructor|].
  cbn [new_of]. destruct (known (title x) (source x)); [apply IH|].
  cbn [map]. constructor; [|apply IH].
  intros Hin. apply in_map_iff in Hin. destruct Hin as (b & E & Hb).
  apply (new_of_keys_known rest _ b Hb x);
    [|exact E].
  apply orb_true_iff. right. now apply same_key_iff.
Qed.

Lemma new_of_covers articles :
  forall known f,
    In f articles -> known (title f) (source f) = false ->
    In (key f) (map key (new_of articles known)).
Proof.
  induction articles as [|x rest IH]; intros known f Hin Hk;
    [contradiction|].
  cbn [new_of]. destruct (known (title x) (source x)) eqn:Hx.
  - destruct Hin as [-> | Hin]; [congruence|now apply IH].
  - cbn [map]. destruct Hin as [-> | Hin]; [now left|].
    destruct (same_key x (title f) (source f)) eqn:Hs.
    + left. apply same_key_iff in Hs. exact Hs.
    + right. apply IH; [exact Hin|]. now rewrite Hk, Hs.
Qed.

Lemma new_of_all_known articles :
  forall known,
    (forall f, In f articles -> known (title f) (source f) = true) ->
    new_of articles known = [].
Proof.
  induction articles as [|x rest IH]; intros known H; [reflexivity|].
  cbn [new_of]. rewrite (H x) by now left.
  apply IH. intros f Hf. apply H. now right.
Qed.

(** X12. The articles that a run gives to [post_articles] are the articles
    of the feed under keys that the store did not hold when the run
    began, one for each such key, the first of the feed, in the
    order of the feed, each with its posted flag set to [False]. *)
Theorem posted_articles_are_the_unknown d x y :
  In (PostArticles x y) (events (snd (run (start d)))) ->
  let fetched := Fetcher.fetch_cricket_news parse extract in
  x = new_of fetched (fun t s => Mongo.article_exists t s d)
  /\ (forall a, In a x ->
        Mongo.article_exists (title a) (source a) d = false
        /\ exists f, In f fetched /\ a = set_is_posted f false)
  /\ NoDup (map key x)
  /\ (forall f, In f fetched ->
        Mongo.article_exists (title f) (source f) d = false ->
        In (key f) (map key x)).
Proof.
  intros Hin fetched.
  destruct (run_posts_only_the_new d x y Hin)
    as (articles & scraped & _ & Hfetch & Hx & _).
  assert (E : fetched = articles)
    by (subst fetched; unfold Fetcher.fetch_cricket_news;
        now rewrite Hfetch).
  rewrite E. split; [exact Hx|]. subst x. split; [|split].
  - intros a Ha. now apply new_of_fresh in Ha.
  - apply new_of_distinct.
  - intros f Hf Hk. now apply new_of_covers.
Qed.

(** X13. A run over a feed all of whose articles are stored: it returns
    success with the message [No new articles], appends that status
    with [articles_posted] 0, leaves the stored articles as they are
    and never calls [post_articles]. *)
Theorem known_feed_posts_nothing d :
  Py.truthy_dict bot_info = true ->
  Fetcher.fetch_cricket_news parse extract <> [] ->
  (forall f, In f (Fetcher.fetch_cricket_news parse extract) ->
     Mongo.article_exists (title f) (source f) d = true) ->
  fst (run (start d))
  = Returned (StatusMessage "success" "No new articles")
  /\ news_articles (store (snd (run (start d)))) = news_articles d
  /\ (exists now id,
        bot_status (store (snd (run (start d))))
        = bot_status d
          ++ [ {| Mongo.st_id := id;
                  Mongo.st_last_run := now;
                  Mongo.st_articles_posted := 0;
                  Mongo.st_status := "success";
                  Mongo.st_error_message :=
                    Some "No new articles"%string |} ])
  /\ (forall x y, ~ In (PostArticles x y)
                      (events (snd (run (start d))))).
Proof.
  intros Hbot Hne Hknown. unfold Fetcher.fetch_cricket_news in *.
  destruct (Fetcher.fetch_cricket_news_traced parse extract)
    as [articles scraped] eqn:Hfetch. cbn [fst] in *.
  destruct (run_through_filter d articles scraped Hbot Hfetch Hne)
    as (probes & w1 & Hrun & Hev & Hpr & Hst & _ & _ & Hnil & _).
  rewrite (new_of_all_known articles _ Hknown) in *.
  rewrite Hrun, finish_nothing_new. cbn [fst snd store events].
  split; [reflexivity|]. split; [cbn; now apply Hnil|].
  split; [cbn; rewrite Hst; eexists _, _; reflexivity|].
  intros x y Hin. rewrite Hev in Hin. locate Hin.
Qed.

Lemma posted_count_le articles :
  (fst (Telegram.post_articles_traced chat_id sink articles)
   <= List.length articles)%nat.
Proof.
  unfold Telegram.post_articles_traced.
  rewrite TelegramFacts.post_loop_spec. cbn [fst].
  apply TelegramFacts.confirmed_le.
Qed.

(** X14. A run whose [post_articles] confirms some but not all of its new
    articles is a success: the result has status [success] and
    reports the number found, the number new and the number
    confirmed; the status appended has [articles_posted] equal to
    the number confirmed and no error message. *)
Theorem partial_delivery_is_success d x y :
  In (PostArticles x y) (events (snd (run (start d)))) ->
  Telegram.post_articles chat_id sink x <> 0%nat ->
  let posted_count := Telegram.post_articles chat_id sink x in
  (posted_count <= List.length x)%nat
  /\ (exists timestamp,
        fst (run (start d))
        = Returned
            (StatusPosted "success"
               (List.length (Fetcher.fetch_cricket_news parse extract))
               (List.length x) posted_count timestamp))
  /\ (exists now id,
        bot_status (store (snd (run (start d))))
        = bot_status d
          ++ [ {| Mongo.st_id := id;
                  Mongo.st_last_run := now;
                  Mongo.st_articles_posted := posted_count;
                  Mongo.st_status := "success";
                  Mongo.st_error_message := None |} ]).
Proof.
  intros Hin Hcount posted_count. subst posted_count.
  unfold Telegram.post_articles in *.
  split; [apply posted_count_le|].
  destruct (run_posts_only_the_new d x y Hin)
    as (articles & scraped & Hbot & Hfetch & Hx & Hne & Hy).
  assert (Ha : articles <> []).
  { intros ->. subst x. now apply Hne. }
  destruct (run_through_filter d articles scraped Hbot Hfetch Ha)
    as (probes & w1 & Hrun & Hev & Hpr & Hst & _).
  rewrite <- Hx in Hrun.
  destruct (Telegram.post_articles_traced chat_id sink x)
    as [[|n] done] eqn:Hpost; [now cbn in Hcount|].
  rewrite Hrun, (finish_posted articles x w1 n done Hne Hpost).
  cbn [fst snd store]. unfold Fetcher.fetch_cricket_news.
  rewrite Hfetch. cbn [fst].
  split; [eexists; reflexivity|].
  cbn [bot_status Mongo.save_bot_status snd].
  rewrite StoreFacts.mark_each_statuses, Hst.
  eexists _, _. reflexivity.
Qed.

(** X15. After a run that goes on to mark, the number of posted articles
    that [get_statistics] counts has risen by the number of new
    articles of the run, whatever the number of confirmed
    deliveries was: the statistics count the articles marked, not the
    articles delivered. *)
Theorem statistics_count_the_marked d x y :
  In (PostArticles x y) (events (snd (run (start d)))) ->
  Telegram.post_articles chat_id sink x <> 0%nat ->
  forall now,
    fst (MongoQueries.get_statistics now (store (snd (run (start d)))))
    = (fst (MongoQueries.get_statistics now d) + List.length x)%nat.
Proof.
  intros Hin Hcount now. unfold Telegram.post_articles in Hcount.
  destruct (run_posts_only_the_new d x y Hin)
    as (articles & scraped & Hbot & Hfetch & Hx & Hne & Hy).
  assert (Ha : articles <> []).
  { intros ->. subst x. now apply Hne. }
  destruct (run_through_filter d articles scraped Hbot Hfetch Ha)
    as (probes & w1 & Hrun & _ & _ & _ & _ & _ & _ & _ & docs & Hd & Hf).
  rewrite <- Hx in Hrun, Hf.
  destruct (Telegram.post_articles_traced chat_id sink x)
    as [[|n] done] eqn:Hpost; [now cbn in Hcount|].
  rewrite Hrun, (finish_posted articles x w1 n done Hne Hpost).
  cbn [snd store]. unfold MongoQueries.get_statistics.
  cbn [fst news_articles Mongo.save_bot_status snd].
  apply (StoreFacts.mark_each_counts x docs Hf (store w1)
           (news_articles d) Hd).
  - rewrite Hx. apply new_of_distinct.
  - intros a Ha'. rewrite Hx in Ha'.
    destruct (new_of_fresh articles _ a Ha') as [Hk _].
    now apply article_exists_false in Hk.
Qed.

(** X16. A run whose probe of the sink gets no answer: it returns the
    error [Failed to connect to Telegram bot], appends that status,
    and does nothing else: it does not fetch the feed, it makes no
    call on the stored articles or on the delivery client, and the
    stored articles are as they were. *)
Theorem unreachable_sink_aborts d :
  Py.truthy_dict bot_info = false ->
  (exists timestamp,
     fst (run (start d))
     = Returned (StatusError "error"
                   "Failed to connect to Telegram bot" timestamp))
  /\ events (snd (run (start d)))
     = [GetBotInfo;
        SaveBotStatus (error_status "Failed to connect to Telegram bot");
        CloseConnection]
  /\ news_articles (store (snd (run (start d)))) = news_articles d
  /\ (exists now id,
        bot_status (store (snd (run (start d))))
        = bot_status d
          ++ [ {| Mongo.st_id := id;
                  Mongo.st_last_run := now;
                  Mongo.st_articles_posted := 0;
                  Mongo.st_status := "error";
                  Mongo.st_error_message :=
                    Some "Failed to connect to Telegram bot"%string |} ]).
Proof.
  intros Hbot. rewrite (run_unreachable d Hbot). cbn [fst snd].
  split; [eexists; reflexivity|]. split; [reflexivity|].
  split; [reflexivity|]. eexists _, _. reflexivity.
Qed.

(** X17. Every run appends exactly one status, at the end of the
    statuses, and that status agrees with the result returned: the
    same [status], which is [success] or [error], and the same number
    of articles posted. *)
Theorem every_run_appends_one_status d :
  exists result doc,
    fst (run (start d)) = Returned result
    /\ bot_status (store (snd (run (start d)))) = bot_status d ++ [doc]
    /\ Mongo.st_status doc = result_status result
    /\ Mongo.st_articles_posted doc = result_posted result
    /\ (result_status result = "success"%string
        \/ result_status result = "error"%string).
Proof.
  destruct (Py.truthy_dict bot_info) eqn:Hbot.
  2:{ rewrite (run_unreachable d Hbot). cbn [fst snd store].
      eexists _, _. split; [reflexivity|]. split; [reflexivity|].
      cbn. auto. }
  destruct (Fetcher.fetch_cricket_news_traced parse extract)
    as [articles scraped] eqn:Hfetch.
  destruct articles as [|a rest].
  { rewrite (run_empty_feed d scraped Hbot Hfetch). cbn [fst snd store].
    eexists _, _. split; [reflexivity|]. split; [reflexivity|].
    cbn. auto. }
  destruct (run_through_filter d (a :: rest) scraped Hbot Hfetch
              ltac:(discriminate))
    as (probes & w1 & Hrun & _ & _ & Hst & _).
  rewrite Hrun.
  destruct (new_of (a :: rest) (fun t s => Mongo.article_exists t s d))
    as [|n1 nrest].
  - rewrite finish_nothing_new. cbn [fst snd store].
    eexists _, _. split; [reflexivity|].
    cbn [bot_status Mongo.save_bot_status snd]. rewrite Hst.
    split; [reflexivity|]. cbn. auto.
  - destruct (Telegram.post_articles_traced chat_id sink (n1 :: nrest))
      as [[|n] done] eqn:Hpost.
    + rewrite (finish_nothing_posted (a :: rest) (n1 :: nrest) w1 done
                 ltac:(discriminate) Hpost).
      cbn [fst snd store]. eexists _, _. split; [reflexivity|].
      cbn [bot_status Mongo.save_bot_status snd]. rewrite Hst.
      split; [reflexivity|]. cbn. auto.
    + rewrite (finish_posted (a :: rest) (n1 :: nrest) w1 n done
                 ltac:(discriminate) Hpost).
      cbn [fst snd store]. eexists _, _. split; [reflexivity|].
      cbn [bot_status Mongo.save_bot_status snd].
      rewrite StoreFacts.mark_each_statuses, Hst.
      split; [reflexivity|]. cbn. auto.
Qed.

(** After a run in which the sink answered the probe, every article
    of the feed is stored. *)
Lemma fetched_are_stored d :
  Py.truthy_dict bot_info = true ->
  forall f, In f (Fetcher.fetch_cricket_news parse extract) ->
    Mongo.article_exists (title f) (source f)
      (store (snd (run (start d)))) = true.
Proof.
  intros Hbot f Hf. unfold Fetcher.fetch_cricket_news in Hf.
  destruct (Fetcher.fetch_cricket_news_traced parse extract)
    as [articles scraped] eqn:Hfetch. cbn [fst] in Hf.
  assert (Hne : articles <> []) by (intros ->; contradiction).
  destruct (run_through_filter d articles scraped Hbot Hfetch Hne)
    as (probes & w1 & Hrun & _ & _ & _ & Hin & Hmono & _).
  rewrite Hrun.
  apply (exists_grows w1); [apply keeps_finish|].
  destruct (Mongo.article_exists (title f) (source f) d) eqn:Hk;
    [now apply Hmono|].
  pose proof (new_of_covers articles
                (fun t s => Mongo.article_exists t s d) f Hf Hk) as Hc.
  apply in_map_iff in Hc. destruct Hc as (b & E & Hb).
  unfold key in E. inversion E as [[E1 E2]].
  pose proof (Hin b Hb) as Hb'. congruence.
Qed.

End WithCollaborators.

(** *** The second run *)

Lemma article_of_key e1 e2 item :
  match Fetcher.article_of e1 item, Fetcher.article_of e2 item with
  | Some a1, Some a2 => key a1 = key a2
  | None, None => True
  | _, _ => False
  end.
Proof.
  unfold Fetcher.article_of.
  destruct (Fetcher.entry_link item) as [l|]; [|exact I].
  destruct (Fetcher.entry_title item) as [t|]; [|exact I].
  destruct (e1 l), (e2 l). reflexivity.
Qed.

Lemma candidates_keys e1 e2 entries :
  map key (Fetcher.candidates e1 entries)
  = map key (Fetcher.candidates e2 entries).
Proof.
  induction entries as [|item rest IH]; [reflexivity|].
  unfold Fetcher.candidates in *. cbn [flat_map].
  rewrite !map_app, IH. f_equal.
  pose proof (article_of_key e1 e2 item) as H.
  destruct (Fetcher.article_of e1 item), (Fetcher.article_of e2 item);
    try contradiction; [|reflexivity].
  cbn [map]. now rewrite H.
Qed.

Lemma fetched_keys parse e1 e2 :
  map key (Fetcher.fetch_cricket_news parse e1)
  = map key (Fetcher.fetch_cricket_news parse e2).
Proof.
  destruct parse as [entries|]; [|reflexivity].
  unfold Fetcher.fetch_cricket_news.
  rewrite !FetcherFacts.fetch_traced_some.
  rewrite !FetcherFacts.fetch_loop_articles by (cbn; lia).
  cbn [app List.length]. rewrite <- !firstn_map.
  f_equal. apply candidates_keys.
Qed.

(** X18. After a run in which the sink answered the probe, a second run over
    the same feed entries gives nothing to [post_articles], whatever
    the scrape, the sink and the clock of the second run are, and
    whatever the sink answered in the first: the articles of the first
    run were stored before they were posted, so an article whose
    delivery failed is not posted by the second run either. *)
Theorem second_run_posts_nothing
    parse extract1 extract2 chat1 chat2 sink1 sink2 bot1 bot2 clock1 clock2 d :
  Py.truthy_dict bot1 = true ->
  let d1 := store (snd (fetch_and_post_cricket_news parse extract1 chat1
                          sink1 bot1 clock1 (start d))) in
  forall x y,
    ~ In (PostArticles x y)
         (events (snd (fetch_and_post_cricket_news parse extract2 chat2
                         sink2 bot2 clock2 (start d1)))).
Proof.
  intros Hbot d1 x y Hin.
  destruct (run_posts_only_the_new parse extract2 chat2 sink2 bot2 clock2
              d1 x y Hin)
    as (articles & scraped & _ & Hfetch & Hx & Hne & _).
  apply Hne. rewrite Hx. apply new_of_all_known. intros f Hf.
  assert (Hf2 : In f (Fetcher.fetch_cricket_news parse extract2))
    by (unfold Fetcher.fetch_cricket_news; now rewrite Hfetch).
  assert (Hk : In (key f)
                  (map key (Fetcher.fetch_cricket_news parse extract1))).
  { rewrite (fetched_keys parse extract1 extract2). now apply in_map. }
  apply in_map_iff in Hk. destruct Hk as (g & E & Hg).
  unfold key in E. inversion E as [[E1 E2]].
  pose proof (fetched_are_stored parse extract1 chat1 sink1 bot1 clock1
                d Hbot g Hg) as Hg'.
  fold d1 in Hg'. congruence.
Qed.

(** *** The theorems at concrete runs *)

Import Fixtures.

Lemma posted_articles_are_the_unknown_witness :
  NoDup (map key two_new).
Proof.
  destruct (posted_articles_are_the_unknown (Some two_entries) no_content
              EmptyString first_refused reachable ticking empty_db
              two_new
              (snd (Telegram.post_articles_traced EmptyString first_refused
                      two_new))
              ltac:(pick_event))
    as (_ & _ & H & _).
  exact H.
Defined.

Lemma known_feed_posts_nothing_witness :
  fst (fetch_and_post_cricket_news (Some two_entries) no_content
         EmptyString first_refused reachable ticking
         (start (store (run_with (Some two_entries) all_refused))))
  = Returned (StatusMessage "success" "No new articles").
Proof.
  apply known_feed_posts_nothing.
  - reflexivity.
  - vm_compute. discriminate.
  - intros f Hf. vm_compute in Hf.
    destruct Hf as [<- | [<- | []]]; vm_compute; reflexivity.
Defined.

Lemma partial_delivery_is_success_witness :
  exists timestamp,
    fst (fetch_and_post_cricket_news (Some two_entries) no_content
           EmptyString first_refused reachable ticking (start empty_db))
    = Returned (StatusPosted "success" 2 2 1 timestamp).
Proof.
  destruct (partial_delivery_is_success (Some two_entries) no_content
              EmptyString first_refused reachable ticking empty_db
              two_new
              (snd (Telegram.post_articles_traced EmptyString first_refused
                      two_new))
              ltac:(pick_event)
              ltac:(vm_compute; discriminate))
    as (_ & (timestamp & H) & _).
  exists timestamp. rewrite H. vm_compute. reflexivity.
Defined.

Lemma statistics_count_the_marked_witness :
  Telegram.post_articles EmptyString first_refused two_new = 1%nat
  /\ fst (MongoQueries.get_statistics 0
            (store (run_with (Some two_entries) first_refused))) = 2%nat.
Proof.
  split; [vm_compute; reflexivity|].
  unfold run_with.
  rewrite (statistics_count_the_marked (Some two_entries) no_content
             EmptyString first_refused reachable ticking empty_db
             two_new
             (snd (Telegram.post_articles_traced EmptyString first_refused
                     two_new))
             ltac:(pick_event)
             ltac:(vm_compute; discriminate)).
  vm_compute. reflexivity.
Defined.

Lemma unreachable_sink_aborts_witness :
  events (snd (fetch_and_post_cricket_news (Some two_entries) no_content
                 EmptyString first_refused None ticking (start empty_db)))
  = [GetBotInfo;
     SaveBotStatus (error_status "Failed to connect to Telegram bot");
     CloseConnection].
Proof.
  apply (unreachable_sink_aborts (Some two_entries) no_content
           EmptyString first_refused None ticking empty_db).
  reflexivity.
Defined.

Lemma second_run_posts_nothing_witness :
  ~ In (PostArticles two_new [])
       (events (snd (fetch_and_post_cricket_news (Some two_entries)
                       no_content EmptyString first_refused reachable
                       ticking
                       (start (store (run_with (Some two_entries)
                                               all_refused)))))).
Proof.
  apply (second_run_posts_nothing (Some two_entries) no_content no_content
           EmptyString EmptyString all_refused first_refused
           reachable reachable ticking ticking empty_db).
  reflexivity.
Defined.

End RunFacts.

(* ================================================================== *)
(** ** The run of a task and the cleanup task *)

Module RunnerFacts.
Import Datetime Tasks Growth Runner.
Import Mongo (db, news_articles, bot_status, scheduler_tasks).
Import RunFacts.

Section WithCollaborators.
Variable parse : option (list Fetcher.entry).
Variable extract : string -> option string * option string.
Variable chat_id : string.
Variable sink : nat -> Telegram.request -> bool.
Variable bot_info : option (list (string * string)).
Variable clock : nat -> datetime.

Ltac step :=
  unfold bind, ret, emit, get_store, put_store, utcnow, raise;
  cbn [store events clock_reads fst snd].




End WithCollaborators.


End RunnerFacts.

(* ================================================================== *)
(** ** The scrape of an article page, and more of the delivery client *)

Module ScraperFacts.
Import Mongo Scraper.

Lemma lower_char_twice c : lower_char (lower_char c) = lower_char c.
Proof.
  destruct c as [[|] [|] [|] [|] [|] [|] [|] [|]]; reflexivity.
Qed.

Lemma lower_twice s : lower (lower s) = lower s.
Proof.
  induction s as [|c s IH]; [reflexivity|].
  cbn [lower]. now rewrite lower_char_twice, IH.
Qed.

Lemma lower_truthy u :
  Py.truthy_str (Some (lower u)) = Py.truthy_str (Some u).
Proof. now destruct u. Qed.

(** X21. The two checks of an image URL do not depend on the case of its
    letters: a URL and its lower-case form get the same answers.  A
    missing or empty URL is not valid and is generic. *)
Theorem image_checks_ignore_case u :
  is_valid_image_url (Some (lower u)) = is_valid_image_url (Some u)
  /\ is_generic_image (Some (lower u)) = is_generic_image (Some u)
  /\ is_valid_image_url None = false
  /\ is_valid_image_url (Some EmptyString) = false
  /\ is_generic_image None = true
  /\ is_generic_image (Some EmptyString) = true.
Proof.
  unfold is_valid_image_url, is_generic_image.
  rewrite lower_truthy, lower_twice. repeat split.
Qed.

Lemma absolute_no_slash found :
  String.prefix "/" (absolute found) = false.
Proof.
  unfold absolute.
  destruct (String.prefix "//" found) eqn:H2; [reflexivity|].
  destruct (String.prefix "/" found) eqn:H1; [reflexivity|exact H1].
Qed.

Lemma find_image_acceptable soup selectors :
  forall u, find_image soup selectors = Some u ->
    is_valid_image_url (Some u) = true
    /\ is_generic_image (Some u) = false
    /\ String.prefix "/" u = false.
Proof.
  induction selectors as [|selector rest IH]; intros u H;
    [discriminate|].
  cbn [find_image] in H.
  destruct (select_one soup selector) as [element|]; [|now apply IH].
  destruct (or_else (attr_content element) (attr_src element))
    as [found|]; [|now apply IH].
  destruct (Py.truthy_str (Some found)); [|now apply IH].
  destruct (is_valid_image_url (Some (absolute found))
            && negb (is_generic_image (Some (absolute found)))) eqn:Hok;
    [|now apply IH].
  injection H as <-. apply andb_true_iff in Hok.
  destruct Hok as [Hv Hg]. apply negb_true_iff in Hg.
  repeat split; try assumption. apply absolute_no_slash.
Qed.

Lemma find_description_long soup selectors :
  forall s, find_description soup selectors = Some s ->
    (50 < String.length s)%nat.
Proof.
  induction selectors as [|selector rest IH]; intros s H;
    [discriminate|].
  cbn [find_description] in H.
  destruct (select_one soup selector) as [element|]; [|now apply IH].
  destruct (or_else (attr_content element)
                    (Some (stripped_text element)))
    as [desc|]; [|now apply IH].
  destruct (Py.truthy_str (Some desc) && (50 <? String.length desc)%nat)
    eqn:Hok; [|now apply IH].
  injection H as <-. apply andb_true_iff in Hok.
  destruct Hok as [_ Hlen]. now apply Nat.ltb_lt in Hlen.
Qed.

Lemma valid_is_truthy u :
  is_valid_image_url (Some u) = true -> Py.truthy_str (Some u) = true.
Proof.
  unfold is_valid_image_url. now destruct (Py.truthy_str (Some u)).
Qed.

Section WithPages.
Variable get : string -> option page.

Lemma scraped_content_checked url :
  (forall u, fst (extract_article_content get url) = Some u ->
     is_valid_image_url (Some u) = true
     /\ is_generic_image (Some u) = false
     /\ String.prefix "/" u = false
     /\ Py.truthy_str (Some u) = true)
  /\ (forall s, snd (extract_article_content get url) = Some s ->
         (50 < String.length s)%nat).
Proof.
  unfold extract_article_content.
  destruct (get url) as [response|];
    [|cbn [fst snd]; split; discriminate].
  destruct (status_code response =? 200); cbn [negb fst snd];
    [|split; discriminate].
  split.
  - intros u Hu.
    destruct (find_image_acceptable _ _ u Hu) as (Hv & Hg & Hp).
    repeat split; try assumption. now apply valid_is_truthy.
  - apply find_description_long.
Qed.

(** X22. What [extract_article_content] returns.  Without a page of
    status 200 it returns neither an image nor a description.  An
    image it returns ends, whatever the case of its letters, in one of
    the five image extensions, contains none of the five generic
    keywords, and does not start with a slash; a description it
    returns is longer than 50 characters. *)
Theorem scrape_returns_acceptable_content url :
  let image := fst (extract_article_content get url) in
  let description := snd (extract_article_content get url) in
  (forall u, image = Some u ->
     is_valid_image_url (Some u) = true
     /\ is_generic_image (Some u) = false
     /\ String.prefix "/" u = false
     /\ Py.truthy_str (Some u) = true)
  /\ (forall s, description = Some s -> (50 < String.length s)%nat)
  /\ ((forall response, get url = Some response ->
         status_code response <> 200) ->
      image = None /\ description = None).
Proof.
  cbv zeta. destruct (scraped_content_checked url) as [Himg Hdesc].
  split; [exact Himg|]. split; [exact Hdesc|].
  clear Himg Hdesc. unfold extract_article_content.
  destruct (get url) as [response|]; [|now split].
  intros H. destruct (status_code response =? 200) eqn:Hs;
    cbn [negb fst snd]; [|now split].
  exfalso. apply (H response eq_refl). now apply Z.eqb_eq.
Qed.

Lemma candidates_from extract entries a :
  In a (Fetcher.candidates extract entries) ->
  exists item, In item entries /\ Fetcher.article_of extract item = Some a.
Proof.
  unfold Fetcher.candidates. intros H. apply in_flat_map in H.
  destruct H as (item & Hitem & Ha). exists item. split; [exact Hitem|].
  destruct (Fetcher.article_of extract item) as [b|];
    [|contradiction].
  destruct Ha as [<- | []]. reflexivity.
Qed.

Lemma in_firstn {A} n (l : list A) x : In x (firstn n l) -> In x l.
Proof.
  intros H. rewrite <- (firstn_skipn n l). apply in_app_iff. now left.
Qed.

(** X23. The articles that [fetch_cricket_news] returns when it scrapes
    with [extract_article_content]: each has the source [ESPN] and no
    posted flag; its title and link are those of an entry of the
    feed; its image, when it has one, passed the two checks, so that
    [post_articles] sends a photo for exactly the articles with an
    image; and its description, when it has one, is longer than 50
    characters or is the summary of its entry. *)
Theorem fetched_articles_are_well_formed parse a :
  In a (Fetcher.fetch_cricket_news parse (extract_article_content get)) ->
  source a = "ESPN"%string
  /\ is_posted a = None
  /\ (exists entries item,
        parse = Some entries /\ In item (firstn 10 entries)
        /\ Fetcher.entry_title item = Some (title a)
        /\ Fetcher.entry_link item = Some (link a)
        /\ (forall s, description a = Some s ->
              (50 < String.length s)%nat
              \/ Fetcher.entry_summary item = Some s))
  /\ (forall u, image_url a = Some u ->
        is_valid_image_url (Some u) = true
        /\ is_generic_image (Some u) = false)
  /\ (Py.truthy_str (image_url a) = true <-> image_url a <> None).
Proof.
  intros Hin. destruct parse as [entries|]; [|contradiction].
  unfold Fetcher.fetch_cricket_news in Hin.
  rewrite FetcherFacts.fetch_traced_some in Hin.
  rewrite FetcherFacts.fetch_loop_articles in Hin by (cbn; lia).
  cbn [app List.length] in Hin. apply in_firstn in Hin.
  apply candidates_from in Hin. destruct Hin as (item & Hitem & Ha).
  unfold Fetcher.article_of in Ha.
  destruct (Fetcher.entry_link item) as [l|] eqn:Hl; [|discriminate].
  destruct (Fetcher.entry_title item) as [t|] eqn:Ht; [|discriminate].
  pose proof (scraped_content_checked l) as Hs.
  destruct (extract_article_content get l) as [image extracted].
  cbn [fst snd] in Hs. destruct Hs as (Himg & Hdesc).
  injection Ha as <-. cbn [source is_posted title link image_url
                           description].
  split; [reflexivity|]. split; [reflexivity|]. split; [|split].
  - exists entries, item. repeat split; try assumption.
    intros s Hs.
    destruct (negb (Py.truthy_str extracted) && Fetcher.has_summary item);
      [now right|left; now apply Hdesc].
  - intros u Hu. destruct (Himg u Hu) as (Hv & Hg & _). now split.
  - destruct image as [u|]; [|split; [discriminate|congruence]].
    destruct (Himg u eq_refl) as (_ & _ & _ & Htr).
    split; [discriminate|intros _; exact Htr].
Qed.

End WithPages.

Lemma scrape_returns_acceptable_content_witness :
  extract_article_content Pages.site "https://a.example/0"
  = (Some "https://www.espncricinfo.com/db/PICTURES/CMS/1/Match.JPG"%string,
     None)
  /\ extract_article_content Pages.site "https://a.example/1" = (None, None).
Proof.
  split; [vm_compute; reflexivity|].
  destruct (scrape_returns_acceptable_content Pages.site
              "https://a.example/1") as (_ & _ & H).
  destruct H as [H1 H2].
  - intros response E. vm_compute in E. injection E as <-.
    cbn. discriminate.
  - now destruct (extract_article_content Pages.site "https://a.example/1")
      as [i d]; cbn in *; subst.
Defined.

Lemma fetched_articles_are_well_formed_witness :
  map image_url
      (Fetcher.fetch_cricket_news (Some Fixtures.two_entries)
         (extract_article_content Pages.site))
  = [Some "https://www.espncricinfo.com/db/PICTURES/CMS/1/Match.JPG"%string;
     None]
  /\ forall a,
       In a (Fetcher.fetch_cricket_news (Some Fixtures.two_entries)
               (extract_article_content Pages.site)) ->
       source a = "ESPN"%string.
Proof.
  split; [vm_compute; reflexivity|].
  intros a Ha.
  now destruct (fetched_articles_are_well_formed Pages.site
                  (Some Fixtures.two_entries) a Ha) as (H & _).
Defined.

End ScraperFacts.

(* ================================================================== *)
(** ** More of the delivery client: texts that are not cut, and the time
       slept *)

Module DeliveryFacts.
Import Mongo Telegram Delays.
Import TelegramFacts.

Lemma shorten_length n d : (String.length (shorten n d) <= n + 3)%nat.
Proof.
  unfold shorten. destruct (Nat.ltb_spec n (String.length d)); [|lia].
  rewrite length_append, length_slice_to. cbn. lia.
Qed.

Lemma compose_length n article :
  (String.length (compose n article)
   <= n + 46 + String.length (title article)
      + String.length (link article))%nat.
Proof.
  unfold compose, anchor.
  destruct (description article) as [d|].
  - destruct (Py.truthy_str (Some d)).
    + repeat rewrite length_append. pose proof (shorten_length n d).
      cbn [String.length newline quote]. lia.
    + repeat rewrite length_append.
      cbn [String.length newline quote]. lia.
  - repeat rewrite length_append.
    cbn [String.length newline quote]. lia.
Qed.

(** X24. An article whose title and link together have at most 778
    characters is sent, as a photo, with its caption whole and the link
    as the last line; with at most 3750 characters, so is its text as a
    message: the cut can only reach an article with a longer title or
    link. *)
Theorem short_articles_keep_the_link article :
  ((String.length (title article) + String.length (link article)
    <= 778)%nat ->
   photo_caption article = compose 200 article
   /\ final_line (photo_caption article) (anchor (link article)) = true)
  /\ ((String.length (title article) + String.length (link article)
       <= 3750)%nat ->
      message_text article = compose 300 article
      /\ final_line (message_text article) (anchor (link article)) = true).
Proof.
  split; intros Hlen.
  - pose proof (compose_length 200 article).
    unfold photo_caption. cbv zeta.
    destruct (Nat.ltb_spec 1024 (String.length (compose 200 article)));
      [lia|].
    split; [reflexivity|apply compose_final_line].
  - pose proof (compose_length 300 article).
    unfold message_text. cbv zeta.
    destruct (Nat.ltb_spec 4096 (String.length (compose 300 article)));
      [lia|].
    split; [reflexivity|apply compose_final_line].
Qed.

Lemma short_articles_keep_the_link_witness :
  final_line (photo_caption Fixtures.second_story)
             (anchor (link Fixtures.second_story)) = true.
Proof.
  destruct (short_articles_keep_the_link Fixtures.second_story) as [H _].
  apply H. apply Nat.leb_le. vm_compute. reflexivity.
Defined.

Section WithSink.
Variable chat_id : string.
Variable sink : nat -> request -> bool.

Lemma slept_app a b : slept (a ++ b) = (slept a + slept b)%nat.
Proof.
  induction a as [|[i req ok|seconds] a IH]; cbn [app slept];
    [reflexivity|exact IH|lia].
Qed.

Lemma slept_passes n articles :
  forall i, n = (i + List.length articles)%nat ->
    slept (passes chat_id sink n i articles)
    = confirmed chat_id sink i (removelast articles).
Proof.
  induction articles as [|article rest IH]; intros i Hn; [reflexivity|].
  cbn [List.length] in Hn. specialize (IH (S i) ltac:(lia)).
  cbn [passes]. rewrite slept_app, IH. unfold pass.
  destruct rest as [|next rest].
  - replace (i <? n - 1)%nat with false
      by (symmetry; apply Nat.ltb_ge; cbn in Hn; lia).
    cbn. now destruct (sink i (payload_of chat_id article)).
  - replace (i <? n - 1)%nat with true
      by (symmetry; apply Nat.ltb_lt; cbn in Hn; lia).
    cbn [removelast confirmed].
    destruct (sink i (payload_of chat_id article)); cbn [slept]; lia.
Qed.

(** X25. The seconds that [post_articles] sleeps are the number of
    confirmed requests among all articles but the last: none for an
    empty list or a single article, at most the length of the list
    less one, and exactly that when the sink confirms every
    request. *)
Theorem sleeps_one_second_per_confirmed articles :
  let done := snd (post_articles_traced chat_id sink articles) in
  slept done = confirmed chat_id sink 0 (removelast articles)
  /\ (slept done <= List.length articles - 1)%nat
  /\ ((forall i req, sink i req = true) ->
      slept done = (List.length articles - 1)%nat
      /\ post_articles chat_id sink articles = List.length articles).
Proof.
  cbv zeta. unfold post_articles, post_articles_traced.
  rewrite post_loop_spec. cbn [fst snd app].
  rewrite slept_passes by reflexivity.
  split; [reflexivity|]. split.
  - pose proof (confirmed_le chat_id sink (removelast articles) 0).
    destruct articles as [|a rest]; [cbn in *; lia|].
    assert (List.length (removelast (a :: rest))
            = List.length rest).
    { clear. revert a. induction rest as [|b rest IH]; intros a;
        [reflexivity|].
      cbn [removelast List.length] in *. now rewrite IH. }
    cbn [List.length]. lia.
  - intros Hok.
    assert (Hall : forall l i, confirmed chat_id sink i l = List.length l).
    { induction l as [|a l IH]; intros i; [reflexivity|].
      cbn [confirmed List.length]. now rewrite Hok, IH. }
    rewrite !Hall. split; [|reflexivity].
    destruct articles as [|a rest]; [reflexivity|].
    clear. revert a. induction rest as [|b rest IH]; intros a;
      [reflexivity|].
    cbn [removelast List.length] in *. rewrite IH. lia.
Qed.

End WithSink.

Lemma sleeps_one_second_per_confirmed_witness :
  slept (snd (post_articles_traced EmptyString (fun _ _ => true)
                Fixtures.two_new)) = 1%nat.
Proof.
  destruct (sleeps_one_second_per_confirmed EmptyString (fun _ _ => true)
              Fixtures.two_new) as (_ & _ & H).
  destruct (H (fun _ _ => eq_refl)) as [E _]. rewrite E.
  vm_compute. reflexivity.
Defined.

End DeliveryFacts.
